(** * High resolution filament sensor: a shallow embedding of
    [klippy/extras/high_resolution_filament_sensor.py] and the properties of
    its register transport, rotation decoder, move ledger, edge triggers and
    anomaly engine.

    Conventions.  Python [int] is [Z]; Python [float] is the kernel's binary64
    [float]; a [bytearray] is a [list Z] whose elements lie in [0, 256);
    [None] is [None] of [option]; an exception is the [Raise] case of
    [result] (pure code) or the [Raises] case of [outcome] (code that has
    already mutated the object when it raises).  What the host shows the
    sensor during a call (the reactor's clock, the toolhead, the answer of
    the bus) is a record given to the method; what the sensor writes to the
    log and to the console is appended to its journal. *)

From Stdlib Require Import ZArith List Bool Lia PrimFloat Uint63 Floats.
Import ListNotations.
Local Open Scope Z_scope.

(** ** Python values and exceptions *)

Module Py.

Inductive exn : Type :=
| TypeError
| AttributeError
| ZeroDivisionError
| SyntaxError
| struct_error
| CommandError.

Inductive result (A : Type) : Type :=
| Ok (a : A)
| Raise (e : exn).
Arguments Ok {A} a.
Arguments Raise {A} e.

(** The result of a method that acts on an object [W]: the object is kept
    in both cases, since what was written before a raise stays written. *)
Inductive outcome (W A : Type) : Type :=
| Returns (a : A) (w : W)
| Raises (e : exn) (w : W).
Arguments Returns {W A} a w.
Arguments Raises {W A} e w.

Definition bind {A B : Type} (r : result A) (k : A -> result B) : result B :=
  match r with
  | Ok a => k a
  | Raise e => Raise e
  end.

(** Truth value of a float: every float but [0.0] and [-0.0] is true
    (a NaN is true). *)
Definition float_truthy (x : float) : bool := negb (PrimFloat.eqb x 0%float).

(** [x != y] on floats. *)
Definition float_ne (x y : float) : bool := negb (PrimFloat.eqb x y).

(** [x / y] on floats raises on a zero divisor. *)
Definition truediv (x y : float) : result float :=
  if PrimFloat.eqb y 0%float then Raise ZeroDivisionError
  else Ok (PrimFloat.div x y).

(** [max(a, b)] keeps [a] unless [b > a]; [min(a, b)] keeps [a] unless
    [b < a]. *)
Definition max2 (a b : float) : float := if PrimFloat.ltb a b then b else a.
Definition min2 (a b : float) : float := if PrimFloat.ltb b a then b else a.

(** [float(n)] for an integer of magnitude below [2^62] (the registers are
    32 bits wide, so every integer the sensor code converts is far below
    [2^53] and the conversion is exact). *)
Definition float_of_int (n : Z) : float :=
  if n <? 0 then PrimFloat.opp (PrimFloat.of_uint63 (Uint63.of_Z (- n)))
  else PrimFloat.of_uint63 (Uint63.of_Z n).

(** A float that is neither infinite nor a NaN, as every reading of the
    reactor's clock is. *)
Definition is_finite (x : float) : bool :=
  match Prim2SF x with
  | S754_zero _ | S754_finite _ _ _ => true
  | S754_infinity _ | S754_nan => false
  end.

(** [l[-1]], [l[:-1]] and [l[i:-1]] on a list. *)
Definition last_item (l : list Z) : Z := last l 0.
Definition but_last (l : list Z) : list Z := removelast l.
Definition slice_to_last (i : nat) (l : list Z) : list Z := skipn i (removelast l).

Definition is_byte (b : Z) : Prop := 0 <= b < 256.

End Py.

Notation "'do' x <- c1 ; c2" := (Py.bind c1 (fun x => c2))
  (at level 60, x name, c1 at next level, right associativity).

(** ** Registers and magnet states *)

Module SensorRegister.
Definition ALL : Z := 0x10.
Definition MAGNET_STATE : Z := 0x21.
Definition FILAMENT_PRESENCE : Z := 0x22.
Definition FULL_TURNS : Z := 0x23.
Definition ANGLE : Z := 0x24.
End SensorRegister.

Module MagnetState.
Definition NOT_DETECTED : Z := 1.
Definition TOO_WEAK : Z := 2.
Definition TOO_STRONG : Z := 3.
Definition DETECTED : Z := 4.

(** [__str__]: the name in [VALUES], or "unknown". *)
Inductive name : Type :=
| not_detected
| too_weak
| too_strong
| detected
| unknown.

Definition __str__ (value : Z) : name :=
  if value =? NOT_DETECTED then not_detected
  else if value =? TOO_WEAK then too_weak
  else if value =? TOO_STRONG then too_strong
  else if value =? DETECTED then detected
  else unknown.
End MagnetState.

(** ** SensorUART: the serial-frame register transport *)

Inductive uart_log : Type :=
| WrongPrefix (decoded : list Z)
| WrongRegister (echoed expected : Z).

Section SensorUART.

(** [_calc_crc8] is inherited from the host's TMC UART driver; the decoder
    is verified for any such function. *)
Variable _calc_crc8 : list Z -> Z.

(** The bytes are packed least significant first into one integer, and
    every 10-bit group gives up its 8 data bits. *)
Definition pack_bits (data : list Z) : Z * Z :=
  fold_left (fun acc d => (Z.lor (fst acc) (Z.shiftl d (snd acc)), snd acc + 8))
            data (0, 0).

Definition _remove_serial_bits (data : list Z) : list Z :=
  let mval := fst (pack_bits data) in
  map (fun i => Z.land (Z.shiftr mval (Z.of_nat i * 10 + 1)) 0xff)
      (seq 0 (Nat.div (length data * 8) 10)).

(** The decoder returns its warnings and the payload ([None] when the
    message cannot be verified). *)
Definition _decode_read (reg : Z) (data : list Z) : list uart_log * option (list Z) :=
  let decoded := _remove_serial_bits data in
  if (length decoded <? 5)%nat then ([], None)
  else if negb (Py.last_item decoded =? _calc_crc8 (Py.but_last decoded)) then ([], None)
  else if negb (nth 0 decoded 0 =? 0x05) && negb (nth 1 decoded 0 =? 0xff)
       then ([WrongPrefix decoded], None)
  else if negb (nth 2 decoded 0 =? reg)
       then ([WrongRegister (nth 2 decoded 0) reg], None)
  else ([], Some (Py.slice_to_last 3 decoded)).

End SensorUART.

(** ** SensorRotationHelper: raw readings to a cumulative angle *)

Module SensorRotationHelper.

Record t : Type := mk {
  resolution : Z;
  ignore_bits : Z;
  angle_max_value : Z;
  angle_min_value : Z;
  mask : Z;
  _absolute_angular_position : Z
}.

Definition init (resolution ignore_bits : Z) : t :=
  {| resolution := resolution;
     ignore_bits := ignore_bits;
     angle_max_value := Z.shiftl 1 resolution - 1;
     angle_min_value := Z.shiftl 1 ignore_bits;
     mask := Z.shiftl 1 ignore_bits - 1;
     _absolute_angular_position := 0 |}.

(** The integer that is scaled to degrees: the cumulative position with the
    mask bits cleared. *)
Definition masked_position (self : t) : Z :=
  Z.land (_absolute_angular_position self) (Z.lnot (mask self)).

Definition angular_resolution (self : t) : Py.result float :=
  do q <- Py.truediv (Py.float_of_int (angle_min_value self))
                     (Py.float_of_int (angle_max_value self));
  Py.Ok (q * 360)%float.

Definition absolute_angular_position (self : t) : Py.result float :=
  do q <- Py.truediv (Py.float_of_int (masked_position self))
                     (Py.float_of_int (angle_max_value self));
  Py.Ok (q * 360)%float.

Definition update_raw (self : t) (turns angle : Z) : t :=
  {| resolution := resolution self;
     ignore_bits := ignore_bits self;
     angle_max_value := angle_max_value self;
     angle_min_value := angle_min_value self;
     mask := mask self;
     _absolute_angular_position := turns * angle_max_value self + angle |}.

End SensorRotationHelper.

(** ** SensorEvent and CommandedMove *)

Module SensorEvent.

Record t : Type := mk {
  eventtime : float;
  position : float;
  distance : float;
  epos : float
}.

End SensorEvent.

Module CommandedMove.

Record t : Type := mk {
  eventtime : float;
  pos : float;
  last_epos : float;
  epos : float;
  distance : float;
  ended : bool;
  sensor_events : list SensorEvent.t;
  first_event : option SensorEvent.t;
  last_event : option SensorEvent.t;
  first_motion_event : option SensorEvent.t;
  last_motion_event : option SensorEvent.t
}.

Definition init (eventtime pos last_epos epos : float) : t :=
  {| eventtime := eventtime;
     pos := pos;
     last_epos := last_epos;
     epos := epos;
     distance := (epos - last_epos)%float;
     ended := false;
     sensor_events := [];
     first_event := None;
     last_event := None;
     first_motion_event := None;
     last_motion_event := None |}.

Definition set_ended (self : t) (b : bool) : t :=
  {| eventtime := eventtime self; pos := pos self; last_epos := last_epos self;
     epos := epos self; distance := distance self; ended := b;
     sensor_events := sensor_events self;
     first_event := first_event self; last_event := last_event self;
     first_motion_event := first_motion_event self;
     last_motion_event := last_motion_event self |}.

(** [x or y] on two optional events (an event object is always true). *)
Definition or_else (x y : option SensorEvent.t) : option SensorEvent.t :=
  match x with
  | Some _ => x
  | None => y
  end.

Definition add_sensor_event (self : t) (event : SensorEvent.t) (capture : bool) : t :=
  let moving := Py.float_ne (SensorEvent.distance event) 0%float in
  {| eventtime := eventtime self; pos := pos self; last_epos := last_epos self;
     epos := epos self; distance := distance self; ended := ended self;
     sensor_events := if capture then event :: sensor_events self else sensor_events self;
     first_event := or_else (first_event self) (Some event);
     last_event := Some event;
     first_motion_event :=
       if moving then or_else (first_motion_event self) (Some event)
       else first_motion_event self;
     last_motion_event :=
       if moving then Some event else last_motion_event self |}.

Definition last_motion_eventtime (self : t) : option float :=
  option_map SensorEvent.eventtime (last_motion_event self).

Definition first_motion_eventtime (self : t) : option float :=
  option_map SensorEvent.eventtime (first_motion_event self).

(** [e - self.first_motion_eventtime] is a [TypeError] when the latter is
    [None]. *)
Definition duration (self : t) : Py.result (option float) :=
  match last_motion_eventtime self with
  | Some e =>
      if Py.float_truthy e then
        match first_motion_eventtime self with
        | Some f => Py.Ok (Some (e - f)%float)
        | None => Py.Raise Py.TypeError
        end
      else Py.Ok None
  | None => Py.Ok None
  end.

Definition expected_distance (self : t) : option float :=
  match last_event self with
  | Some le => Some (SensorEvent.epos le - last_epos self)%float
  | None => None
  end.

(** [self.first_event.position] is an [AttributeError] when there is a last
    event but no first one. *)
Definition measured_distance (self : t) : Py.result float :=
  match last_event self with
  | Some le =>
      match first_event self with
      | Some fe => Py.Ok (SensorEvent.position le - SensorEvent.position fe)%float
      | None => Py.Raise Py.AttributeError
      end
  | None => Py.Ok 0%float
  end.

Definition speed (self : t) : Py.result (option float) :=
  do od <- duration self;
  match od with
  | Some d =>
      if Py.float_truthy d then
        do m <- measured_distance self;
        do q <- Py.truediv m d;
        Py.Ok (Some q)
      else Py.Ok None
  | None => Py.Ok None
  end.

Definition extrusion_rate (self : t) : Py.result float :=
  match expected_distance self with
  | Some d =>
      if Py.float_truthy d then
        do m <- measured_distance self;
        Py.truediv m d
      else Py.Ok 0%float
  | None => Py.Ok 0%float
  end.

Definition detected (self : t) : Py.result bool :=
  do m <- measured_distance self;
  Py.Ok (Py.float_ne m 0%float).

(** [MotionDirection.__str__]: "idle" for a distance that is false (0.0 or
    -0.0), "extruding" for a positive one, "reversing" otherwise. *)
Inductive motion_direction : Type :=
| idle
| extruding
| reversing.

Definition direction_str (distance : float) : motion_direction :=
  if negb (Py.float_truthy distance) then idle
  else if PrimFloat.ltb 0%float distance then extruding
  else reversing.

Definition direction (self : t) : Py.result motion_direction :=
  do m <- measured_distance self;
  Py.Ok (direction_str m).

(** [self.last_event.distance] is an [AttributeError] when there is a last
    motion event but no last event. *)
Definition has_stopped_moving (self : t) (duration : float) : Py.result bool :=
  match last_motion_eventtime self with
  | Some e =>
      if Py.float_truthy e then
        match last_event self with
        | Some le =>
            if Py.float_ne (SensorEvent.distance le) 0%float then Py.Ok false
            else Py.Ok (PrimFloat.leb duration (SensorEvent.eventtime le - e)%float)
        | None => Py.Raise Py.AttributeError
        end
      else Py.Ok false
  | None => Py.Ok false
  end.

End CommandedMove.

(** ** TriggerOnChange: call a function when the value changes *)

Module TriggerOnChange.

Section World.

(** What the callback acts on. *)
Variable W : Type.

Record t : Type := mk {
  _value : option bool;
  _fn : option bool -> bool -> W -> Py.outcome W unit
}.

(** [value is not self._value], on [True], [False] and [None]. *)
Definition is_not (value : bool) (old : option bool) : bool :=
  match old with
  | Some b => negb (Bool.eqb value b)
  | None => true
  end.

(** The callback sees the old value; the new one is stored after it
    returns, and is not stored when it raises. *)
Definition set (self : t) (value : bool) (w : W) : t * Py.outcome W unit :=
  if is_not value (_value self) then
    match _fn self (_value self) value w with
    | Py.Returns _ w' => ({| _value := Some value; _fn := _fn self |}, Py.Returns tt w')
    | Py.Raises e w' => (self, Py.Raises e w')
    end
  else ({| _value := Some value; _fn := _fn self |}, Py.Returns tt w).

(** [__bool__] must return a [bool]: the truth value of a trigger that was
    never set is a [TypeError]. *)
Definition __bool__ (self : t) : Py.result bool :=
  match _value self with
  | Some b => Py.Ok b
  | None => Py.Raise Py.TypeError
  end.

Definition set_all (self : t) (values : list bool) (w : W) : t * Py.outcome W unit :=
  fold_left (fun acc v =>
               match snd acc with
               | Py.Returns _ w' => set (fst acc) v w'
               | Py.Raises _ _ => acc
               end)
            values (self, Py.Returns tt w).

End World.

Arguments mk {W}.
Arguments _value {W}.
Arguments _fn {W}.
Arguments set {W}.
Arguments __bool__ {W}.
Arguments set_all {W}.

End TriggerOnChange.

(** ** NonLinearExtrusion: the move transform *)

Module NonLinearExtrusion.

(** [gcode_move] and the toolhead are objects of the host; the model has
    them as they are when a method runs. *)
Record GCodeMove : Type := {
  absolute_coord : bool;
  absolute_extrude : bool
}.

(** A position is the list [x, y, z, e], here by its indices. *)
Record coordinates : Type := {
  axis0 : float;
  axis1 : float;
  axis2 : float;
  axis3 : float
}.

Record ToolHead : Type := {
  (** [toolhead.get_extruder() is sensor.extruder] *)
  extruder_is_sensors : bool;
  commanded_pos : coordinates
}.

Section Transform.

(** The coefficients are what [ast.literal_eval] returned, and the next
    transform is an object of the host. *)
Variable C : Type.
Variable N : Type.

(** [float(numpy.polynomial.polynomial.polyval(speed, coefficients))], with
    what it raises. *)
Variable polyval : float -> option C -> Py.result float.

Record t : Type := mk {
  gcode_move : option GCodeMove;
  toolhead : option ToolHead;
  coefficients : option C;
  enabled : bool;
  _next_transform : option N
}.

Definition init : t :=
  {| gcode_move := None;
     toolhead := None;
     coefficients := None;
     enabled := false;
     _next_transform := None |}.

Definition set_next_transform (self : t) (transform : N) : t :=
  mk (gcode_move self) (toolhead self) (coefficients self) (enabled self) (Some transform).

Definition set_enabled (self : t) (enabled : bool) : t :=
  mk (gcode_move self) (toolhead self) (coefficients self) enabled (_next_transform self).

Definition set_coefficients (self : t) (coefficients : C) : t :=
  mk (gcode_move self) (toolhead self) (Some coefficients) (enabled self)
     (_next_transform self).

Definition _handle_ready (self : t) (gm : GCodeMove) (th : ToolHead) : t :=
  mk (Some gm) (Some th) (coefficients self) (enabled self) (_next_transform self).

Definition _compensated_speed (self : t) (speed : float) : Py.result float :=
  polyval speed (coefficients self).

(** [axes_distance] is the int [0] for a move that only extrudes; the model
    has the float [0.0], which is as false. *)
Definition _compensated_length (self : t) (e_distance speed axes_distance : float)
  : Py.result (float * float) :=
  do timing <-
     (if Py.float_truthy axes_distance then
        do move_duration <- Py.truediv axes_distance speed;
        do e_speed <- Py.truediv e_distance move_duration;
        Py.Ok (move_duration, e_speed)
      else
        do move_duration <- Py.truediv e_distance speed;
        Py.Ok (move_duration, speed));
  let '(move_duration, e_speed) := timing in
  do new_speed <- _compensated_speed self e_speed;
  Py.Ok (new_speed * move_duration, new_speed)%float.

Definition _can_apply_compensation (self : t) : bool :=
  match coefficients self, gcode_move self, toolhead self with
  | Some _, Some gm, Some th =>
      if negb (enabled self) then false
      else if absolute_coord gm && absolute_extrude gm then false
      else if negb (extruder_is_sensors th) then false
      else true
  | _, _, _ => false
  end.

(** [move] ends by calling the next transform: the model returns that
    transform and the position and speed it is called with.  The position is
    the caller's list, written to in place. *)
Definition move (self : t) (newpos : coordinates) (speed : float)
  : Py.result (N * coordinates * float) :=
  do changed <-
     (if _can_apply_compensation self then
        match toolhead self with
        | Some th =>
            let oldpos := commanded_pos th in
            let axes_d0 := (axis0 newpos - axis0 oldpos)%float in
            let axes_d1 := (axis1 newpos - axis1 oldpos)%float in
            let axes_d2 := (axis2 newpos - axis2 oldpos)%float in
            let axes_d3 := (axis3 newpos - axis3 oldpos)%float in
            let move_d :=
              PrimFloat.sqrt (0 + axes_d0 * axes_d0 + axes_d1 * axes_d1
                              + axes_d2 * axes_d2)%float in
            let extrude_only := PrimFloat.ltb move_d 0x1.12e0be826d695p-30%float in
            let extrude_d := axes_d3 in
            if PrimFloat.ltb 0%float extrude_d then
              do compensated <- _compensated_length self extrude_d speed
                                  (if extrude_only then 0%float else move_d);
              let '(new_length, new_speed) := compensated in
              Py.Ok ({| axis0 := axis0 newpos; axis1 := axis1 newpos; axis2 := axis2 newpos;
                        axis3 := (axis3 oldpos + new_length)%float |},
                     if extrude_only then new_speed else speed)
            else Py.Ok (newpos, speed)
        | None => Py.Raise Py.AttributeError
        end
      else Py.Ok (newpos, speed));
  let '(newpos, speed) := changed in
  match _next_transform self with
  | Some next => Py.Ok (next, newpos, speed)
  | None => Py.Raise Py.AttributeError
  end.

(** [get_position] asks the next transform. *)
Definition get_position (self : t) : Py.result N :=
  match _next_transform self with
  | Some next => Py.Ok next
  | None => Py.Raise Py.AttributeError
  end.

(** *** [cmd_ENABLE_NONLINEAR_EXTRUSION], a command of the sensor that acts
    on its transform *)

(** The [COEFFICIENTS] parameter: absent or empty; a text on which
    [ast.literal_eval] raises [ValueError], the one exception the command
    catches; a text on which it raises another exception, a [SyntaxError]
    for one; a literal that is no list or tuple; a list or tuple. *)
Inductive coefficients_parameter : Type :=
| NotGiven
| NotALiteral
| LiteralRaises (e : Py.exn)
| NotAList
| Coefficients (coefs : C).

(** The [ENABLE] parameter as [gcmd.get_int] reads it: absent, an integer,
    or a text that is no integer, on which [get_int] raises the command
    error. *)
Inductive enable_parameter : Type :=
| EnableDefault
| EnableInt (v : Z)
| EnableInvalid.

Inductive reply : Type :=
| CoefficientsMustBeList
| CannotEnableWithoutCoefficients
| Enabled (coefs : option C)
| Disabled.

(** [ENABLE] defaults to 1.  The command answers with a [reply] or raises;
    either way it leaves a transform behind, which [set_coefficients] may
    already have written to when [get_int] raises. *)
Definition cmd_ENABLE_NONLINEAR_EXTRUSION (self : t) (value : coefficients_parameter)
           (ENABLE : enable_parameter) : Py.outcome t reply :=
  let after_coefficients : Py.outcome t (option reply) :=
    match value with
    | NotGiven => Py.Returns None self
    | LiteralRaises e => Py.Raises e self
    | NotALiteral | NotAList => Py.Returns (Some CoefficientsMustBeList) self
    | Coefficients coefs => Py.Returns None (set_coefficients self coefs)
    end in
  match after_coefficients with
  | Py.Raises e self => Py.Raises e self
  | Py.Returns (Some refused) self => Py.Returns refused self
  | Py.Returns None self =>
      let get_int : Py.result Z :=
        match ENABLE with
        | EnableDefault => Py.Ok 1
        | EnableInt v => Py.Ok v
        | EnableInvalid => Py.Raise Py.CommandError
        end in
      match get_int with
      | Py.Raise e => Py.Raises e self
      | Py.Ok v =>
          let enabled := v =? 1 in
          if enabled && match coefficients self with
                        | None => true
                        | Some _ => false
                        end
          then Py.Returns CannotEnableWithoutCoefficients self
          else
            let self := set_enabled self enabled in
            Py.Returns (if enabled then Enabled (coefficients self) else Disabled) self
      end
  end.

End Transform.

Arguments mk {C N}.
Arguments gcode_move {C N}.
Arguments toolhead {C N}.
Arguments coefficients {C N}.
Arguments enabled {C N}.
Arguments _next_transform {C N}.
Arguments init {C N}.
Arguments set_next_transform {C N}.
Arguments set_enabled {C N}.
Arguments set_coefficients {C N}.
Arguments _handle_ready {C N}.
Arguments _compensated_speed {C N}.
Arguments _compensated_length {C N}.
Arguments _can_apply_compensation {C N}.
Arguments move {C N}.
Arguments get_position {C N}.
Arguments NotGiven {C}.
Arguments NotALiteral {C}.
Arguments LiteralRaises {C}.
Arguments NotAList {C}.
Arguments Coefficients {C}.
Arguments CoefficientsMustBeList {C}.
Arguments CannotEnableWithoutCoefficients {C}.
Arguments Enabled {C}.
Arguments Disabled {C}.
Arguments cmd_ENABLE_NONLINEAR_EXTRUSION {C N}.

End NonLinearExtrusion.

(** ** HighResolutionFilamentSensor *)

Inductive unhealthy_reason : Type :=
| NoDataFromSensor
| MagnetIs (state : Z)
| UnknownReason.

Inductive message : Type :=
| SensorConnectedChanged (old : option bool) (new : bool)
| FilamentPresentChanged (old : option bool) (new : bool)
| UnhealthyChanged (old : option bool) (new : bool)
| RunoutChanged (old : option bool) (new : bool)
| UnderextrudingChanged (old : option bool) (new : bool)
| Reconnected
| NoLongerConnected
| FilamentPresent
| FilamentNotPresent
| UnableToRead
| UpdateFailed (len : nat) (hex : list Z)
| Unhealthy (reason : unhealthy_reason)
| DetectedUnderextrusion (period : float)
| UnderextrusionCleared (elapsed : float)
| UartDecode (warning : uart_log)
| UartNoResponse.

(** What the sensor writes: the log file ([logging.info], [logging.warning]),
    the G-code console ([_respond_info], [_respond_error]) and the runout
    script with its optional pause. *)
Inductive output : Type :=
| LogInfo (m : message)
| LogWarning (m : message)
| RespondInfo (m : message)
| RespondError (m : message)
| RunoutScript (pause : bool).

(** Only the console is seen by the user. *)
Definition user_visible (o : output) : bool :=
  match o with
  | LogInfo _ | LogWarning _ => false
  | RespondInfo _ | RespondError _ | RunoutScript _ => true
  end.

(** The reply of the bus to a block read: the transport raised, or it
    answered with some bytes. *)
Inductive i2c_reply : Type :=
| I2cError
| I2cResponse (response : list Z).

(** What the host shows the sensor during one call: the reactor's clock, the
    toolhead, the extruder's past position and the transport. *)
Record host : Type := mk_host {
  monotonic : float;
  extruder_is_active : bool;
  toolhead_epos : float;
  extruder_past_position : float;
  i2c_read : i2c_reply;
  (** the driver's [_calc_crc8], and the bytes the MCU hands back to the
      [attempt]-th UART request of the call when asked for [n] bytes *)
  uart_calc_crc8 : list Z -> Z;
  uart_mcu : nat -> nat -> list Z
}.

Record config : Type := mk_config {
  uart : bool;
  invert_direction : bool;
  rotation_distance : float;
  underextrusion_max_rate : float;
  underextrusion_period : float;
  move_evaluation_distance : float;
  hysteresis_bits : Z;
  sensor_enabled : bool;
  event_delay : float;
  runout_pause : bool
}.

(** [CHECK_RUNOUT_TIMEOUT = .100], the binary64 nearest to one tenth. *)
Definition CHECK_RUNOUT_TIMEOUT : float := 0x1.999999999999ap-4%float.

(** Little-endian signed 32-bit integer ([struct.unpack('<l', ...)]). *)
Definition le_int32 (b0 b1 b2 b3 : Z) : Z :=
  let u := b0 + Z.shiftl b1 8 + Z.shiftl b2 16 + Z.shiftl b3 24 in
  if 0x80000000 <=? u then u - 0x100000000 else u.

(** [struct.unpack('<BBll', data)] on ten bytes. *)
Definition unpack_BBll (data : list Z) : Z * Z * Z * Z :=
  let b := fun i => nth i data 0 in
  (b 0%nat, b 1%nat,
   le_int32 (b 2%nat) (b 3%nat) (b 4%nat) (b 5%nat),
   le_int32 (b 6%nat) (b 7%nat) (b 8%nat) (b 9%nat)).

(** ** What the sensor reports *)

Module SensorStatus.

(** The dictionary of [get_status], with its ["motion"] entry. *)
Record motion_status : Type := {
  detected : bool;
  direction : CommandedMove.motion_direction;
  commanded_distance : float;
  expected_distance : option float;
  measured_distance : float;
  measured_speed : float;
  measured_volumetric_flow : float
}.

Record t : Type := {
  enabled : bool;
  sensor_connected : bool;
  magnet_state : MagnetState.name;
  filament_detected : bool;
  motion : motion_status;
  underextrusion_rate : float;
  underextrusion_detected : bool;
  runout : bool;
  position : float
}.

(** What [cmd_QUERY_FILAMENT_SENSOR] puts in its message. *)
Record query : Type := {
  sensor : bool;
  filament : bool;
  runout_detected : bool;
  underextruding_detected : bool;
  resolution : Z;
  ignore_bits : Z;
  smallest_angular_change : float;
  smallest_movement : float
}.

End SensorStatus.

(** ** Reading registers over the UART *)

(** [read_length] in [reg_read]: the number of bytes asked of the MCU for a
    register of [reg_length] bytes. *)
Definition read_length (reg_length : nat) : nat :=
  Nat.div ((4 + reg_length) * 10 + 7) 8.

Inductive uart_read_log : Type :=
| DecodeWarning (w : uart_log)
| NoResponseWarning.

(** What [struct.unpack] makes of the bytes read: a value, nothing when
    there are no bytes, or a [struct.error] when their number is wrong. *)
Inductive unpacked : Type :=
| Unpacked (v : Z)
| NoData
| StructError.

Section UartRead.

Variable _calc_crc8 : list Z -> Z.

(** The bytes the MCU hands back to the [attempt]-th request of a run when
    asked for [n] bytes. *)
Variable mcu : nat -> nat -> list Z.

Definition reg_read (attempt : nat) (reg : Z) (reg_length : nat)
  : list uart_log * option (list Z) :=
  _decode_read _calc_crc8 reg (mcu attempt (read_length reg_length)).

(** The loop of [uart_read_reg]: a response that is true (some bytes) ends
    it.  It gives the log, the last response and the next attempt. *)
Fixpoint uart_read_attempts (reg : Z) (length : nat) (attempt retries : nat)
         (response : option (list Z)) (log : list uart_read_log)
  : list uart_read_log * option (list Z) * nat :=
  match retries with
  | O => (log, response, attempt)
  | S retries' =>
      let r := reg_read attempt reg length in
      let log' := log ++ map DecodeWarning (fst r) in
      match snd r with
      | Some (b :: payload) => (log', Some (b :: payload), S attempt)
      | response' => uart_read_attempts reg length (S attempt) retries' response' log'
      end
  end.

(** [uart_read_reg] with its default [retries=5], as every caller has it,
    starting at the request number [attempt]. *)
Definition uart_read_reg (attempt : nat) (reg : Z) (length : nat)
  : list uart_read_log * option (list Z) * nat :=
  let '(log, response, next) := uart_read_attempts reg length attempt 5 None [] in
  match response with
  | None => (log ++ [NoResponseWarning], None, next)
  | Some data => (log, Some data, next)
  end.

Definition uart_read_reg4 (attempt : nat) (reg : Z) : list uart_read_log * unpacked * nat :=
  let '(log, data, next) := uart_read_reg attempt reg 4 in
  (log,
   match data with
   | None | Some [] => NoData
   | Some [b0; b1; b2; b3] => Unpacked (le_int32 b0 b1 b2 b3)
   | Some _ => StructError
   end,
   next).

Definition uart_read_reg1 (attempt : nat) (reg : Z) : list uart_read_log * unpacked * nat :=
  let '(log, data, next) := uart_read_reg attempt reg 1 in
  (log,
   match data with
   | None | Some [] => NoData
   | Some [b0] => Unpacked b0
   | Some _ => StructError
   end,
   next).

(** The four reads at the head of [_update_state_from_sensor], in their
    order: magnet state, filament presence, full turns, angle. *)
Definition uart_read_all (attempt : nat)
  : list uart_read_log * (unpacked * unpacked * unpacked * unpacked) * nat :=
  let '(log1, magnet_state, n1) := uart_read_reg1 attempt SensorRegister.MAGNET_STATE in
  let '(log2, filament_presence, n2) := uart_read_reg1 n1 SensorRegister.FILAMENT_PRESENCE in
  let '(log3, full_turns, n3) := uart_read_reg4 n2 SensorRegister.FULL_TURNS in
  let '(log4, angle, n4) := uart_read_reg4 n3 SensorRegister.ANGLE in
  (log1 ++ log2 ++ log3 ++ log4, (magnet_state, filament_presence, full_turns, angle), n4).

End UartRead.

Module HighResolutionFilamentSensor.

Record t : Type := mk {
  cfg : config;
  min_event_systime : float;
  _commanded_moves : list CommandedMove.t;
  _capture_history : bool;
  position : float;
  _is_printing : bool;
  _unhealthy : option bool;
  _runout : option bool;
  _underextrusion_start_time : option float;
  _underextruding : option bool;
  _last_epos : float;
  _status_evaluation_move : option CommandedMove.t;
  _magnet_state : Z;
  _sensor_connected : option bool;
  _filament_present : option bool;
  _rotation_helper : SensorRotationHelper.t;
  journal : list output
}.

Definition set_min_event_systime (self : t) (v : float) : t :=
  mk (cfg self) v (_commanded_moves self) (_capture_history self) (position self)
     (_is_printing self) (_unhealthy self) (_runout self) (_underextrusion_start_time
     self) (_underextruding self) (_last_epos self) (_status_evaluation_move self)
     (_magnet_state self) (_sensor_connected self) (_filament_present self)
     (_rotation_helper self) (journal self).
Definition set_commanded_moves (self : t) (v : list CommandedMove.t) : t :=
  mk (cfg self) (min_event_systime self) v (_capture_history self) (position self)
     (_is_printing self) (_unhealthy self) (_runout self) (_underextrusion_start_time
     self) (_underextruding self) (_last_epos self) (_status_evaluation_move self)
     (_magnet_state self) (_sensor_connected self) (_filament_present self)
     (_rotation_helper self) (journal self).
Definition set_position (self : t) (v : float) : t :=
  mk (cfg self) (min_event_systime self) (_commanded_moves self) (_capture_history
     self) v (_is_printing self) (_unhealthy self) (_runout self)
     (_underextrusion_start_time self) (_underextruding self) (_last_epos self)
     (_status_evaluation_move self) (_magnet_state self) (_sensor_connected self)
     (_filament_present self) (_rotation_helper self) (journal self).
Definition set_is_printing (self : t) (v : bool) : t :=
  mk (cfg self) (min_event_systime self) (_commanded_moves self) (_capture_history
     self) (position self) v (_unhealthy self) (_runout self) (_underextrusion_start_time
     self) (_underextruding self) (_last_epos self) (_status_evaluation_move self)
     (_magnet_state self) (_sensor_connected self) (_filament_present self)
     (_rotation_helper self) (journal self).
Definition set_unhealthy (self : t) (v : option bool) : t :=
  mk (cfg self) (min_event_systime self) (_commanded_moves self) (_capture_history
     self) (position self) (_is_printing self) v (_runout self)
     (_underextrusion_start_time self) (_underextruding self) (_last_epos self)
     (_status_evaluation_move self) (_magnet_state self) (_sensor_connected self)
     (_filament_present self) (_rotation_helper self) (journal self).
Definition set_runout (self : t) (v : option bool) : t :=
  mk (cfg self) (min_event_systime self) (_commanded_moves self) (_capture_history
     self) (position self) (_is_printing self) (_unhealthy self) v
     (_underextrusion_start_time self) (_underextruding self) (_last_epos self)
     (_status_evaluation_move self) (_magnet_state self) (_sensor_connected self)
     (_filament_present self) (_rotation_helper self) (journal self).
Definition set_underextrusion_start_time (self : t) (v : option float) : t :=
  mk (cfg self) (min_event_systime self) (_commanded_moves self) (_capture_history
     self) (position self) (_is_printing self) (_unhealthy self) (_runout self) v
     (_underextruding self) (_last_epos self) (_status_evaluation_move self)
     (_magnet_state self) (_sensor_connected self) (_filament_present self)
     (_rotation_helper self) (journal self).
Definition set_underextruding (self : t) (v : option bool) : t :=
  mk (cfg self) (min_event_systime self) (_commanded_moves self) (_capture_history
     self) (position self) (_is_printing self) (_unhealthy self) (_runout self)
     (_underextrusion_start_time self) v (_last_epos self) (_status_evaluation_move self)
     (_magnet_state self) (_sensor_connected self) (_filament_present self)
     (_rotation_helper self) (journal self).
Definition set_last_epos (self : t) (v : float) : t :=
  mk (cfg self) (min_event_systime self) (_commanded_moves self) (_capture_history
     self) (position self) (_is_printing self) (_unhealthy self) (_runout self)
     (_underextrusion_start_time self) (_underextruding self) v (_status_evaluation_move
     self) (_magnet_state self) (_sensor_connected self) (_filament_present self)
     (_rotation_helper self) (journal self).
Definition set_status_evaluation_move (self : t) (v : option CommandedMove.t) : t :=
  mk (cfg self) (min_event_systime self) (_commanded_moves self) (_capture_history
     self) (position self) (_is_printing self) (_unhealthy self) (_runout self)
     (_underextrusion_start_time self) (_underextruding self) (_last_epos self) v
     (_magnet_state self) (_sensor_connected self) (_filament_present self)
     (_rotation_helper self) (journal self).
Definition set_magnet_state (self : t) (v : Z) : t :=
  mk (cfg self) (min_event_systime self) (_commanded_moves self) (_capture_history
     self) (position self) (_is_printing self) (_unhealthy self) (_runout self)
     (_underextrusion_start_time self) (_underextruding self) (_last_epos self)
     (_status_evaluation_move self) v (_sensor_connected self) (_filament_present self)
     (_rotation_helper self) (journal self).
Definition set_sensor_connected (self : t) (v : option bool) : t :=
  mk (cfg self) (min_event_systime self) (_commanded_moves self) (_capture_history
     self) (position self) (_is_printing self) (_unhealthy self) (_runout self)
     (_underextrusion_start_time self) (_underextruding self) (_last_epos self)
     (_status_evaluation_move self) (_magnet_state self) v (_filament_present self)
     (_rotation_helper self) (journal self).
Definition set_filament_present (self : t) (v : option bool) : t :=
  mk (cfg self) (min_event_systime self) (_commanded_moves self) (_capture_history
     self) (position self) (_is_printing self) (_unhealthy self) (_runout self)
     (_underextrusion_start_time self) (_underextruding self) (_last_epos self)
     (_status_evaluation_move self) (_magnet_state self) (_sensor_connected self) v
     (_rotation_helper self) (journal self).
Definition set_rotation_helper (self : t) (v : SensorRotationHelper.t) : t :=
  mk (cfg self) (min_event_systime self) (_commanded_moves self) (_capture_history
     self) (position self) (_is_printing self) (_unhealthy self) (_runout self)
     (_underextrusion_start_time self) (_underextruding self) (_last_epos self)
     (_status_evaluation_move self) (_magnet_state self) (_sensor_connected self)
     (_filament_present self) v (journal self).
Definition set_journal (self : t) (v : list output) : t :=
  mk (cfg self) (min_event_systime self) (_commanded_moves self) (_capture_history
     self) (position self) (_is_printing self) (_unhealthy self) (_runout self)
     (_underextrusion_start_time self) (_underextruding self) (_last_epos self)
     (_status_evaluation_move self) (_magnet_state self) (_sensor_connected self)
     (_filament_present self) (_rotation_helper self) v.

Definition init (c : config) : t :=
  {| cfg := c;
     min_event_systime := 0%float;
     _commanded_moves := [];
     _capture_history := false;
     position := 0%float;
     _is_printing := false;
     _unhealthy := Some false;
     _runout := Some false;
     _underextrusion_start_time := None;
     _underextruding := Some false;
     _last_epos := 0%float;
     _status_evaluation_move := None;
     _magnet_state := 0xff;
     _sensor_connected := None;
     _filament_present := None;
     _rotation_helper := SensorRotationHelper.init 12 (hysteresis_bits c);
     journal := [] |}.

(** *** Methods act on the sensor and may raise *)

Definition M (A : Type) : Type := t -> Py.outcome t A.

Definition ret {A : Type} (a : A) : M A := fun s => Py.Returns a s.

Definition bind {A B : Type} (m : M A) (k : A -> M B) : M B :=
  fun s =>
    match m s with
    | Py.Returns a s' => k a s'
    | Py.Raises e s' => Py.Raises e s'
    end.

Definition get : M t := fun s => Py.Returns s s.

Definition modify (f : t -> t) : M unit := fun s => Py.Returns tt (f s).

Definition raise {A : Type} (e : Py.exn) : M A := fun s => Py.Raises e s.

Definition lift {A : Type} (r : Py.result A) : M A :=
  fun s =>
    match r with
    | Py.Ok a => Py.Returns a s
    | Py.Raise e => Py.Raises e s
    end.

Definition emit (o : output) : M unit :=
  modify (fun s => set_journal s (journal s ++ [o])).

Notation "x <- c1 ;; c2" := (bind c1 (fun x => c2))
  (at level 61, c1 at next level, right associativity).
Notation "c1 ;; c2" := (bind c1 (fun _ => c2))
  (at level 61, right associativity).

(** *** The edge triggers of the sensor

    A trigger is kept as its value; its callback is the bound method, which
    reads the sensor as it is when the trigger calls it. *)

Definition trigger_set (value_of : t -> option bool) (store : t -> option bool -> t)
           (fn : option bool -> bool -> M unit) (value : bool) : M unit :=
  fun s =>
    let r := TriggerOnChange.set (TriggerOnChange.mk (value_of s) fn) value s in
    match snd r with
    | Py.Returns _ s' => Py.Returns tt (store s' (TriggerOnChange._value (fst r)))
    | Py.Raises e s' => Py.Raises e (store s' (TriggerOnChange._value (fst r)))
    end.

Definition trigger_bool (value_of : t -> option bool) : M bool :=
  fun s =>
    lift (TriggerOnChange.__bool__
            (TriggerOnChange.mk (value_of s) (fun _ _ => ret tt))) s.

Definition _sensor_connected_changed (old_value : option bool) (new_value : bool) : M unit :=
  emit (LogInfo (SensorConnectedChanged old_value new_value)) ;;
  match old_value with
  | None => ret tt
  | Some _ =>
      if new_value then emit (RespondInfo Reconnected)
      else emit (RespondError NoLongerConnected)
  end.

Definition _filament_present_changed (old_value : option bool) (new_value : bool) : M unit :=
  emit (LogInfo (FilamentPresentChanged old_value new_value)) ;;
  match old_value with
  | None => ret tt
  | Some _ =>
      if new_value then emit (RespondInfo FilamentPresent)
      else emit (RespondError FilamentNotPresent)
  end.

Definition _sensor_unhealthy_reason : M unhealthy_reason :=
  c <- trigger_bool _sensor_connected ;;
  if negb c then ret NoDataFromSensor
  else
    s <- get ;;
    if negb (_magnet_state s =? MagnetState.DETECTED) then ret (MagnetIs (_magnet_state s))
    else ret UnknownReason.

Definition _unhealthy_changed (old_value : option bool) (new_value : bool) : M unit :=
  emit (LogInfo (UnhealthyChanged old_value new_value)) ;;
  if new_value then
    r <- _sensor_unhealthy_reason ;;
    emit (RespondError (Unhealthy r))
  else ret tt.

Definition _runout_changed (old_value : option bool) (new_value : bool) : M unit :=
  emit (LogInfo (RunoutChanged old_value new_value)).

(** The clearing message subtracts the start time from the clock: a
    [TypeError] when the start time is [None]. *)
Definition _underextruding_changed (h : host) (old_value : option bool) (new_value : bool)
  : M unit :=
  emit (LogInfo (UnderextrudingChanged old_value new_value)) ;;
  s <- get ;;
  if new_value then
    emit (RespondError (DetectedUnderextrusion (underextrusion_period (cfg s))))
  else
    match _underextrusion_start_time s with
    | Some t0 => emit (RespondInfo (UnderextrusionCleared (monotonic h - t0)%float))
    | None => raise Py.TypeError
    end.

(** *** The move ledger *)

(** [min] and [max] return the int [1] or [-1] when they clamp; the model
    has the floats [1.0] and [-1.0], which are equal to them. *)
Definition _measured_underextrusion_rate (move : option CommandedMove.t) : Py.result float :=
  match move with
  | Some m =>
      do r <- CommandedMove.extrusion_rate m;
      Py.Ok (Py.min2 1%float (Py.max2 (-1)%float (1 - r)%float))
  | None => Py.Ok 0%float
  end.

Definition _combine_moves (newer older : CommandedMove.t) : CommandedMove.t :=
  let move := CommandedMove.init (CommandedMove.eventtime older) (CommandedMove.pos older)
                (CommandedMove.last_epos older) (CommandedMove.epos newer) in
  {| CommandedMove.eventtime := CommandedMove.eventtime move;
     CommandedMove.pos := CommandedMove.pos move;
     CommandedMove.last_epos := CommandedMove.last_epos move;
     CommandedMove.epos := CommandedMove.epos move;
     CommandedMove.distance := CommandedMove.distance move;
     CommandedMove.ended := CommandedMove.ended newer;
     CommandedMove.sensor_events :=
       CommandedMove.sensor_events newer ++ CommandedMove.sensor_events older;
     CommandedMove.first_event :=
       CommandedMove.or_else (CommandedMove.first_event older) (CommandedMove.first_event newer);
     CommandedMove.last_event :=
       CommandedMove.or_else (CommandedMove.last_event newer) (CommandedMove.last_event older);
     CommandedMove.first_motion_event :=
       CommandedMove.or_else (CommandedMove.first_motion_event older)
                             (CommandedMove.first_motion_event newer);
     CommandedMove.last_motion_event :=
       CommandedMove.or_else (CommandedMove.last_motion_event newer)
                             (CommandedMove.last_motion_event older) |}.

(** The loop over the ledger, newest first, with its [break]. *)
Fixpoint combine_loop (fn : option (CommandedMove.t -> bool)) (move : option CommandedMove.t)
         (moves : list CommandedMove.t) : option CommandedMove.t :=
  match moves with
  | [] => move
  | _move :: rest =>
      let move' := match move with
                   | None => _move
                   | Some m => _combine_moves m _move
                   end in
      if match fn with Some f => f move' | None => false end
      then Some move'
      else combine_loop fn (Some move') rest
  end.

Definition _combine_all_commanded_moves (self : t) (fn : option (CommandedMove.t -> bool))
  : option CommandedMove.t :=
  combine_loop fn None (_commanded_moves self).

Definition _combine_moves_for_distance (self : t) (distance : float)
  : option CommandedMove.t :=
  let _stop_fn := fun move =>
    match CommandedMove.expected_distance move with
    | Some d => PrimFloat.leb distance d
    | None => false
    end in
  _combine_all_commanded_moves self (Some _stop_fn).

Definition get_combined_moves (self : t) : option CommandedMove.t :=
  _combine_all_commanded_moves self None.

(** [while len(moves) > 100: moves.pop()]; the ledger's length is fuel
    enough, each turn removing one move. *)
Fixpoint pop_while_over_100 (fuel : nat) (moves : list CommandedMove.t)
  : list CommandedMove.t :=
  match fuel with
  | O => moves
  | S fuel' =>
      if (100 <? length moves)%nat then pop_while_over_100 fuel' (removelast moves)
      else moves
  end.

Definition _inspect_commanded_move (h : host) (eventtime : float) : M unit :=
  if negb (extruder_is_active h) then ret tt
  else
    s <- get ;;
    let epos := toolhead_epos h in
    let distance := (epos - _last_epos s)%float in
    (if Py.float_ne distance 0%float then
       let previous_event := match _commanded_moves s with
                             | move :: _ => CommandedMove.last_event move
                             | [] => None
                             end in
       let ended_moves := match _commanded_moves s with
                          | move :: rest => CommandedMove.set_ended move true :: rest
                          | [] => []
                          end in
       let move := CommandedMove.init eventtime (position s)
                     (match previous_event with
                      | Some e => SensorEvent.epos e
                      | None => _last_epos s
                      end) epos in
       modify (fun s => set_last_epos (set_commanded_moves s (move :: ended_moves))
                                      (CommandedMove.epos move))
     else ret tt) ;;
    modify (fun s => set_commanded_moves s
              (pop_while_over_100 (length (_commanded_moves s)) (_commanded_moves s))).

Definition all_moves_ended : M unit :=
  modify (fun s => set_commanded_moves s
            (map (fun move => CommandedMove.set_ended move true) (_commanded_moves s))).

Definition clear_move_queue : M unit :=
  modify (fun s => set_commanded_moves s []).

(** *** Reading the sensor *)

Definition i2c_read_reg (h : host) : M (option (list Z)) :=
  match i2c_read h with
  | I2cResponse response => ret (Some response)
  | I2cError => emit (LogWarning UnableToRead) ;; ret None
  end.

(** The part of [_update_state_from_sensor] after the registers were
    read. *)
Definition apply_reading (h : host) (eventtime : float)
           (magnet_state filament_presence full_turns angle : Z) : M unit :=
  modify (fun s => set_magnet_state s magnet_state) ;;
  trigger_set _filament_present set_filament_present _filament_present_changed
              (filament_presence =? 1) ;;
  modify (fun s => set_rotation_helper s
            (SensorRotationHelper.update_raw (_rotation_helper s) full_turns angle)) ;;
  s <- get ;;
  let inv := if invert_direction (cfg s) then (-1)%float else 1%float in
  a <- lift (SensorRotationHelper.absolute_angular_position (_rotation_helper s)) ;;
  let new_position := (rotation_distance (cfg s) * (a * inv) / 360)%float in
  let distance := (new_position - position s)%float in
  modify (fun s => set_position s new_position) ;;
  modify (fun s =>
            match _commanded_moves s with
            | move :: rest =>
                if negb (CommandedMove.ended move) then
                  let event := SensorEvent.mk eventtime new_position distance
                                              (extruder_past_position h) in
                  set_commanded_moves s
                    (CommandedMove.add_sensor_event move event (_capture_history s) :: rest)
                else s
            | [] => s
            end).

Definition is_None {A : Type} (o : option A) : bool :=
  match o with
  | None => true
  | Some _ => false
  end.

(** A warning of the UART transport goes to the log file. *)
Definition uart_warning (w : uart_read_log) : output :=
  match w with
  | DecodeWarning warning => LogWarning (UartDecode warning)
  | NoResponseWarning => LogWarning UartNoResponse
  end.

(** [uart_read_reg1] and [uart_read_reg4] as the sensor calls them: what
    they log is written, the value or [None] is returned with the number of
    the next request, and a [struct.error] is raised. *)
Definition uart_read (read : nat -> list uart_read_log * unpacked * nat) (attempt : nat)
  : M (option Z * nat) :=
  let '(log, value, next) := read attempt in
  modify (fun s => set_journal s (journal s ++ map uart_warning log)) ;;
  match value with
  | Unpacked v => ret (Some v, next)
  | NoData => ret (None, next)
  | StructError => raise Py.struct_error
  end.

Definition _update_state_from_sensor (h : host) : M unit :=
  let eventtime := monotonic h in
  _inspect_commanded_move h eventtime ;;
  s <- get ;;
  if uart (cfg s) then
    let read1 := uart_read_reg1 (uart_calc_crc8 h) (uart_mcu h) in
    let read4 := uart_read_reg4 (uart_calc_crc8 h) (uart_mcu h) in
    r1 <- uart_read (fun attempt => read1 attempt SensorRegister.MAGNET_STATE) 0 ;;
    r2 <- uart_read (fun attempt => read1 attempt SensorRegister.FILAMENT_PRESENCE)
                    (snd r1) ;;
    r3 <- uart_read (fun attempt => read4 attempt SensorRegister.FULL_TURNS) (snd r2) ;;
    r4 <- uart_read (fun attempt => read4 attempt SensorRegister.ANGLE) (snd r3) ;;
    let magnet_state := fst r1 in
    let filament_presence := fst r2 in
    let full_turns := fst r3 in
    let angle := fst r4 in
    trigger_set _sensor_connected set_sensor_connected _sensor_connected_changed
                (negb (is_None magnet_state || is_None filament_presence
                       || is_None full_turns || is_None angle)) ;;
    c <- trigger_bool _sensor_connected ;;
    if negb c then ret tt
    else
      match magnet_state, filament_presence, full_turns, angle with
      | Some m, Some f, Some n, Some a => apply_reading h eventtime m f n a
      | _, _, _, _ => raise Py.TypeError
      end
  else
    data <- i2c_read_reg h ;;
    if match data with
       | None => true
       | Some d => (length d =? 0)%nat || negb (length d =? 10)%nat
       end
    then
      trigger_set _sensor_connected set_sensor_connected _sensor_connected_changed false ;;
      match data with
      | None => raise Py.TypeError
      | Some d => emit (LogWarning (UpdateFailed (length d) d))
      end
    else
      let '(magnet_state, filament_presence, full_turns, angle) :=
        unpack_BBll (match data with Some d => d | None => [] end) in
      trigger_set _sensor_connected set_sensor_connected _sensor_connected_changed
                  (negb (magnet_state =? 0xff)) ;;
      c <- trigger_bool _sensor_connected ;;
      if negb c then ret tt
      else apply_reading h eventtime magnet_state filament_presence full_turns angle.

(** *** The anomaly engine *)

Definition _exec_gcode (h : host) (pause : bool) : M unit :=
  emit (RunoutScript pause) ;;
  modify (fun s => set_min_event_systime s (monotonic h + event_delay (cfg s))%float).

Definition _runout_event_handler (h : host) (eventtime : float) : M unit :=
  s <- get ;;
  _exec_gcode h (runout_pause (cfg s)).

Definition _is_sensor_healthy : M bool :=
  c <- trigger_bool _sensor_connected ;;
  if c then
    s <- get ;;
    ret (_magnet_state s =? MagnetState.DETECTED)
  else ret false.

Definition _is_runout_condition (h : host) : M bool :=
  present <- trigger_bool _filament_present ;;
  if negb present then ret true
  else
    s <- get ;;
    rate <- lift (_measured_underextrusion_rate (_status_evaluation_move s)) ;;
    if PrimFloat.ltb (underextrusion_max_rate (cfg s)) rate then
      match _underextrusion_start_time s with
      | None =>
          modify (fun s => set_underextrusion_start_time s (Some (monotonic h))) ;;
          ret false
      | Some t0 =>
          if PrimFloat.ltb (t0 + underextrusion_period (cfg s))%float (monotonic h) then
            trigger_set _underextruding set_underextruding (_underextruding_changed h) true ;;
            ret true
          else ret false
      end
    else
      match _underextrusion_start_time s with
      | Some _ =>
          trigger_set _underextruding set_underextruding (_underextruding_changed h) false ;;
          modify (fun s => set_underextrusion_start_time s None) ;;
          ret false
      | None => ret false
      end.

Definition _check_print_issues (h : host) (eventtime : float) : M unit :=
  s <- get ;;
  if negb (_is_printing s) then ret tt
  else
    healthy <- _is_sensor_healthy ;;
    if negb healthy then
      u <- trigger_bool _unhealthy ;;
      if negb u then
        trigger_set _unhealthy set_unhealthy _unhealthy_changed true ;;
        _runout_event_handler h eventtime
      else ret tt
    else
      trigger_set _unhealthy set_unhealthy _unhealthy_changed false ;;
      runout <- _is_runout_condition h ;;
      if runout then
        r <- trigger_bool _runout ;;
        if negb r then
          trigger_set _runout set_runout _runout_changed true ;;
          _runout_event_handler h eventtime
        else ret tt
      else trigger_set _runout set_runout _runout_changed false.

Definition _sensor_update_event (h : host) (eventtime : float) : M float :=
  _update_state_from_sensor h ;;
  modify (fun s => set_status_evaluation_move s
            (_combine_moves_for_distance s (move_evaluation_distance (cfg s)))) ;;
  s <- get ;;
  (if PrimFloat.leb (min_event_systime s) eventtime && sensor_enabled (cfg s)
   then _check_print_issues h eventtime
   else ret tt) ;;
  ret (eventtime + CHECK_RUNOUT_TIMEOUT)%float.

(** *** Events of the host *)

Definition _toolhead_set_position (h : host) : M unit :=
  if extruder_is_active h then modify (fun s => set_last_epos s (toolhead_epos h))
  else ret tt.

(** The handlers first write a line to the log file, for which the journal
    has no entry. *)
Definition _handle_printing (h : host) : M unit :=
  trigger_set _runout set_runout _runout_changed false ;;
  modify (fun s => set_underextrusion_start_time s None) ;;
  trigger_set _underextruding set_underextruding (_underextruding_changed h) false ;;
  modify (fun s => set_is_printing s true) ;;
  clear_move_queue ;;
  modify (fun s => set_status_evaluation_move s None).

Definition _handle_not_printing : M unit :=
  modify (fun s => set_is_printing s false) ;;
  all_moves_ended.

Definition has_stopped_moving (self : t) : Py.result (option bool) :=
  match _commanded_moves self with
  | move :: _ =>
      do b <- CommandedMove.has_stopped_moving move 0x1.999999999999ap-4%float;
      Py.Ok (Some b)
  | [] => Py.Ok None
  end.

Definition detectable_angle_change (self : t) : Py.result float :=
  SensorRotationHelper.angular_resolution (_rotation_helper self).

Definition detectable_distance_change (self : t) : Py.result float :=
  do a <- SensorRotationHelper.angular_resolution (_rotation_helper self);
  Py.Ok (a / 360 * rotation_distance (cfg self))%float.

(** *** Status queries *)

(** [bool(trigger)], where nothing is written. *)
Definition truth (value : option bool) : Py.result bool :=
  TriggerOnChange.__bool__ (TriggerOnChange.mk value (fun _ _ => ret tt)).

(** [filament_area] is the extruder's, an object of the host.  The entries
    are evaluated in the order of the dictionary, after [speed]. *)
Definition get_status (filament_area : float) (self : t) (eventtime : float)
  : Py.result SensorStatus.t :=
  let move := _status_evaluation_move self in
  do speed <- match move with
              | Some m => if negb (CommandedMove.ended m) then CommandedMove.speed m
                          else Py.Ok None
              | None => Py.Ok None
              end;
  let enabled := sensor_enabled (cfg self) in
  do sensor_connected <- truth (_sensor_connected self);
  let magnet_state := MagnetState.__str__ (_magnet_state self) in
  do filament_detected <- truth (_filament_present self);
  do detected <- match move with
                 | Some m => CommandedMove.detected m
                 | None => Py.Ok false
                 end;
  do direction <- match move with
                  | Some m => CommandedMove.direction m
                  | None => Py.Ok CommandedMove.idle
                  end;
  let commanded_distance :=
    match move with
    | Some m => if negb (CommandedMove.ended m) then CommandedMove.distance m else 0%float
    | None => 0%float
    end in
  let expected_distance :=
    match move with
    | Some m => CommandedMove.expected_distance m
    | None => Some 0%float
    end in
  do measured_distance <- match move with
                          | Some m => CommandedMove.measured_distance m
                          | None => Py.Ok 0%float
                          end;
  let measured_speed :=
    match speed with
    | Some v => if Py.float_truthy v then v else 0%float
    | None => 0%float
    end in
  let measured_volumetric_flow :=
    match speed with
    | Some v => if Py.float_truthy v then (filament_area * v)%float else 0%float
    | None => 0%float
    end in
  do underextrusion_rate <- match move with
                            | Some m => if _is_printing self
                                        then _measured_underextrusion_rate move
                                        else Py.Ok 0%float
                            | None => Py.Ok 0%float
                            end;
  do underextrusion_detected <- truth (_underextruding self);
  do runout <- truth (_runout self);
  Py.Ok {| SensorStatus.enabled := enabled;
           SensorStatus.sensor_connected := sensor_connected;
           SensorStatus.magnet_state := magnet_state;
           SensorStatus.filament_detected := filament_detected;
           SensorStatus.motion :=
             {| SensorStatus.detected := detected;
                SensorStatus.direction := direction;
                SensorStatus.commanded_distance := commanded_distance;
                SensorStatus.expected_distance := expected_distance;
                SensorStatus.measured_distance := measured_distance;
                SensorStatus.measured_speed := measured_speed;
                SensorStatus.measured_volumetric_flow := measured_volumetric_flow |};
           SensorStatus.underextrusion_rate := underextrusion_rate;
           SensorStatus.underextrusion_detected := underextrusion_detected;
           SensorStatus.runout := runout;
           SensorStatus.position := position self |}.

(** The message is sent to the console; the model returns what it is made
    of. *)
Definition cmd_QUERY_FILAMENT_SENSOR (self : t) : Py.result SensorStatus.query :=
  do sensor_connected <- truth (_sensor_connected self);
  do filament_present <- truth (_filament_present self);
  do runout_detected <- truth (_runout self);
  do underextruding_detected <- truth (_underextruding self);
  do angle <- detectable_angle_change self;
  do distance <- detectable_distance_change self;
  Py.Ok {| SensorStatus.sensor := sensor_connected;
           SensorStatus.filament := filament_present;
           SensorStatus.runout_detected := runout_detected;
           SensorStatus.underextruding_detected := underextruding_detected;
           SensorStatus.resolution := SensorRotationHelper.resolution (_rotation_helper self);
           SensorStatus.ignore_bits := SensorRotationHelper.ignore_bits (_rotation_helper self);
           SensorStatus.smallest_angular_change := angle;
           SensorStatus.smallest_movement := distance |}.

(** [capture_history] *)
Definition capture_history (self : t) (capture : bool) : t :=
  mk (cfg self) (min_event_systime self) (_commanded_moves self) capture
     (position self) (_is_printing self) (_unhealthy self) (_runout self)
     (_underextrusion_start_time self) (_underextruding self) (_last_epos self)
     (_status_evaluation_move self) (_magnet_state self) (_sensor_connected self)
     (_filament_present self) (_rotation_helper self) (journal self).

End HighResolutionFilamentSensor.

(** * Vocabulary of the statements: test vectors and auxiliary functions *)

(** The CRC-8 that the host's TMC UART driver computes in [_calc_crc8]
    (polynomial x^8 + x^2 + x + 1, each byte fed least significant bit
    first).  The driver is not part of this repository: the decoder above
    takes the checksum as a parameter, and this one instantiates it. *)
Definition crc8_bit (crc b : Z) : Z :=
  Z.land (if Z.lxor (Z.shiftr crc 7) (Z.land b 1) =? 0
          then Z.shiftl crc 1
          else Z.lxor (Z.shiftl crc 1) 0x07) 0xff.

Fixpoint crc8_bits (n : nat) (crc b : Z) : Z :=
  match n with
  | O => crc
  | S n' => crc8_bits n' (crc8_bit crc b) (Z.shiftr b 1)
  end.

Definition crc8_byte (crc b : Z) : Z := crc8_bits 8 crc b.

Definition crc8_from (crc : Z) (data : list Z) : Z := fold_left crc8_byte data crc.

Definition crc8_atm (data : list Z) : Z := crc8_from 0 data.

(** Serial framing of a byte list as it arrives on the wire (start bit 0,
    eight data bits, stop bit 1), packed into [nbytes] bytes: the bit stream
    the decoder is handed. *)
Definition serial_frame_bits (frame : list Z) : Z * Z :=
  fold_left (fun acc b => (Z.lor (fst acc) (Z.shiftl (Z.lor (Z.shiftl b 1) 0x200) (snd acc)),
                           snd acc + 10))
            frame (0, 0).

Definition serial_frame (nbytes : nat) (frame : list Z) : list Z :=
  let mval := fst (serial_frame_bits frame) in
  map (fun i => Z.land (Z.shiftr mval (Z.of_nat i * 8)) 0xff) (seq 0 nbytes).

(** The 256 bytes, and two checks over them that are decided by
    computation: [f] sends no two bytes to the same value; [P] holds of every
    pair of bytes. *)
Definition bytes256 : list Z := map Z.of_nat (seq 0 256).

Definition injective_on_bytes (f : Z -> Z) : bool :=
  let row := map (fun x => (x, f x)) bytes256 in
  forallb (fun p => forallb (fun q => implb (snd p =? snd q) (fst p =? fst q)) row) row.

Definition forall_bytes2 (P : Z -> Z -> bool) : bool :=
  forallb (fun s => forallb (P s) bytes256) bytes256.

(** A checksum [crc] tells apart any two byte strings that differ in exactly
    one byte. *)
Definition detects_single_byte_change (crc : list Z -> Z) : Prop :=
  forall pre b b' post,
    Forall Py.is_byte pre -> Forall Py.is_byte post ->
    Py.is_byte b -> Py.is_byte b' -> b <> b' ->
    crc (pre ++ b :: post) <> crc (pre ++ b' :: post).

(** A 7-byte bit stream whose frame is [06 ff 21 04 crc]: the frame marker is
    wrong, the broadcast marker is right. *)
Definition stream_one_marker_wrong : list Z :=
  Eval vm_compute in serial_frame 7 [0x06; 0xff; 0x21; 0x04; crc8_atm [0x06; 0xff; 0x21; 0x04]].

(** Bit streams for the frame [05 ff 21 04 crc] and for the same frame with
    its payload byte changed to 07 under the same CRC byte. *)
Definition stream_good : list Z :=
  Eval vm_compute in serial_frame 7 [0x05; 0xff; 0x21; 0x04; crc8_atm [0x05; 0xff; 0x21; 0x04]].

Definition stream_tampered : list Z :=
  Eval vm_compute in serial_frame 7 [0x05; 0xff; 0x21; 0x07; crc8_atm [0x05; 0xff; 0x21; 0x04]].

(** A callback that only records the calls it receives. *)
Definition record_call (old_value : option bool) (new_value : bool)
           (calls : list (option bool * bool))
  : Py.outcome (list (option bool * bool)) unit :=
  Py.Returns tt (calls ++ [(old_value, new_value)]).

(** The calls a sequence of values should cause: one per change of value. *)
Fixpoint transitions (old : option bool) (values : list bool) : list (option bool * bool) :=
  match values with
  | [] => []
  | v :: rest =>
      if TriggerOnChange.is_not v old then (old, v) :: transitions (Some v) rest
      else transitions (Some v) rest
  end.

(** Short names for the two classes the statements mention most. *)
Module HRFS := HighResolutionFilamentSensor.
Module SRH := SensorRotationHelper.

(** A sensor on the block-read transport, as configured by default. *)
Definition example_config : config :=
  {| uart := false;
     invert_direction := false;
     rotation_distance := 23%float;
     underextrusion_max_rate := 0x1.999999999999ap-4%float;
     underextrusion_period := 2%float;
     move_evaluation_distance := 3%float;
     hysteresis_bits := 3;
     sensor_enabled := true;
     event_delay := 3%float;
     runout_pause := true |}.

(** A host whose clock reads [now], whose toolhead is at rest at 0 and
    whose bus answers a block read with [reply]. *)
Definition example_host (now : float) (reply : i2c_reply) : host :=
  {| monotonic := now;
     extruder_is_active := true;
     toolhead_epos := 0%float;
     extruder_past_position := 0%float;
     i2c_read := reply;
     uart_calc_crc8 := crc8_atm;
     uart_mcu := fun _ _ => [] |}.

(** The ledger once a move has started: the open move is ended and the new
    one is put in front. *)
Definition with_new_move (move : CommandedMove.t) (moves : list CommandedMove.t)
  : list CommandedMove.t :=
  move :: match moves with
          | open :: rest => CommandedMove.set_ended open true :: rest
          | [] => []
          end.

(** Successive calls of the inspection, each with what the host shows at
    that time. *)
Fixpoint inspect_each (calls : list (host * float)) (s : HRFS.t) : Py.outcome HRFS.t unit :=
  match calls with
  | [] => Py.Returns tt s
  | (h, eventtime) :: rest =>
      match HRFS._inspect_commanded_move h eventtime s with
      | Py.Returns _ s' => inspect_each rest s'
      | Py.Raises e s' => Py.Raises e s'
      end
  end.

(** The ledger a run of calls leaves behind. *)
Definition ledger_of (o : Py.outcome HRFS.t unit) : list CommandedMove.t :=
  match o with
  | Py.Returns _ s => HRFS._commanded_moves s
  | Py.Raises _ s => HRFS._commanded_moves s
  end.

(** The host commanding the extruder to the position [i], at time [i]. *)
Definition command_to (i : nat) : host * float :=
  ({| monotonic := Py.float_of_int (Z.of_nat i);
      extruder_is_active := true;
      toolhead_epos := Py.float_of_int (Z.of_nat i);
      extruder_past_position := 0%float;
      i2c_read := I2cError;
      uart_calc_crc8 := crc8_atm;
      uart_mcu := fun _ _ => [] |},
   Py.float_of_int (Z.of_nat i)).

(** A move from extruder position 0 to [expected] during which the sensor
    went from 0 to [measured]: one reading at rest, one in motion. *)
Definition example_move (expected measured : float) : CommandedMove.t :=
  CommandedMove.add_sensor_event
    (CommandedMove.add_sensor_event
       (CommandedMove.init 0%float 0%float 0%float expected)
       (SensorEvent.mk 1%float 0%float 0%float 0%float) false)
    (SensorEvent.mk 2%float measured measured expected) false.


(** A property of the sensor that a method keeps, whether it returns or
    raises. *)
Definition preserves {A : Type} (P : HRFS.t -> Prop) (m : HRFS.M A) : Prop :=
  forall s, P s ->
    match m s with
    | Py.Returns _ s' => P s'
    | Py.Raises _ s' => P s'
    end.

Definition ledger_bounded (s : HRFS.t) : Prop :=
  (length (HRFS._commanded_moves s) <= 100)%nat.

(** ** Moves, ledgers and sensors as the methods leave them *)

(** A response that ends the retry loop: some bytes. *)
Definition got_bytes (response : option (list Z)) : bool :=
  match response with
  | Some (_ :: _) => true
  | _ => false
  end.

Module CM := CommandedMove.

(** A move as the constructor, [add_sensor_event] and [_combine_moves] leave
    it: it has a first event exactly when it has a last one, the same for
    motion events, and a motion event only if it has an event. *)
Definition well_formed (move : CM.t) : Prop :=
  (CM.first_event move = None <-> CM.last_event move = None)
  /\ (CM.first_motion_event move = None <-> CM.last_motion_event move = None)
  /\ (CM.last_event move = None -> CM.last_motion_event move = None).

(** The aggregate of a list of moves, newest first, with no early stop. *)
Definition combine_all (moves : list CM.t) : option CM.t :=
  HRFS.combine_loop None None moves.

(** The stop condition of [_combine_moves_for_distance]. *)
Definition reaches (distance : float) (move : CM.t) : bool :=
  match CM.expected_distance move with
  | Some d => PrimFloat.leb distance d
  | None => false
  end.

(** At most one move is open: every move behind the newest is ended. *)
Definition tail_ended (moves : list CM.t) : Prop :=
  match moves with
  | [] => True
  | _ :: rest => Forall (fun move => CM.ended move = true) rest
  end.

Definition optional_well_formed (move : option CM.t) : Prop :=
  match move with
  | Some m => well_formed m
  | None => True
  end.

(** What holds of the sensor between any two steps of its methods. *)
Definition sensor_invariant (s : HRFS.t) : Prop :=
  SRH.angle_max_value (HRFS._rotation_helper s) = 4095
  /\ Forall well_formed (HRFS._commanded_moves s)
  /\ tail_ended (HRFS._commanded_moves s)
  /\ optional_well_formed (HRFS._status_evaluation_move s)
  /\ HRFS._unhealthy s <> None
  /\ HRFS._runout s <> None
  /\ HRFS._underextruding s <> None.

(** The move that [_inspect_commanded_move] starts: from the sensor's
    position to the toolhead's, counted from the extruder position of the
    open move's last event when there is one. *)
Definition started_move (h : host) (eventtime : float) (s : HRFS.t) : CM.t :=
  CM.init eventtime (HRFS.position s)
          (match match HRFS._commanded_moves s with
                 | move :: _ => CM.last_event move
                 | [] => None
                 end with
           | Some e => SensorEvent.epos e
           | None => HRFS._last_epos s
           end)
          (toolhead_epos h).

(** The sensor after [_inspect_commanded_move]. *)
Definition inspected (h : host) (eventtime : float) (s : HRFS.t) : HRFS.t :=
  if negb (extruder_is_active h) then s
  else if Py.float_ne (toolhead_epos h - HRFS._last_epos s)%float 0%float then
    HRFS.set_commanded_moves
      (HRFS.set_last_epos s (toolhead_epos h))
      (firstn 100 (with_new_move (started_move h eventtime s) (HRFS._commanded_moves s)))
  else HRFS.set_commanded_moves s (firstn 100 (HRFS._commanded_moves s)).

(** What a state looks like after a trigger that only wrote to the journal. *)
Definition wrote (s : HRFS.t) (written : list output) : HRFS.t :=
  HRFS.set_journal s (HRFS.journal s ++ written).

(** The runout scripts that were run, oldest first, by their pause flag. *)
Definition scripts (written : list output) : list bool :=
  flat_map (fun o => match o with
                     | RunoutScript pause => [pause]
                     | _ => []
                     end) written.

(** The sensor a method leaves behind, whether it returned or raised. *)
Definition state_after {A : Type} (o : Py.outcome HRFS.t A) : HRFS.t :=
  match o with
  | Py.Returns _ s => s
  | Py.Raises _ s => s
  end.

(** Nothing of the anomaly engine was touched between [s] and [s']. *)
Definition alerts_untouched (s s' : HRFS.t) : Prop :=
  HRFS.cfg s' = HRFS.cfg s
  /\ HRFS._is_printing s' = HRFS._is_printing s
  /\ HRFS.min_event_systime s' = HRFS.min_event_systime s
  /\ HRFS._unhealthy s' = HRFS._unhealthy s
  /\ HRFS._runout s' = HRFS._runout s
  /\ HRFS._underextrusion_start_time s' = HRFS._underextrusion_start_time s
  /\ HRFS._underextruding s' = HRFS._underextruding s
  /\ scripts (HRFS.journal s') = scripts (HRFS.journal s).

(** No runout script was run between [s] and [s']. *)
Definition quiet_step (s s' : HRFS.t) : Prop :=
  HRFS.cfg s' = HRFS.cfg s
  /\ HRFS.min_event_systime s' = HRFS.min_event_systime s
  /\ scripts (HRFS.journal s') = scripts (HRFS.journal s).

(** The runout script was run once between [s] and [s'], and the next
    evaluation of the alerts was put off by [event_delay]. *)
Definition alert_step (h : host) (s s' : HRFS.t) : Prop :=
  HRFS.cfg s' = HRFS.cfg s
  /\ HRFS.min_event_systime s' = (monotonic h + event_delay (HRFS.cfg s))%float
  /\ scripts (HRFS.journal s') = scripts (HRFS.journal s) ++ [runout_pause (HRFS.cfg s)].

Module NLE := NonLinearExtrusion.

(** A transform that is enabled has coefficients. *)
Definition usable {C N : Type} (transform : NLE.t C N) : Prop :=
  NLE.enabled transform = true -> NLE.coefficients transform <> None.

(** The transform a command leaves behind, whether it returned or raised. *)
Definition transform_after {C N A : Type} (o : Py.outcome (NLE.t C N) A) : NLE.t C N :=
  match o with
  | Py.Returns _ transform => transform
  | Py.Raises _ transform => transform
  end.

(** The sensor has read its registers at least once. *)
Definition has_reading (s : HRFS.t) : Prop :=
  HRFS._sensor_connected s <> None /\ HRFS._filament_present s <> None.

(** The four bytes, least significant first, of a 32-bit signed integer in
    two's complement: what the sensor sends for a turn count or an angle. *)
Definition int32_bytes (x : Z) : list Z :=
  let u := x mod 0x100000000 in
  [u mod 256; (u / 0x100) mod 256; (u / 0x10000) mod 256; (u / 0x1000000) mod 256].

(** The bit stream of the response to a read of [reg] that carries
    [payload]. *)
Definition response_stream (crc : list Z -> Z) (reg : Z) (payload : list Z) : list Z :=
  let header := [0x05; 0xff; reg] ++ payload in
  serial_frame (read_length (length payload)) (header ++ [crc header]).

(** Sensor events recorded on a move, oldest first. *)
Definition record_events (capture : bool) (events : list SensorEvent.t) (move : CM.t) : CM.t :=
  fold_left (fun m event => CM.add_sensor_event m event capture) events move.

(** An event at which the filament moved. *)
Definition moving (event : SensorEvent.t) : bool :=
  Py.float_ne (SensorEvent.distance event) 0%float.

(** ** Examples *)

(** An MCU that answers every request with the response to a read of
    register 0x21 that carries the byte 04, cut or padded to the length it
    was asked for. *)
Definition example_mcu : nat -> nat -> list Z :=
  fun _ n => firstn n (stream_good ++ repeat 0 n).

(** A sensor that is printing and has lost its connection. *)
Definition disconnected_sensor : HRFS.t :=
  HRFS.set_is_printing (HRFS.set_sensor_connected (HRFS.init example_config) (Some false)) true.

(** A sensor that is printing, whose magnet is detected and whose filament
    has run out. *)
Definition empty_sensor : HRFS.t :=
  HRFS.set_is_printing
    (HRFS.set_filament_present
       (HRFS.set_sensor_connected
          (HRFS.set_magnet_state (HRFS.init example_config) MagnetState.DETECTED)
          (Some true))
       (Some false))
    true.

(** A sensor on which the underextrusion alert is raised. *)
Definition underextruding_sensor : HRFS.t :=
  HRFS.set_underextruding (HRFS.init example_config) (Some true).

(** A transform that doubles the speed: ready, enabled, with relative
    extrusion and the toolhead at the origin. *)
Definition example_polyval : float -> option (list float) -> Py.result float :=
  fun speed _ => Py.Ok (2 * speed)%float.

Definition example_transform : NLE.t (list float) unit :=
  NLE.mk (Some {| NLE.absolute_coord := true; NLE.absolute_extrude := false |})
         (Some {| NLE.extruder_is_sensors := true;
                  NLE.commanded_pos := {| NLE.axis0 := 0; NLE.axis1 := 0;
                                          NLE.axis2 := 0; NLE.axis3 := 0 |} |})
         (Some [0%float; 2%float]) true (Some tt).

(** One millimetre of filament, no travel. *)
Definition example_target : NLE.coordinates :=
  {| NLE.axis0 := 0; NLE.axis1 := 0; NLE.axis2 := 0; NLE.axis3 := 1 |}.

(** A host whose toolhead was commanded to 5 while the sensor's last known
    position is still 0. *)
Definition moved_host : host :=
  {| monotonic := 1%float;
     extruder_is_active := true;
     toolhead_epos := 5%float;
     extruder_past_position := 0%float;
     i2c_read := I2cError;
     uart_calc_crc8 := crc8_atm;
     uart_mcu := fun _ _ => [] |}.

(** A sensor that is read over the UART. *)
Definition uart_config : config :=
  {| uart := true;
     invert_direction := false;
     rotation_distance := 23%float;
     underextrusion_max_rate := 0x1.999999999999ap-4%float;
     underextrusion_period := 2%float;
     move_evaluation_distance := 3%float;
     hysteresis_bits := 3;
     sensor_enabled := true;
     event_delay := 3%float;
     runout_pause := true |}.

(** An MCU that answers every request with the response to a read of the
    magnet state that carries two bytes, where one byte was asked for. *)
Definition long_reply_mcu : nat -> nat -> list Z :=
  fun _ _ => response_stream crc8_atm SensorRegister.MAGNET_STATE [1; 0].

Definition long_reply_host : host :=
  {| monotonic := 1%float;
     extruder_is_active := true;
     toolhead_epos := 0%float;
     extruder_past_position := 0%float;
     i2c_read := I2cError;
     uart_calc_crc8 := crc8_atm;
     uart_mcu := long_reply_mcu |}.

(** The MCU answers every UART request of the call with as many bytes as
    it was asked for. *)
Definition mcu_answers_in_full (h : host) : Prop :=
  forall attempt n, length (uart_mcu h attempt n) = n.

(** * Properties *)

(** ** The serial-frame decoder *)

Lemma land_0xff_is_byte (x : Z) : Py.is_byte (Z.land x 0xff).
Proof.
  unfold Py.is_byte. change 0xff with (Z.ones 8).
  rewrite Z.land_ones by lia. apply Z.mod_pos_bound. lia.
Qed.

Lemma remove_serial_bits_bytes (data : list Z) :
  Forall Py.is_byte (_remove_serial_bits data).
Proof.
  unfold _remove_serial_bits. apply Forall_forall. intros b Hb.
  apply in_map_iff in Hb. destruct Hb as [i [<- _]]. apply land_0xff_is_byte.
Qed.

Lemma remove_serial_bits_length (data : list Z) :
  length (_remove_serial_bits data) = Nat.div (length data * 8) 10.
Proof. unfold _remove_serial_bits. now rewrite length_map, length_seq. Qed.

Section DecodeRead.

Variable _calc_crc8 : list Z -> Z.
Variable reg : Z.
Variable data : list Z.

Let decoded := _remove_serial_bits data.

Lemma decode_read_short :
  (length decoded < 5)%nat -> _decode_read _calc_crc8 reg data = ([], None).
Proof.
  intros H. unfold _decode_read. fold decoded.
  apply Nat.ltb_lt in H. now rewrite H.
Qed.

Lemma decode_read_bad_crc :
  Py.last_item decoded <> _calc_crc8 (Py.but_last decoded) ->
  _decode_read _calc_crc8 reg data = ([], None).
Proof.
  intros H. unfold _decode_read. fold decoded.
  apply Z.eqb_neq in H. rewrite H. simpl. now destruct (length decoded <? 5)%nat.
Qed.

Lemma decode_read_wrong_register :
  nth 2 decoded 0 <> reg -> snd (_decode_read _calc_crc8 reg data) = None.
Proof.
  intros H. unfold _decode_read. fold decoded.
  apply Z.eqb_neq in H. rewrite H. simpl.
  destruct (length decoded <? 5)%nat; [reflexivity|].
  destruct (negb _); [reflexivity|].
  now destruct (_ && _).
Qed.

(** Past the length and CRC checks, with the register echoed, only the
    marker check is left. *)
Lemma decode_read_marker_only :
  (5 <= length decoded)%nat ->
  Py.last_item decoded = _calc_crc8 (Py.but_last decoded) ->
  nth 2 decoded 0 = reg ->
  _decode_read _calc_crc8 reg data =
    if negb (nth 0 decoded 0 =? 0x05) && negb (nth 1 decoded 0 =? 0xff)
    then ([WrongPrefix decoded], None)
    else ([], Some (Py.slice_to_last 3 decoded)).
Proof.
  intros Hlen Hcrc Hreg. unfold _decode_read. fold decoded.
  apply Nat.ltb_ge in Hlen. apply Z.eqb_eq in Hcrc, Hreg.
  now rewrite Hlen, Hcrc, Hreg.
Qed.

End DecodeRead.

(** A list of at least five items is its first three items, its slice
    [3:-1] and its last item. *)
Lemma frame_layout (l : list Z) :
  (5 <= length l)%nat ->
  l = [nth 0 l 0; nth 1 l 0; nth 2 l 0] ++ Py.slice_to_last 3 l ++ [Py.last_item l].
Proof.
  intros H. unfold Py.slice_to_last, Py.last_item.
  assert (Hne : l <> []) by (destruct l; simpl in H; [lia | discriminate]).
  rewrite (app_removelast_last 0 Hne) at 1.
  destruct l as [|a [|b [|c l']]]; simpl in H; try lia.
  destruct l' as [|d l'']; [simpl in H; lia|].
  change (removelast (a :: b :: c :: d :: l'')) with (a :: b :: c :: removelast (d :: l'')).
  reflexivity.
Qed.

(** *** The CRC of the TMC UART driver tells apart two messages that differ
    in one byte *)

Lemma in_bytes256 (x : Z) : Py.is_byte x -> In x bytes256.
Proof.
  intros [H0 H1]. unfold bytes256. rewrite <- (Z2Nat.id x) by lia.
  apply in_map, in_seq. lia.
Qed.

Lemma injective_on_bytes_sound (f : Z -> Z) :
  injective_on_bytes f = true ->
  forall x y, Py.is_byte x -> Py.is_byte y -> f x = f y -> x = y.
Proof.
  unfold injective_on_bytes. intros H x y Hx Hy E.
  rewrite forallb_forall in H.
  assert (Hin : forall z, Py.is_byte z -> In (z, f z) (map (fun x => (x, f x)) bytes256)).
  { intros z Hz. apply in_map_iff. exists z. split; [reflexivity | now apply in_bytes256]. }
  specialize (H _ (Hin x Hx)). rewrite forallb_forall in H.
  specialize (H _ (Hin y Hy)). simpl in H.
  apply Z.eqb_eq in E. rewrite E in H. simpl in H. now apply Z.eqb_eq.
Qed.

Lemma forall_bytes2_sound (P : Z -> Z -> bool) :
  forall_bytes2 P = true ->
  forall s b, Py.is_byte s -> Py.is_byte b -> P s b = true.
Proof.
  unfold forall_bytes2. intros H s b Hs Hb. rewrite forallb_forall in H.
  specialize (H s (in_bytes256 s Hs)). rewrite forallb_forall in H.
  exact (H b (in_bytes256 b Hb)).
Qed.

(** Feeding a byte to the CRC register is linear over xor. *)
Lemma crc8_byte_splits :
  forall_bytes2 (fun s b => crc8_byte s b =? Z.lxor (crc8_byte s 0) (crc8_byte 0 b)) = true.
Proof. vm_compute. reflexivity. Qed.

Lemma crc8_byte_split (s b : Z) :
  Py.is_byte s -> Py.is_byte b ->
  crc8_byte s b = Z.lxor (crc8_byte s 0) (crc8_byte 0 b).
Proof.
  intros Hs Hb. apply Z.eqb_eq.
  exact (forall_bytes2_sound _ crc8_byte_splits s b Hs Hb).
Qed.

Lemma lxor_cancel_l (a x y : Z) : Z.lxor a x = Z.lxor a y -> x = y.
Proof.
  intros H. apply (f_equal (Z.lxor a)) in H.
  now rewrite <- !Z.lxor_assoc, Z.lxor_nilpotent, !Z.lxor_0_l in H.
Qed.

Lemma lxor_cancel_r (a x y : Z) : Z.lxor x a = Z.lxor y a -> x = y.
Proof. rewrite !(Z.lxor_comm _ a). apply lxor_cancel_l. Qed.

Lemma crc8_byte_inj_data (s b b' : Z) :
  Py.is_byte s -> Py.is_byte b -> Py.is_byte b' ->
  crc8_byte s b = crc8_byte s b' -> b = b'.
Proof.
  intros Hs Hb Hb' E.
  rewrite (crc8_byte_split s b), (crc8_byte_split s b') in E by assumption.
  apply lxor_cancel_l in E.
  revert E. apply injective_on_bytes_sound; try assumption.
  vm_compute. reflexivity.
Qed.

Lemma crc8_byte_inj_state (s s' b : Z) :
  Py.is_byte s -> Py.is_byte s' -> Py.is_byte b ->
  crc8_byte s b = crc8_byte s' b -> s = s'.
Proof.
  intros Hs Hs' Hb E.
  rewrite (crc8_byte_split s b), (crc8_byte_split s' b) in E by assumption.
  apply lxor_cancel_r in E.
  revert E. apply (injective_on_bytes_sound (fun s => crc8_byte s 0)); try assumption.
  vm_compute. reflexivity.
Qed.

Lemma crc8_bits_is_byte (n : nat) (crc b : Z) :
  Py.is_byte crc -> Py.is_byte (crc8_bits n crc b).
Proof.
  revert crc b. induction n as [|n IH]; intros crc b H; simpl; [assumption|].
  apply IH. apply land_0xff_is_byte.
Qed.

Lemma crc8_from_is_byte (data : list Z) (crc : Z) :
  Py.is_byte crc -> Py.is_byte (crc8_from crc data).
Proof.
  revert crc. induction data as [|d data IH]; intros crc H; simpl; [assumption|].
  apply IH. now apply crc8_bits_is_byte.
Qed.

Lemma crc8_from_inj_state (post : list Z) :
  Forall Py.is_byte post ->
  forall s s', Py.is_byte s -> Py.is_byte s' -> s <> s' ->
  crc8_from s post <> crc8_from s' post.
Proof.
  induction 1 as [|d post Hd _ IH]; intros s s' Hs Hs' Hne; simpl; [assumption|].
  apply IH; try (now apply crc8_bits_is_byte).
  intros E. apply Hne. now apply (crc8_byte_inj_state s s' d).
Qed.

Lemma crc8_atm_detects_single_byte_change : detects_single_byte_change crc8_atm.
Proof.
  intros pre b b' post Hpre Hpost Hb Hb' Hne. unfold crc8_atm, crc8_from.
  rewrite !fold_left_app. simpl.
  assert (Hs : Py.is_byte (fold_left crc8_byte pre 0))
    by (apply (crc8_from_is_byte pre 0); unfold Py.is_byte; lia).
  apply (crc8_from_inj_state post Hpost); try (now apply crc8_bits_is_byte).
  intros E. apply Hne. now apply (crc8_byte_inj_data _ b b' Hs).
Qed.

(** *** What the decoder accepts *)

(** C3. For an unstuffed frame of at least five bytes with a valid trailing
    CRC and the requested register in byte 2, the decoder rejects on the
    marker check exactly when byte 0 is not 0x05 and byte 1 is not 0xff; a
    frame with at least one marker right passes and its payload, the slice
    [3:-1], is returned. *)
Theorem decode_read_marker_check (_calc_crc8 : list Z -> Z) (reg : Z) (data : list Z) :
  let decoded := _remove_serial_bits data in
  (5 <= length decoded)%nat ->
  Py.last_item decoded = _calc_crc8 (Py.but_last decoded) ->
  nth 2 decoded 0 = reg ->
  (_decode_read _calc_crc8 reg data = ([WrongPrefix decoded], None)
   <-> nth 0 decoded 0 <> 0x05 /\ nth 1 decoded 0 <> 0xff)
  /\ (snd (_decode_read _calc_crc8 reg data) = None
      <-> nth 0 decoded 0 <> 0x05 /\ nth 1 decoded 0 <> 0xff)
  /\ (nth 0 decoded 0 = 0x05 \/ nth 1 decoded 0 = 0xff ->
      _decode_read _calc_crc8 reg data = ([], Some (Py.slice_to_last 3 decoded))).
Proof.
  intros decoded Hlen Hcrc Hreg.
  rewrite (decode_read_marker_only _calc_crc8 reg data Hlen Hcrc Hreg). fold decoded.
  destruct (Z.eqb_spec (nth 0 decoded 0) 0x05) as [E0|N0];
    destruct (Z.eqb_spec (nth 1 decoded 0) 0xff) as [E1|N1]; simpl;
    repeat split; intros; try tauto; try discriminate; try reflexivity;
    repeat match goal with H : _ /\ _ |- _ => destruct H end;
    try contradiction.
Qed.

Lemma decode_read_marker_check_witness :
  nth 0 (_remove_serial_bits stream_one_marker_wrong) 0 <> 0x05
  /\ _decode_read crc8_atm 0x21 stream_one_marker_wrong = ([], Some [0x04]).
Proof.
  split; [vm_compute; discriminate|].
  apply (decode_read_marker_check crc8_atm 0x21 stream_one_marker_wrong).
  - vm_compute. lia.
  - vm_compute. reflexivity.
  - vm_compute. reflexivity.
  - right. vm_compute. reflexivity.
Defined.

(** C6. The decoder gives no data when the unstuffed frame is shorter than
    five bytes, when its last byte is not the CRC of the bytes before it, or
    when byte 2 is not the requested register.  With a CRC that tells apart
    byte strings differing in one byte, a frame that was accepted is rejected
    once one byte before the CRC byte is changed and the CRC byte is kept.  A
    frame with the right CRC, markers and register is accepted, its payload
    being the bytes between the echoed register and the CRC byte. *)
Theorem decode_read_verifies_frame (_calc_crc8 : list Z -> Z) (reg : Z) (data : list Z) :
  detects_single_byte_change _calc_crc8 ->
  let decoded := _remove_serial_bits data in
  ((length decoded < 5)%nat -> snd (_decode_read _calc_crc8 reg data) = None)
  /\ (Py.last_item decoded <> _calc_crc8 (Py.but_last decoded) ->
      snd (_decode_read _calc_crc8 reg data) = None)
  /\ (nth 2 decoded 0 <> reg -> snd (_decode_read _calc_crc8 reg data) = None)
  /\ (forall data' pre b b' post c,
         decoded = pre ++ b :: post ++ [c] ->
         _remove_serial_bits data' = pre ++ b' :: post ++ [c] ->
         b <> b' ->
         snd (_decode_read _calc_crc8 reg data) <> None ->
         snd (_decode_read _calc_crc8 reg data') = None)
  /\ ((5 <= length decoded)%nat ->
      Py.last_item decoded = _calc_crc8 (Py.but_last decoded) ->
      nth 0 decoded 0 = 0x05 -> nth 1 decoded 0 = 0xff -> nth 2 decoded 0 = reg ->
      exists payload,
        _decode_read _calc_crc8 reg data = ([], Some payload)
        /\ decoded = [0x05; 0xff; reg] ++ payload ++ [_calc_crc8 (Py.but_last decoded)]).
Proof.
  intros Hdet decoded. repeat split.
  - intros H. now rewrite (decode_read_short _calc_crc8 reg data H).
  - intros H. now rewrite (decode_read_bad_crc _calc_crc8 reg data H).
  - apply decode_read_wrong_register.
  - intros data' pre b b' post c Hd Hd' Hne Hacc.
    destruct (Z.eq_dec (Py.last_item decoded) (_calc_crc8 (Py.but_last decoded))) as [Hcrc|Hcrc];
      [| now rewrite (decode_read_bad_crc _calc_crc8 reg data Hcrc) in Hacc].
    pose proof (remove_serial_bits_bytes data) as Hb. fold decoded in Hb.
    pose proof (remove_serial_bits_bytes data') as Hb'.
    rewrite Hd in Hb, Hcrc. rewrite Hd' in Hb'.
    assert (Hbb : forall x, Py.last_item (pre ++ x :: post ++ [c]) = c
                            /\ Py.but_last (pre ++ x :: post ++ [c]) = pre ++ x :: post).
    { intros x. unfold Py.last_item, Py.but_last.
      change (pre ++ x :: post ++ [c]) with (pre ++ (x :: post) ++ [c]).
      rewrite app_assoc. now rewrite last_last, removelast_last. }
    destruct (Hbb b) as [Hl Hr]. rewrite Hl, Hr in Hcrc.
    apply Forall_app in Hb. destruct Hb as [Hpre Hb].
    apply Forall_cons_iff in Hb. destruct Hb as [Hbyte Hb].
    apply Forall_app in Hb. destruct Hb as [Hpost _].
    apply Forall_app in Hb'. destruct Hb' as [_ Hb'].
    apply Forall_cons_iff in Hb'. destruct Hb' as [Hbyte' _].
    rewrite (decode_read_bad_crc _calc_crc8 reg data'); [reflexivity|].
    rewrite Hd'. destruct (Hbb b') as [Hl' Hr']. rewrite Hl', Hr', Hcrc.
    now apply Hdet.
  - intros Hlen Hcrc H0 H1 H2. exists (Py.slice_to_last 3 decoded). split.
    + rewrite (decode_read_marker_only _calc_crc8 reg data Hlen Hcrc H2). fold decoded.
      apply Z.eqb_eq in H0. now rewrite H0.
    + rewrite <- Hcrc, <- H0, <- H1, <- H2. now apply frame_layout.
Qed.

Lemma decode_read_verifies_frame_witness :
  _decode_read crc8_atm 0x21 stream_good = ([], Some [0x04])
  /\ snd (_decode_read crc8_atm 0x21 stream_tampered) = None.
Proof.
  pose proof (decode_read_verifies_frame crc8_atm 0x21 stream_good
                crc8_atm_detects_single_byte_change) as H.
  cbv zeta in H. destruct H as (_ & _ & _ & Htamper & _).
  split; [vm_compute; reflexivity|].
  apply (Htamper stream_tampered [0x05; 0xff; 0x21] 0x04 0x07 []
                 (crc8_atm [0x05; 0xff; 0x21; 0x04])).
  - vm_compute. reflexivity.
  - vm_compute. reflexivity.
  - discriminate.
  - vm_compute. discriminate.
Defined.

(** ** Edge triggers *)

Lemma is_not_same (v : bool) : TriggerOnChange.is_not v (Some v) = false.
Proof. now destruct v. Qed.

Lemma is_not_other (v : bool) (old : option bool) :
  old <> Some v -> TriggerOnChange.is_not v old = true.
Proof. destruct old as [[|]|], v; simpl; congruence. Qed.

Lemma set_all_cons {W : Type} (self : TriggerOnChange.t W) (v : bool) (values : list bool)
      (w : W) :
  TriggerOnChange.set_all self (v :: values) w =
    match snd (TriggerOnChange.set self v w) with
    | Py.Returns _ w' => TriggerOnChange.set_all (fst (TriggerOnChange.set self v w)) values w'
    | Py.Raises _ _ =>
        fold_left (fun acc v =>
                     match snd acc with
                     | Py.Returns _ w' => TriggerOnChange.set (fst acc) v w'
                     | Py.Raises _ _ => acc
                     end) values (TriggerOnChange.set self v w)
    end.
Proof.
  unfold TriggerOnChange.set_all. simpl.
  destruct (TriggerOnChange.set self v w) as [self' [[] w'|e w']]; reflexivity.
Qed.

Lemma last_values_cons (v : bool) (values : list bool) (old : option bool) :
  last (map Some (v :: values)) old = last (map Some values) (Some v).
Proof.
  revert v old. induction values as [|a values IH]; intros v old; [reflexivity|].
  change (last (map Some (v :: a :: values)) old) with (last (map Some (a :: values)) old).
  rewrite IH. symmetry. apply IH.
Qed.

(** With the recording callback, the calls made are the transitions of the
    sequence, and the trigger ends on the last value. *)
Lemma set_all_records_transitions (values : list bool) :
  forall (old : option bool) (calls : list (option bool * bool)),
    TriggerOnChange.set_all (TriggerOnChange.mk old record_call) values calls =
      (TriggerOnChange.mk (last (map Some values) old) record_call,
       Py.Returns tt (calls ++ transitions old values)).
Proof.
  induction values as [|v values IH]; intros old calls.
  - simpl. now rewrite app_nil_r.
  - rewrite set_all_cons. unfold TriggerOnChange.set at 1 2. simpl TriggerOnChange._value.
    simpl TriggerOnChange._fn. cbn [transitions].
    destruct (TriggerOnChange.is_not v old); simpl fst; simpl snd; cbv iota beta;
      rewrite IH, last_values_cons; rewrite <- ?app_assoc; reflexivity.
Qed.

(** C7. From the stored value False, setting True, True, False, False, True
    calls the callback three times, with the new values True, False, True in
    that order; a set with the value already stored calls nothing, and a set
    with another value calls the callback once, with the old and the new
    value. *)
Theorem trigger_fires_once_per_transition :
  TriggerOnChange.set_all (TriggerOnChange.mk (Some false) record_call)
                          [true; true; false; false; true] [] =
    (TriggerOnChange.mk (Some true) record_call,
     Py.Returns tt [(Some false, true); (Some true, false); (Some false, true)])
  /\ (forall (W : Type) (fn : option bool -> bool -> W -> Py.outcome W unit) (v : bool) (w : W),
         TriggerOnChange.set (TriggerOnChange.mk (Some v) fn) v w =
           (TriggerOnChange.mk (Some v) fn, Py.Returns tt w))
  /\ (forall (W : Type) (fn : option bool -> bool -> W -> Py.outcome W unit)
             (old : option bool) (v : bool) (w : W),
         old <> Some v ->
         snd (TriggerOnChange.set (TriggerOnChange.mk old fn) v w) =
           match fn old v w with
           | Py.Returns _ w' => Py.Returns tt w'
           | Py.Raises e w' => Py.Raises e w'
           end)
  /\ (forall (old : option bool) (values : list bool),
         snd (TriggerOnChange.set_all (TriggerOnChange.mk old record_call) values []) =
           Py.Returns tt (transitions old values)).
Proof.
  repeat split.
  - intros W fn v w. unfold TriggerOnChange.set.
    cbn [TriggerOnChange._value TriggerOnChange._fn]. now rewrite is_not_same.
  - intros W fn old v w H. unfold TriggerOnChange.set.
    cbn [TriggerOnChange._value TriggerOnChange._fn].
    rewrite (is_not_other v old H). now destruct (fn old v w) as [[] w'|e w'].
  - intros old values. now rewrite set_all_records_transitions.
Qed.

(** ** The sensor's triggers and the block read *)

Lemma filter_app_hidden (journal : list output) (o : output) :
  user_visible o = false ->
  filter user_visible (journal ++ [o]) = filter user_visible journal.
Proof. intros H. rewrite filter_app. simpl. rewrite H. apply app_nil_r. Qed.

(** Setting the connection trigger never raises: it stores the value and
    only writes to the journal. *)
Lemma set_sensor_connected_returns (value : bool) (s : HRFS.t) :
  exists s',
    HRFS.trigger_set HRFS._sensor_connected HRFS.set_sensor_connected
                     HRFS._sensor_connected_changed value s = Py.Returns tt s'
    /\ HRFS._sensor_connected s' = Some value
    /\ HRFS.cfg s' = HRFS.cfg s
    /\ HRFS._commanded_moves s' = HRFS._commanded_moves s
    /\ exists written, HRFS.journal s' = HRFS.journal s ++ written.
Proof.
  unfold HRFS.trigger_set, TriggerOnChange.set, HRFS._sensor_connected_changed.
  cbn [TriggerOnChange._value TriggerOnChange._fn].
  destruct (TriggerOnChange.is_not value (HRFS._sensor_connected s)).
  - destruct (HRFS._sensor_connected s) as [old|]; destruct value;
      cbn; eexists; repeat split; try (eexists; rewrite <- ?app_assoc; reflexivity).
  - cbn. eexists. repeat split. exists []. now rewrite app_nil_r.
Qed.

(** C8. A trigger that starts unset (the connection and the filament
    presence triggers) takes its first value without telling the user: the
    change is written to the log file only, and nothing is sent to the
    console. *)
Theorem first_value_is_not_announced (s : HRFS.t) (value : bool) :
  (HRFS._sensor_connected s = None ->
   exists s',
     HRFS.trigger_set HRFS._sensor_connected HRFS.set_sensor_connected
                      HRFS._sensor_connected_changed value s = Py.Returns tt s'
     /\ HRFS._sensor_connected s' = Some value
     /\ HRFS.journal s' = HRFS.journal s ++ [LogInfo (SensorConnectedChanged None value)]
     /\ filter user_visible (HRFS.journal s') = filter user_visible (HRFS.journal s))
  /\ (HRFS._filament_present s = None ->
      exists s',
        HRFS.trigger_set HRFS._filament_present HRFS.set_filament_present
                         HRFS._filament_present_changed value s = Py.Returns tt s'
        /\ HRFS._filament_present s' = Some value
        /\ HRFS.journal s' = HRFS.journal s ++ [LogInfo (FilamentPresentChanged None value)]
        /\ filter user_visible (HRFS.journal s') = filter user_visible (HRFS.journal s)).
Proof.
  split.
  - intros Hc.
    unfold HRFS.trigger_set, TriggerOnChange.set, HRFS._sensor_connected_changed.
    cbn [TriggerOnChange._value TriggerOnChange._fn]. rewrite Hc. cbn.
    eexists. repeat split. now apply filter_app_hidden.
  - intros Hf.
    unfold HRFS.trigger_set, TriggerOnChange.set, HRFS._filament_present_changed.
    cbn [TriggerOnChange._value TriggerOnChange._fn]. rewrite Hf. cbn.
    eexists. repeat split. now apply filter_app_hidden.
Qed.

(** On a new sensor the first value of the connection trigger reaches the log
    only; and the first poll tick with a good block (magnet detected, filament
    present, turn 1, angle 2048) sets both triggers and leaves the console
    empty. *)
Lemma first_value_is_not_announced_witness :
  (exists s',
      HRFS.trigger_set HRFS._sensor_connected HRFS.set_sensor_connected
                       HRFS._sensor_connected_changed true (HRFS.init example_config)
        = Py.Returns tt s'
      /\ HRFS._sensor_connected s' = Some true
      /\ HRFS.journal s' = [LogInfo (SensorConnectedChanged None true)]
      /\ filter user_visible (HRFS.journal s') = [])
  /\ (exists s',
         HRFS._update_state_from_sensor
           (example_host 1%float (I2cResponse [4; 1; 1; 0; 0; 0; 0; 8; 0; 0]))
           (HRFS.init example_config) = Py.Returns tt s'
         /\ HRFS._sensor_connected s' = Some true
         /\ HRFS._filament_present s' = Some true
         /\ HRFS.journal s' = [LogInfo (SensorConnectedChanged None true);
                               LogInfo (FilamentPresentChanged None true)]).
Proof.
  split.
  - exact (proj1 (first_value_is_not_announced (HRFS.init example_config) true) eq_refl).
  - eexists. split; [vm_compute; reflexivity | repeat split].
Defined.

(** The ledger inspection never raises and leaves the configuration, the
    triggers and the journal alone. *)
Lemma inspect_commanded_move_returns (h : host) (eventtime : float) (s : HRFS.t) :
  exists s',
    HRFS._inspect_commanded_move h eventtime s = Py.Returns tt s'
    /\ HRFS.cfg s' = HRFS.cfg s
    /\ HRFS._sensor_connected s' = HRFS._sensor_connected s
    /\ HRFS.journal s' = HRFS.journal s.
Proof.
  unfold HRFS._inspect_commanded_move.
  destruct (extruder_is_active h); cbn; [|eexists; repeat split].
  destruct (Py.float_ne _ _); cbn; eexists; repeat split.
Qed.

(** C1, on the code.  On the block-read transport, an answer of the wrong
    length marks the sensor as not connected, logs the bytes received and
    returns.  A transport error does not: the sensor is marked as not
    connected, and then the warning asks for the length of [None], a
    [TypeError] that leaves [_update_state_from_sensor] and the timer
    callback [_sensor_update_event]. *)
Theorem block_read_failure (h : host) (s : HRFS.t) :
  uart (HRFS.cfg s) = false ->
  (i2c_read h = I2cError ->
   exists s',
     HRFS._update_state_from_sensor h s = Py.Raises Py.TypeError s'
     /\ HRFS._sensor_connected s' = Some false
     /\ forall eventtime, HRFS._sensor_update_event h eventtime s = Py.Raises Py.TypeError s')
  /\ (forall d,
         i2c_read h = I2cResponse d -> length d <> 10%nat ->
         exists s' written,
           HRFS._update_state_from_sensor h s = Py.Returns tt s'
           /\ HRFS._sensor_connected s' = Some false
           /\ HRFS.journal s' =
                HRFS.journal s ++ written ++ [LogWarning (UpdateFailed (length d) d)]).
Proof.
  intros Hu.
  destruct (inspect_commanded_move_returns h (monotonic h) s) as (s1 & E1 & Hc1 & _ & Hj1).
  split.
  - intros Herr.
    destruct (set_sensor_connected_returns false
                (HRFS.set_journal s1 (HRFS.journal s1 ++ [LogWarning UnableToRead])))
      as (s2 & E2 & Hv2 & _).
    assert (HU : HRFS._update_state_from_sensor h s = Py.Raises Py.TypeError s2).
    { unfold HRFS._update_state_from_sensor, HRFS.bind at 1. rewrite E1.
      unfold HRFS.bind at 1, HRFS.get. rewrite Hc1, Hu.
      unfold HRFS.i2c_read_reg. rewrite Herr. cbn -[HRFS.trigger_set].
      unfold HRFS.bind at 1. rewrite E2. reflexivity. }
    exists s2. repeat split; [assumption | assumption |].
    intros eventtime. unfold HRFS._sensor_update_event, HRFS.bind at 1. now rewrite HU.
  - intros d Hd Hlen.
    destruct (set_sensor_connected_returns false s1) as (s2 & E2 & Hv2 & _ & _ & written & Hj2).
    exists (HRFS.set_journal s2 (HRFS.journal s2 ++ [LogWarning (UpdateFailed (length d) d)])),
           written.
    repeat split.
    + unfold HRFS._update_state_from_sensor, HRFS.bind at 1. rewrite E1.
      unfold HRFS.bind at 1, HRFS.get. rewrite Hc1, Hu.
      unfold HRFS.i2c_read_reg. rewrite Hd. cbn -[HRFS.trigger_set Nat.eqb].
      apply Nat.eqb_neq in Hlen. rewrite Hlen, orb_true_r.
      unfold HRFS.bind at 1. rewrite E2. reflexivity.
    + cbn. assumption.
    + cbn. now rewrite Hj2, Hj1, <- app_assoc.
Qed.

Lemma block_read_failure_witness :
  exists s',
    HRFS._update_state_from_sensor (example_host 1%float I2cError) (HRFS.init example_config)
      = Py.Raises Py.TypeError s'
    /\ HRFS._sensor_connected s' = Some false
    /\ forall eventtime,
         HRFS._sensor_update_event (example_host 1%float I2cError) eventtime
                                   (HRFS.init example_config)
           = Py.Raises Py.TypeError s'.
Proof.
  exact (proj1 (block_read_failure (example_host 1%float I2cError) (HRFS.init example_config)
                  eq_refl) eq_refl).
Defined.

(** ** The rotation decoder *)

Lemma mask_is_ones (resolution k : Z) : SRH.mask (SRH.init resolution k) = Z.ones k.
Proof. unfold SRH.init, Z.ones. simpl. now rewrite Z.sub_1_r. Qed.

Lemma clear_low_bits (x k : Z) :
  0 <= k -> Z.land x (Z.lnot (Z.ones k)) = Z.shiftl (Z.shiftr x k) k.
Proof. intros Hk. rewrite <- Z.ldiff_land. now apply Z.ldiff_ones_r. Qed.

(** X1. Where the turns contribute a multiple of [2^ignore_bits], two angles
    that agree above their [ignore_bits] low bits give the same position (in
    particular at turn 0). *)
Lemma mask_invariance_when_turns_aligned (k turns a1 a2 : Z) :
  0 <= k ->
  (2 ^ k | turns * SRH.angle_max_value (SRH.init 12 k)) ->
  Z.shiftr a1 k = Z.shiftr a2 k ->
  SRH.absolute_angular_position (SRH.update_raw (SRH.init 12 k) turns a1) =
  SRH.absolute_angular_position (SRH.update_raw (SRH.init 12 k) turns a2).
Proof.
  intros Hk [q Hq] Ha.
  assert (E : forall a, SRH.masked_position (SRH.update_raw (SRH.init 12 k) turns a)
                        = Z.shiftl (q + Z.shiftr a k) k).
  { intros a. unfold SRH.masked_position.
    change (SRH.mask (SRH.update_raw (SRH.init 12 k) turns a)) with (SRH.mask (SRH.init 12 k)).
    rewrite mask_is_ones, clear_low_bits by assumption.
    change (SRH._absolute_angular_position (SRH.update_raw (SRH.init 12 k) turns a))
      with (turns * SRH.angle_max_value (SRH.init 12 k) + a).
    rewrite Hq. f_equal. rewrite !Z.shiftr_div_pow2 by assumption.
    rewrite Z.div_add_l; [reflexivity|]. apply Z.pow_nonzero; lia. }
  unfold SRH.absolute_angular_position. now rewrite !E, Ha.
Qed.

(** At turn 0 the raw angles 8 and 15, equal above their 3 low bits, give the
    same position. *)
Lemma mask_invariance_when_turns_aligned_witness :
  SRH.absolute_angular_position (SRH.update_raw (SRH.init 12 3) 0 8) =
  SRH.absolute_angular_position (SRH.update_raw (SRH.init 12 3) 0 15).
Proof.
  apply (mask_invariance_when_turns_aligned 3 0 8 15).
  - lia.
  - exists 0. reflexivity.
  - reflexivity.
Defined.

(** C2, on the code.  With 3 ignored bits and one full turn, the raw angles 0
    and 1 (equal above their 3 low bits) are combined to 4095 and 4096, which
    the mask sends to 4088 and 4096: the two positions in degrees differ. *)
Theorem mask_after_combining_at_turn_one :
  Z.shiftr 0 3 = Z.shiftr 1 3
  /\ SRH.masked_position (SRH.update_raw (SRH.init 12 3) 1 0) = 4088
  /\ SRH.masked_position (SRH.update_raw (SRH.init 12 3) 1 1) = 4096
  /\ match SRH.absolute_angular_position (SRH.update_raw (SRH.init 12 3) 1 0),
           SRH.absolute_angular_position (SRH.update_raw (SRH.init 12 3) 1 1) with
     | Py.Ok p0, Py.Ok p1 => PrimFloat.ltb p0 p1 = true
     | _, _ => False
     end.
Proof. repeat split. Qed.

(** ** The move ledger *)

Lemma pop_while_over_100_firstn (fuel : nat) :
  forall moves : list CommandedMove.t,
    (length moves - 100 <= fuel)%nat ->
    HRFS.pop_while_over_100 fuel moves = firstn 100 moves.
Proof.
  induction fuel as [|fuel IH]; intros moves H; cbn [HRFS.pop_while_over_100].
  - symmetry. apply firstn_all2. lia.
  - destruct (Nat.ltb_spec 100 (length moves)) as [Hlt|Hge].
    + rewrite IH by (rewrite removelast_firstn_len, length_firstn; lia).
      rewrite removelast_firstn_len, firstn_firstn. f_equal. lia.
    + symmetry. apply firstn_all2. lia.
Qed.

Lemma ledger_trimmed (moves : list CommandedMove.t) :
  HRFS.pop_while_over_100 (length moves) moves = firstn 100 moves.
Proof. apply pop_while_over_100_firstn. lia. Qed.

Lemma inspect_commanded_move_ledger (h : host) (eventtime : float) (s : HRFS.t) :
  exists s',
    HRFS._inspect_commanded_move h eventtime s = Py.Returns tt s'
    /\ HRFS.cfg s' = HRFS.cfg s
    /\ (extruder_is_active h = false -> s' = s)
    /\ (extruder_is_active h = true ->
        Py.float_ne (toolhead_epos h - HRFS._last_epos s)%float 0%float = false ->
        HRFS._commanded_moves s' = firstn 100 (HRFS._commanded_moves s))
    /\ (extruder_is_active h = true ->
        Py.float_ne (toolhead_epos h - HRFS._last_epos s)%float 0%float = true ->
        exists move,
          HRFS._commanded_moves s' = firstn 100 (with_new_move move (HRFS._commanded_moves s))
          /\ CommandedMove.epos move = toolhead_epos h
          /\ CommandedMove.eventtime move = eventtime
          /\ CommandedMove.ended move = false).
Proof.
  unfold HRFS._inspect_commanded_move.
  destruct (extruder_is_active h); cbn -[HRFS.pop_while_over_100 firstn].
  - destruct (Py.float_ne _ _); cbn -[HRFS.pop_while_over_100 firstn];
      eexists; repeat split; try discriminate; intros _ _.
    + eexists. rewrite ledger_trimmed. repeat split.
    + apply ledger_trimmed.
  - eexists. repeat split; discriminate.
Qed.

(** ** What a method keeps *)

Section Preservation.

Variable P : HRFS.t -> Prop.

Lemma preserves_ret {A : Type} (a : A) : preserves P (HRFS.ret a).
Proof. now intros s H. Qed.

Lemma preserves_raise {A : Type} (e : Py.exn) : preserves P (@HRFS.raise A e).
Proof. now intros s H. Qed.

Lemma preserves_get : preserves P HRFS.get.
Proof. now intros s H. Qed.

Lemma preserves_lift {A : Type} (r : Py.result A) : preserves P (HRFS.lift r).
Proof. intros s H. unfold HRFS.lift. now destruct r. Qed.

Lemma preserves_modify (f : HRFS.t -> HRFS.t) :
  (forall s, P s -> P (f s)) -> preserves P (HRFS.modify f).
Proof. intros Hf s H. now apply Hf. Qed.

Lemma preserves_bind {A B : Type} (m : HRFS.M A) (k : A -> HRFS.M B) :
  preserves P m -> (forall a, preserves P (k a)) -> preserves P (HRFS.bind m k).
Proof.
  intros Hm Hk s H. unfold HRFS.bind. specialize (Hm s H).
  destruct (m s) as [a s'|e s']; [now apply Hk | assumption].
Qed.

(** A trigger keeps what its callback and the store of its value keep. *)
Lemma preserves_trigger_set (value_of : HRFS.t -> option bool)
      (store : HRFS.t -> option bool -> HRFS.t)
      (fn : option bool -> bool -> HRFS.M unit) (value : bool) :
  (forall old v, preserves P (fn old v)) ->
  (forall s v, P s -> P (store s v)) ->
  preserves P (HRFS.trigger_set value_of store fn value).
Proof.
  intros Hfn Hstore s H. unfold HRFS.trigger_set, TriggerOnChange.set.
  cbn [TriggerOnChange._value TriggerOnChange._fn].
  destruct (TriggerOnChange.is_not value (value_of s)).
  - specialize (Hfn (value_of s) value s H).
    destruct (fn (value_of s) value s) as [[] s'|e s']; cbn; now apply Hstore.
  - cbn. now apply Hstore.
Qed.

Lemma preserves_trigger_bool (value_of : HRFS.t -> option bool) :
  preserves P (HRFS.trigger_bool value_of).
Proof. intros s H. unfold HRFS.trigger_bool. now apply preserves_lift. Qed.

(** A register read keeps what a write to the journal keeps. *)
Lemma preserves_uart_read (read : nat -> list uart_read_log * unpacked * nat)
      (attempt : nat) :
  (forall s log,
      P s -> P (HRFS.set_journal s (HRFS.journal s ++ map HRFS.uart_warning log))) ->
  preserves P (HRFS.uart_read read attempt).
Proof.
  intros Hj s H. unfold HRFS.uart_read.
  destruct (read attempt) as [[log value] next].
  unfold HRFS.bind, HRFS.modify. destruct value; cbn; now apply Hj.
Qed.

End Preservation.

(** One step through a method: the rule of its outermost construct. *)
Ltac preserve_step :=
  lazymatch goal with
  | |- preserves _ (HRFS.bind _ _) => apply preserves_bind; [|intros ?]
  | |- preserves _ (HRFS.ret _) => apply preserves_ret
  | |- preserves _ (HRFS.raise _) => apply preserves_raise
  | |- preserves _ HRFS.get => apply preserves_get
  | |- preserves _ (HRFS.lift _) => apply preserves_lift
  | |- preserves _ (HRFS.trigger_bool _) => apply preserves_trigger_bool
  | |- preserves _ (HRFS.trigger_set _ _ _ _) =>
      apply preserves_trigger_set; [intros ? ?|intros ? ? ?]
  | |- preserves _ (HRFS.uart_read _ _) => apply preserves_uart_read; intros ? ? ?
  | |- preserves _ (HRFS.emit _) => unfold HRFS.emit
  | |- preserves _ (HRFS.modify _) => apply preserves_modify; intros ? ?
  | |- preserves _ (match ?o with _ => _ end) => destruct o
  end.

Ltac preserve := repeat preserve_step.

(** What is left is that a field other than the ledger was written. *)
Ltac ledger_untouched :=
  try (unfold ledger_bounded in *; cbn; assumption).

Lemma inspect_commanded_move_bounded (h : host) (eventtime : float) :
  preserves ledger_bounded (HRFS._inspect_commanded_move h eventtime).
Proof.
  intros s Hs.
  destruct (inspect_commanded_move_ledger h eventtime s)
    as (s1 & E & _ & Hidle & Hsame & Hnew).
  rewrite E. unfold ledger_bounded in *.
  destruct (extruder_is_active h); [|now rewrite (Hidle eq_refl)].
  destruct (Py.float_ne _ _).
  - destruct (Hnew eq_refl eq_refl) as (move & -> & _). rewrite length_firstn. lia.
  - rewrite (Hsame eq_refl eq_refl), length_firstn. lia.
Qed.

Lemma update_state_from_sensor_bounded (h : host) :
  preserves ledger_bounded (HRFS._update_state_from_sensor h).
Proof.
  unfold HRFS._update_state_from_sensor, HRFS.apply_reading, HRFS.i2c_read_reg.
  preserve_step; [apply inspect_commanded_move_bounded|].
  preserve;
    unfold HRFS._sensor_connected_changed, HRFS._filament_present_changed;
    preserve; ledger_untouched.
  all: unfold ledger_bounded in *;
    match goal with
    | H : (length (HRFS._commanded_moves ?s) <= 100)%nat |- _ =>
        destruct (HRFS._commanded_moves s) as [|move rest] eqn:E;
        [|destruct (negb (CommandedMove.ended move))];
        cbn; rewrite ?E; exact H
    end.
Qed.

Lemma check_print_issues_bounded (h : host) (eventtime : float) :
  preserves ledger_bounded (HRFS._check_print_issues h eventtime).
Proof.
  unfold HRFS._check_print_issues, HRFS._is_sensor_healthy, HRFS._is_runout_condition,
    HRFS._runout_event_handler, HRFS._exec_gcode.
  preserve;
    unfold HRFS._unhealthy_changed, HRFS._runout_changed, HRFS._underextruding_changed,
      HRFS._sensor_unhealthy_reason;
    preserve; ledger_untouched.
Qed.

(** The whole poll tick keeps the bound on the ledger, and so do the two
    other methods that write the ledger. *)
Lemma sensor_update_event_bounded (h : host) (eventtime : float) :
  preserves ledger_bounded (HRFS._sensor_update_event h eventtime).
Proof.
  unfold HRFS._sensor_update_event.
  preserve_step; [apply update_state_from_sensor_bounded|].
  preserve_step; [preserve; ledger_untouched|].
  preserve_step; [preserve|].
  preserve_step; [|preserve].
  preserve_step; [apply check_print_issues_bounded | preserve].
Qed.

Lemma all_moves_ended_bounded : preserves ledger_bounded HRFS.all_moves_ended.
Proof.
  unfold HRFS.all_moves_ended. preserve. unfold ledger_bounded in *. cbn.
  now rewrite length_map.
Qed.

Lemma clear_move_queue_bounded : preserves ledger_bounded HRFS.clear_move_queue.
Proof.
  unfold HRFS.clear_move_queue. preserve. unfold ledger_bounded. cbn. lia.
Qed.

Lemma inspect_each_bounded (calls : list (host * float)) :
  forall s, (length (HRFS._commanded_moves s) <= 100)%nat ->
  exists s', inspect_each calls s = Py.Returns tt s'
             /\ (length (HRFS._commanded_moves s') <= 100)%nat.
Proof.
  induction calls as [|[h eventtime] calls IH]; intros s Hs; simpl.
  - now exists s.
  - destruct (inspect_commanded_move_ledger h eventtime s)
      as (s1 & E & _ & Hidle & Hsame & Hnew).
    rewrite E. apply IH.
    destruct (extruder_is_active h); [|now rewrite (Hidle eq_refl)].
    destruct (Py.float_ne _ _).
    + destruct (Hnew eq_refl eq_refl) as (move & -> & _). rewrite length_firstn. lia.
    + rewrite (Hsame eq_refl eq_refl), length_firstn. lia.
Qed.

(** C9. A call of [_inspect_commanded_move] returns with a ledger of at most
    100 moves whenever the extruder is the active one or the ledger held at
    most 100 moves before; what is kept is the first 100 moves of the ledger,
    newest first, so the oldest are dropped.  From the empty ledger of a new
    sensor every sequence of calls leaves at most 100 moves; the whole poll
    tick and the two other methods that write the ledger keep the bound,
    whether they return or raise; and 105 started moves leave the 100 newest
    (those to positions 105 down to 6). *)
Theorem ledger_holds_at_most_100 :
  (forall h eventtime s,
      exists s',
        HRFS._inspect_commanded_move h eventtime s = Py.Returns tt s'
        /\ (extruder_is_active h = true \/ (length (HRFS._commanded_moves s) <= 100)%nat ->
            (length (HRFS._commanded_moves s') <= 100)%nat)
        /\ (extruder_is_active h = true ->
            exists moves, HRFS._commanded_moves s' = firstn 100 moves
                          /\ (moves = HRFS._commanded_moves s
                              \/ exists move, moves = with_new_move move (HRFS._commanded_moves s)
                                              /\ CommandedMove.epos move = toolhead_epos h)))
  /\ (forall c calls,
         exists s', inspect_each calls (HRFS.init c) = Py.Returns tt s'
                    /\ (length (HRFS._commanded_moves s') <= 100)%nat)
  /\ (forall h eventtime, preserves ledger_bounded (HRFS._sensor_update_event h eventtime))
  /\ preserves ledger_bounded HRFS.all_moves_ended
  /\ preserves ledger_bounded HRFS.clear_move_queue
  /\ (let ledger := ledger_of (inspect_each (map command_to (seq 1 105))
                                            (HRFS.init example_config)) in
      length ledger = 100%nat
      /\ map CommandedMove.epos ledger
         = map (fun i => Py.float_of_int (Z.of_nat i)) (rev (seq 6 100))).
Proof.
  split; [|split; [|split; [exact sensor_update_event_bounded|];
                    split; [exact all_moves_ended_bounded|];
                    split; [exact clear_move_queue_bounded|];
                    split; vm_compute; reflexivity]].
  - intros h eventtime s.
    destruct (inspect_commanded_move_ledger h eventtime s)
      as (s1 & E & _ & Hidle & Hsame & Hnew).
    exists s1. split; [assumption|]. split.
    + intros H. destruct (extruder_is_active h).
      * destruct (Py.float_ne _ _).
        -- destruct (Hnew eq_refl eq_refl) as (move & -> & _). rewrite length_firstn. lia.
        -- rewrite (Hsame eq_refl eq_refl), length_firstn. lia.
      * destruct H as [H|H]; [discriminate|]. now rewrite (Hidle eq_refl).
    + intros Ha. destruct (Py.float_ne (toolhead_epos h - HRFS._last_epos s) 0) eqn:Hd.
      * destruct (Hnew Ha eq_refl) as (move & Hm & He & _).
        exists (with_new_move move (HRFS._commanded_moves s)). split; [assumption|].
        right. now exists move.
      * exists (HRFS._commanded_moves s). split; [now apply Hsame | now left].
  - intros c calls. apply inspect_each_bounded. simpl. lia.
Qed.

(** ** Derived metrics of a move *)

Lemma float_truthy_false (x : float) :
  PrimFloat.eqb x 0%float = true -> Py.float_truthy x = false.
Proof. unfold Py.float_truthy. now intros ->. Qed.

Lemma truediv_truthy (x y : float) :
  Py.float_truthy y = true -> Py.truediv x y = Py.Ok (x / y)%float.
Proof.
  unfold Py.float_truthy, Py.truediv. now destruct (PrimFloat.eqb y 0%float).
Qed.

Lemma sub_same_is_zero (t : float) :
  Py.is_finite t = true -> PrimFloat.eqb (t - t)%float 0%float = true.
Proof.
  unfold Py.is_finite. intros H.
  rewrite FloatAxioms.eqb_spec, FloatAxioms.sub_spec.
  destruct (Prim2SF t) as [s| | |s m e]; try discriminate.
  - now destruct s.
  - unfold SF64sub, SFsub. rewrite Z.min_id. unfold shl_align. rewrite Z.sub_diag.
    reflexivity.
Qed.

Lemma speed_no_zero_division (move : CommandedMove.t) :
  CommandedMove.speed move <> Py.Raise Py.ZeroDivisionError.
Proof.
  unfold CommandedMove.speed.
  destruct (CommandedMove.duration move) as [[d|]|e] eqn:Hd; simpl; try discriminate.
  - destruct (Py.float_truthy d) eqn:Ht; [|discriminate].
    destruct (CommandedMove.measured_distance move) as [m|e] eqn:Hm; simpl.
    + now rewrite (truediv_truthy m d Ht).
    + unfold CommandedMove.measured_distance in Hm.
      destruct (CommandedMove.last_event move); [|discriminate].
      destruct (CommandedMove.first_event move); [discriminate|].
      injection Hm as <-. discriminate.
  - unfold CommandedMove.duration in Hd.
    destruct (CommandedMove.last_motion_eventtime move) as [t|]; [|discriminate].
    destruct (Py.float_truthy t); [|discriminate].
    destruct (CommandedMove.first_motion_eventtime move); [discriminate|].
    injection Hd as <-. discriminate.
Qed.

Lemma extrusion_rate_no_zero_division (move : CommandedMove.t) :
  CommandedMove.extrusion_rate move <> Py.Raise Py.ZeroDivisionError.
Proof.
  unfold CommandedMove.extrusion_rate.
  destruct (CommandedMove.expected_distance move) as [d|]; [|discriminate].
  destruct (Py.float_truthy d) eqn:Ht; [|discriminate].
  destruct (CommandedMove.measured_distance move) as [m|e] eqn:Hm; simpl.
  - now rewrite (truediv_truthy m d Ht).
  - unfold CommandedMove.measured_distance in Hm.
    destruct (CommandedMove.last_event move); [|discriminate].
    destruct (CommandedMove.first_event move); [discriminate|].
    injection Hm as <-. discriminate.
Qed.

(** C10. Whatever the state of a move, neither [speed] nor [extrusion_rate]
    raises a division by zero.  [speed] is [None] when the move has no motion
    event, when its duration is undefined or zero, and so when its first and
    last motion events have the same (finite) time; [extrusion_rate] is 0.0
    when the expected distance is [None] and when it is zero. *)
Theorem metrics_guard_their_divisions (move : CommandedMove.t) :
  CommandedMove.speed move <> Py.Raise Py.ZeroDivisionError
  /\ CommandedMove.extrusion_rate move <> Py.Raise Py.ZeroDivisionError
  /\ (CommandedMove.last_motion_event move = None ->
      CommandedMove.speed move = Py.Ok None)
  /\ (CommandedMove.duration move = Py.Ok None ->
      CommandedMove.speed move = Py.Ok None)
  /\ (forall d, CommandedMove.duration move = Py.Ok (Some d) ->
                PrimFloat.eqb d 0%float = true ->
                CommandedMove.speed move = Py.Ok None)
  /\ (forall first last,
         CommandedMove.first_motion_event move = Some first ->
         CommandedMove.last_motion_event move = Some last ->
         SensorEvent.eventtime first = SensorEvent.eventtime last ->
         Py.is_finite (SensorEvent.eventtime last) = true ->
         CommandedMove.speed move = Py.Ok None)
  /\ (CommandedMove.expected_distance move = None ->
      CommandedMove.extrusion_rate move = Py.Ok 0%float)
  /\ (forall d, CommandedMove.expected_distance move = Some d ->
                PrimFloat.eqb d 0%float = true ->
                CommandedMove.extrusion_rate move = Py.Ok 0%float).
Proof.
  split; [apply speed_no_zero_division|].
  split; [apply extrusion_rate_no_zero_division|].
  repeat split.
  - intros H. unfold CommandedMove.speed, CommandedMove.duration,
      CommandedMove.last_motion_eventtime. now rewrite H.
  - intros H. unfold CommandedMove.speed. now rewrite H.
  - intros d H Hz. unfold CommandedMove.speed. rewrite H. simpl.
    now rewrite (float_truthy_false d Hz).
  - intros first last Hf Hl Ht Hfin.
    unfold CommandedMove.speed, CommandedMove.duration,
      CommandedMove.last_motion_eventtime, CommandedMove.first_motion_eventtime.
    rewrite Hf, Hl. simpl. rewrite Ht.
    destruct (Py.float_truthy (SensorEvent.eventtime last)); simpl; [|reflexivity].
    now rewrite (float_truthy_false _ (sub_same_is_zero _ Hfin)).
  - intros H. unfold CommandedMove.extrusion_rate. now rewrite H.
  - intros d H Hz. unfold CommandedMove.extrusion_rate. rewrite H.
    now rewrite (float_truthy_false d Hz).
Qed.

(** A move whose only motion event is at time 2 has no speed, and a move
    that expects no distance has extrusion rate 0. *)
Lemma metrics_guard_their_divisions_witness :
  CommandedMove.speed (example_move 10%float 2%float) = Py.Ok None
  /\ CommandedMove.extrusion_rate (example_move 0%float 2%float) = Py.Ok 0%float.
Proof.
  split.
  - apply (proj1 (proj2 (proj2 (proj2 (proj2 (proj2
             (metrics_guard_their_divisions (example_move 10%float 2%float)))))))
            (SensorEvent.mk 2%float 2%float 2%float 10%float)
            (SensorEvent.mk 2%float 2%float 2%float 10%float));
      reflexivity.
  - apply (proj2 (proj2 (proj2 (proj2 (proj2 (proj2 (proj2
             (metrics_guard_their_divisions (example_move 0%float 2%float))))))))
            0%float); reflexivity.
Defined.

Lemma ltb_leb (a b : float) : PrimFloat.ltb a b = true -> PrimFloat.leb a b = true.
Proof.
  rewrite FloatAxioms.ltb_spec, FloatAxioms.leb_spec. unfold SFltb, SFleb.
  now destruct (SFcompare (Prim2SF a) (Prim2SF b)) as [[| |]|].
Qed.

(** [min(1, max(-1, x))] written out with the comparisons of the floats:
    [x] when [-1 < x < 1], 1 when [x] is not below 1, -1 when [x] is not above
    -1 (for a NaN too); the result is always between -1 and 1. *)
Lemma clamp_cases (x : float) :
  Py.min2 1 (Py.max2 (-1) x)
  = (if PrimFloat.ltb (-1) x then (if PrimFloat.ltb x 1 then x else 1%float)
     else (-1)%float).
Proof.
  unfold Py.min2, Py.max2. destruct (PrimFloat.ltb (-1) x); reflexivity.
Qed.

Lemma clamp_range (x : float) :
  PrimFloat.leb (-1) (Py.min2 1 (Py.max2 (-1) x)) = true
  /\ PrimFloat.leb (Py.min2 1 (Py.max2 (-1) x)) 1 = true.
Proof.
  rewrite clamp_cases.
  destruct (PrimFloat.ltb (-1) x) eqn:A; [|now split].
  destruct (PrimFloat.ltb x 1) eqn:B; [|now split].
  split; now apply ltb_leb.
Qed.

(** C4. For a move with a defined, non-zero expected distance [d] and
    measured distance [m], the under-extrusion rate is
    [min(1, max(-1, 1 - m / d))]; with no move it is 0.0.  For d = 10:
    m = 2 gives 0.8, m = -5 gives 1.0 and m = 15 gives -0.5.  Written out:
    the rate is [1 - m / d] when that lies strictly between -1 and 1, 1 when
    it is not below 1 and -1 when it is not above -1, so every rate lies
    between -1 and 1; for d = 10, m = 25 gives -1.0 (clamped from -1.5). *)
Theorem underextrusion_rate_is_clamped :
  (forall move d m,
      CommandedMove.expected_distance move = Some d ->
      Py.float_truthy d = true ->
      CommandedMove.measured_distance move = Py.Ok m ->
      HRFS._measured_underextrusion_rate (Some move) =
        Py.Ok (Py.min2 1%float (Py.max2 (-1)%float (1 - m / d)%float)))
  /\ HRFS._measured_underextrusion_rate None = Py.Ok 0%float
  /\ (CommandedMove.expected_distance (example_move 10%float 2%float) = Some 10%float
      /\ CommandedMove.measured_distance (example_move 10%float 2%float) = Py.Ok 2%float
      /\ HRFS._measured_underextrusion_rate (Some (example_move 10%float 2%float))
         = Py.Ok 0x1.999999999999ap-1%float)
  /\ (CommandedMove.expected_distance (example_move 10%float (-5)%float) = Some 10%float
      /\ CommandedMove.measured_distance (example_move 10%float (-5)%float)
         = Py.Ok (-5)%float
      /\ (1 - (-5) / 10 = 1.5)%float
      /\ HRFS._measured_underextrusion_rate (Some (example_move 10%float (-5)%float))
         = Py.Ok 1%float)
  /\ (CommandedMove.expected_distance (example_move 10%float 15%float) = Some 10%float
      /\ CommandedMove.measured_distance (example_move 10%float 15%float) = Py.Ok 15%float
      /\ HRFS._measured_underextrusion_rate (Some (example_move 10%float 15%float))
         = Py.Ok (-0.5)%float)
  /\ (forall move d m,
         CommandedMove.expected_distance move = Some d ->
         Py.float_truthy d = true ->
         CommandedMove.measured_distance move = Py.Ok m ->
         HRFS._measured_underextrusion_rate (Some move) =
           Py.Ok (if PrimFloat.ltb (-1) (1 - m / d)
                  then (if PrimFloat.ltb (1 - m / d) 1 then (1 - m / d)%float else 1%float)
                  else (-1)%float))
  /\ (forall move rate,
         HRFS._measured_underextrusion_rate move = Py.Ok rate ->
         PrimFloat.leb (-1) rate = true /\ PrimFloat.leb rate 1 = true)
  /\ (CommandedMove.expected_distance (example_move 10%float 25%float) = Some 10%float
      /\ CommandedMove.measured_distance (example_move 10%float 25%float) = Py.Ok 25%float
      /\ (1 - 25 / 10 = -1.5)%float
      /\ HRFS._measured_underextrusion_rate (Some (example_move 10%float 25%float))
         = Py.Ok (-1)%float).
Proof.
  assert (General : forall move d m,
             CommandedMove.expected_distance move = Some d ->
             Py.float_truthy d = true ->
             CommandedMove.measured_distance move = Py.Ok m ->
             HRFS._measured_underextrusion_rate (Some move) =
               Py.Ok (Py.min2 1%float (Py.max2 (-1)%float (1 - m / d)%float))).
  { intros move d m Hd Ht Hm.
    unfold HRFS._measured_underextrusion_rate, CommandedMove.extrusion_rate.
    rewrite Hd, Ht, Hm. simpl. now rewrite (truediv_truthy m d Ht). }
  split; [exact General|].
  do 4 (split; [repeat split|]).
  split; [|split; [|repeat split]].
  - intros move d m Hd Ht Hm. rewrite (General move d m Hd Ht Hm). now rewrite clamp_cases.
  - intros [move|] rate; cbn.
    + destruct (CommandedMove.extrusion_rate move) as [r|e]; cbn; [|discriminate].
      intros E. injection E as <-. apply clamp_range.
    + intros E. injection E as <-. now split.
Qed.

Lemma underextrusion_rate_is_clamped_witness :
  HRFS._measured_underextrusion_rate (Some (example_move 10%float 2%float)) =
    Py.Ok (Py.min2 1%float (Py.max2 (-1)%float (1 - 2 / 10)%float)).
Proof.
  apply (proj1 underextrusion_rate_is_clamped (example_move 10%float 2%float)
               10%float 2%float); reflexivity.
Defined.

(** ** The runout condition *)






(** ** More on the serial-frame transport *)

Lemma byte_high_bits (d p : Z) : Py.is_byte d -> 8 <= p -> Z.testbit d p = false.
Proof.
  intros [H0 H1] Hp. destruct (Z.eq_dec d 0) as [->|Hd]; [apply Z.bits_0|].
  apply Z.bits_above_log2; [lia|].
  assert (Z.log2 d < 8) by (apply Z.log2_lt_pow2; lia). lia.
Qed.

Lemma pack_bits_app (data : list Z) (d : Z) :
  pack_bits (data ++ [d]) =
    (Z.lor (fst (pack_bits data)) (Z.shiftl d (snd (pack_bits data))),
     snd (pack_bits data) + 8).
Proof. unfold pack_bits. now rewrite fold_left_app. Qed.

Lemma pack_bits_pos (data : list Z) : snd (pack_bits data) = 8 * Z.of_nat (length data).
Proof.
  induction data as [|d data IH] using rev_ind; [reflexivity|].
  rewrite pack_bits_app, length_app. cbn [snd length]. lia.
Qed.

(** Bit [p] of the packed integer is bit [p mod 8] of byte [p / 8]. *)
Lemma pack_bits_testbit (data : list Z) :
  Forall Py.is_byte data ->
  forall p, 0 <= p ->
    Z.testbit (fst (pack_bits data)) p =
      Z.testbit (nth (Z.to_nat (p / 8)) data 0) (p mod 8).
Proof.
  induction data as [|d data IH] using rev_ind; intros Hb p Hp.
  - cbn. destruct (Z.to_nat (p / 8)); now rewrite !Z.bits_0.
  - apply Forall_app in Hb. destruct Hb as [Hdata Hd].
    apply Forall_inv in Hd.
    rewrite pack_bits_app. cbn [fst]. rewrite Z.lor_spec, (IH Hdata p Hp), pack_bits_pos.
    assert (Hdiv : 0 <= p / 8) by (apply Z.div_pos; lia).
    assert (Hmod : 0 <= p mod 8 < 8) by (apply Z.mod_pos_bound; lia).
    assert (Hp8 : p = 8 * (p / 8) + p mod 8) by (apply Z.div_mod; lia).
    destruct (Z.lt_ge_cases p (8 * Z.of_nat (length data))) as [Hlt|Hge].
    + rewrite Z.shiftl_spec_low by assumption. rewrite orb_false_r.
      rewrite app_nth1 by lia. reflexivity.
    + rewrite Z.shiftl_spec by assumption.
      rewrite (nth_overflow data) by lia. rewrite Z.bits_0, orb_false_l.
      destruct (Z.eq_dec (p / 8) (Z.of_nat (length data))) as [E|N].
      * rewrite app_nth2 by lia.
        replace (Z.to_nat (p / 8) - length data)%nat with 0%nat by lia.
        cbn [nth]. f_equal. lia.
      * rewrite (nth_overflow (data ++ [d])) by (rewrite length_app; cbn; lia).
        rewrite Z.bits_0. apply byte_high_bits; [assumption | lia].
Qed.

Lemma remove_serial_bits_nth (data : list Z) (i : nat) :
  (i < Nat.div (length data * 8) 10)%nat ->
  nth i (_remove_serial_bits data) 0 =
    Z.land (Z.shiftr (fst (pack_bits data)) (Z.of_nat i * 10 + 1)) 0xff.
Proof.
  intros Hi. unfold _remove_serial_bits.
  set (f := fun i : nat => Z.land (Z.shiftr (fst (pack_bits data)) (Z.of_nat i * 10 + 1)) 255).
  rewrite (nth_indep _ 0 (f 0%nat)) by (now rewrite length_map, length_seq).
  rewrite map_nth, seq_nth by assumption. reflexivity.
Qed.

(** X2. [_remove_serial_bits] drops the start and stop bit of every 10-bit
    group: bit [j] of its [i]-th byte is bit [10 i + 1 + j] of the stream, that
    is bit [(10 i + 1 + j) mod 8] of the stream's byte [(10 i + 1 + j) / 8]. *)
Theorem remove_serial_bits_takes_data_bits (data : list Z) (i : nat) (j : Z) :
  Forall Py.is_byte data ->
  (i < Nat.div (length data * 8) 10)%nat ->
  0 <= j < 8 ->
  Z.testbit (nth i (_remove_serial_bits data) 0) j =
    Z.testbit (nth (Z.to_nat ((10 * Z.of_nat i + 1 + j) / 8)) data 0)
              ((10 * Z.of_nat i + 1 + j) mod 8).
Proof.
  intros Hb Hi Hj. rewrite (remove_serial_bits_nth data i Hi).
  rewrite Z.land_spec, Z.shiftr_spec by lia.
  replace (Z.testbit 255 j) with true
    by (assert (j = 0 \/ j = 1 \/ j = 2 \/ j = 3 \/ j = 4 \/ j = 5 \/ j = 6 \/ j = 7) as H by lia;
        now destruct H as [->|[->|[->|[->|[->|[->|[->| ->]]]]]]]).
  rewrite andb_true_r, (pack_bits_testbit data Hb) by lia.
  now replace (j + (Z.of_nat i * 10 + 1)) with (10 * Z.of_nat i + 1 + j) by lia.
Qed.

Lemma remove_serial_bits_takes_data_bits_witness :
  Z.testbit (nth 3 (_remove_serial_bits stream_good) 0) 2 =
    Z.testbit (nth (Z.to_nat ((10 * Z.of_nat 3 + 1 + 2) / 8)) stream_good 0)
              ((10 * Z.of_nat 3 + 1 + 2) mod 8).
Proof.
  apply (remove_serial_bits_takes_data_bits stream_good 3 2).
  - repeat (apply Forall_cons; [unfold Py.is_byte; lia|]). apply Forall_nil.
  - vm_compute. lia.
  - lia.
Defined.

Lemma read_length_frames (reg_length : nat) :
  Nat.div (read_length reg_length * 8) 10 = (4 + reg_length)%nat.
Proof.
  unfold read_length.
  pose proof (Nat.div_mod_eq ((4 + reg_length) * 10 + 7) 8) as Hq.
  pose proof (Nat.mod_upper_bound ((4 + reg_length) * 10 + 7) 8) as Hr.
  set (q := Nat.div ((4 + reg_length) * 10 + 7) 8) in *.
  set (r := Nat.modulo ((4 + reg_length) * 10 + 7) 8) in *.
  symmetry. apply (Nat.div_unique _ _ _ (7 - r)); lia.
Qed.

Section UartReadProperties.

Variable _calc_crc8 : list Z -> Z.
Variable mcu : nat -> nat -> list Z.

(** The MCU answers a request with as many bytes as it was asked for. *)
Hypothesis mcu_length : forall attempt n, length (mcu attempt n) = n.

Lemma reg_read_payload_length (attempt : nat) (reg : Z) (reg_length : nat) (payload : list Z) :
  snd (reg_read _calc_crc8 mcu attempt reg reg_length) = Some payload ->
  length payload = reg_length.
Proof.
  unfold reg_read, _decode_read.
  set (decoded := _remove_serial_bits (mcu attempt (read_length reg_length))).
  assert (Hlen : length decoded = (4 + reg_length)%nat).
  { unfold decoded. now rewrite remove_serial_bits_length, mcu_length, read_length_frames. }
  destruct (length decoded <? 5)%nat; [discriminate|].
  destruct (negb _); [discriminate|].
  destruct (_ && _); [discriminate|].
  destruct (negb _); [discriminate|].
  cbn [snd]. intros H. injection H as <-.
  unfold Py.slice_to_last. rewrite length_skipn, removelast_firstn_len, length_firstn. lia.
Qed.

Lemma uart_read_attempts_log (reg : Z) (len : nat) (retries : nat) :
  forall attempt response log,
    ~ In NoResponseWarning log ->
    ~ In NoResponseWarning
        (fst (fst (uart_read_attempts _calc_crc8 mcu reg len attempt retries response log))).
Proof.
  induction retries as [|retries IH]; intros attempt response log Hlog; [assumption|].
  cbn [uart_read_attempts].
  assert (Hlog' : ~ In NoResponseWarning
                      (log ++ map DecodeWarning (fst (reg_read _calc_crc8 mcu attempt reg len)))).
  { intros H. apply in_app_or in H. destruct H as [H|H]; [now apply Hlog|].
    apply in_map_iff in H. destruct H as [w [H _]]. discriminate. }
  destruct (snd (reg_read _calc_crc8 mcu attempt reg len)) as [[|b payload]|];
    try (now apply IH). assumption.
Qed.

(** The loop stops at the first attempt that gives some bytes. *)
Lemma uart_read_attempts_first (reg : Z) (len : nat) (k : nat) :
  forall retries attempt response log payload,
    (k < retries)%nat ->
    (forall j, (j < k)%nat ->
               got_bytes (snd (reg_read _calc_crc8 mcu (attempt + j) reg len)) = false) ->
    snd (reg_read _calc_crc8 mcu (attempt + k) reg len) = Some payload ->
    payload <> [] ->
    let r := uart_read_attempts _calc_crc8 mcu reg len attempt retries response log in
    snd (fst r) = Some payload /\ snd r = (attempt + k + 1)%nat.
Proof.
  induction k as [|k IH]; intros retries attempt response log payload Hk Hrej Hacc Hne;
    (destruct retries as [|retries]; [lia|]); cbn [uart_read_attempts].
  - rewrite Nat.add_0_r in Hacc. rewrite Hacc.
    destruct payload as [|b payload]; [contradiction|]. cbn. split; [reflexivity | lia].
  - pose proof (Hrej 0%nat ltac:(lia)) as H0. rewrite Nat.add_0_r in H0.
    assert (Hnext : forall response' log',
               let r := uart_read_attempts _calc_crc8 mcu reg len (S attempt) retries
                                           response' log' in
               snd (fst r) = Some payload /\ snd r = (attempt + S k + 1)%nat).
    { intros response' log'.
      replace (attempt + S k + 1)%nat with (S attempt + k + 1)%nat by lia.
      apply IH; try assumption; [lia| |].
      - intros j Hj. replace (S attempt + j)%nat with (attempt + S j)%nat by lia.
        apply Hrej. lia.
      - now replace (S attempt + k)%nat with (attempt + S k)%nat by lia. }
    destruct (snd (reg_read _calc_crc8 mcu attempt reg len)) as [[|b p]|];
      try discriminate; apply Hnext.
Qed.

(** Without an answer in all of its attempts the loop ends with no
    response. *)
Lemma uart_read_attempts_none (reg : Z) (len : nat) (retries : nat) :
  forall attempt log response,
    (forall j, (j < retries)%nat ->
               snd (reg_read _calc_crc8 mcu (attempt + j) reg len) = None) ->
    let r := uart_read_attempts _calc_crc8 mcu reg len attempt retries response log in
    snd (fst r) = (match retries with O => response | S _ => None end)
    /\ snd r = (attempt + retries)%nat.
Proof.
  induction retries as [|retries IH]; intros attempt log response Hnone; cbn [uart_read_attempts].
  - cbn. split; [reflexivity | lia].
  - pose proof (Hnone 0%nat ltac:(lia)) as H0. rewrite Nat.add_0_r in H0. rewrite H0.
    destruct (IH (S attempt) (log ++ map DecodeWarning (fst (reg_read _calc_crc8 mcu attempt reg len)))
                 None) as [H1 H2].
    { intros j Hj. replace (S attempt + j)%nat with (attempt + S j)%nat by lia.
      apply Hnone. lia. }
    split; [|rewrite H2; lia].
    rewrite H1. now destruct retries.
Qed.

(** Whatever the answers, the loop makes between one and [retries]
    requests, and its response is the one it started with or an answer of the
    decoder. *)
Lemma uart_read_attempts_bounds (reg : Z) (len : nat) (retries : nat) :
  forall attempt response log,
    let r := uart_read_attempts _calc_crc8 mcu reg len attempt retries response log in
    (attempt <= snd r <= attempt + retries)%nat
    /\ (snd (fst r) = response
        \/ exists j, snd (fst r) = snd (reg_read _calc_crc8 mcu j reg len)).
Proof.
  induction retries as [|retries IH]; intros attempt response log; cbn [uart_read_attempts].
  - cbn. split; [lia | now left].
  - destruct (snd (reg_read _calc_crc8 mcu attempt reg len)) as [[|b p]|] eqn:E.
    + destruct (IH (S attempt) (Some [])
                   (log ++ map DecodeWarning (fst (reg_read _calc_crc8 mcu attempt reg len))))
        as [H1 [H2|H2]]; (split; [lia|]); right; [exists attempt; now rewrite H2, E | assumption].
    + cbn. split; [lia|]. right. exists attempt. now rewrite E.
    + destruct (IH (S attempt) None
                   (log ++ map DecodeWarning (fst (reg_read _calc_crc8 mcu attempt reg len))))
        as [H1 [H2|H2]]; (split; [lia|]); right; [exists attempt; now rewrite H2, E | assumption].
Qed.

End UartReadProperties.

Lemma uart_read_attempts_progress (crc : list Z -> Z) (mcu : nat -> nat -> list Z)
      (reg : Z) (len : nat) (retries attempt : nat) (response : option (list Z))
      (log : list uart_read_log) :
  (attempt < snd (uart_read_attempts crc mcu reg len attempt (S retries) response log)
   <= attempt + S retries)%nat.
Proof.
  cbn [uart_read_attempts].
  destruct (snd (reg_read crc mcu attempt reg len)) as [[|b p]|];
    try (cbn; lia);
    match goal with
    | |- context [uart_read_attempts crc mcu reg len (S attempt) retries ?r ?l] =>
        pose proof (proj1 (uart_read_attempts_bounds crc mcu reg len retries (S attempt) r l))
    end; cbv zeta in *; lia.
Qed.

(** X4. [uart_read_reg] asks at most five times.  The first answer that
    decodes to some bytes is returned, without the warning; when all five
    answers are rejected it returns [None] and logs the warning.  Every call
    makes between one and five requests. *)
Theorem uart_read_reg_retries (_calc_crc8 : list Z -> Z) (mcu : nat -> nat -> list Z)
        (attempt : nat) (reg : Z) (len : nat) :
  let r := uart_read_reg _calc_crc8 mcu attempt reg len in
  (forall k payload,
      (k < 5)%nat ->
      (forall j, (j < k)%nat ->
                 got_bytes (snd (reg_read _calc_crc8 mcu (attempt + j) reg len)) = false) ->
      snd (reg_read _calc_crc8 mcu (attempt + k) reg len) = Some payload ->
      payload <> [] ->
      snd (fst r) = Some payload
      /\ snd r = (attempt + k + 1)%nat
      /\ ~ In NoResponseWarning (fst (fst r)))
  /\ ((forall j, (j < 5)%nat ->
                 snd (reg_read _calc_crc8 mcu (attempt + j) reg len) = None) ->
      snd (fst r) = None
      /\ snd r = (attempt + 5)%nat
      /\ In NoResponseWarning (fst (fst r)))
  /\ (attempt < snd r <= attempt + 5)%nat.
Proof.
  unfold uart_read_reg.
  pose proof (uart_read_attempts_log _calc_crc8 mcu reg len 5 attempt None []
                ltac:(intros H; exact H)) as Hlog.
  pose proof (uart_read_attempts_progress _calc_crc8 mcu reg len 4 attempt None []) as Hprog.
  split; [|split].
  - intros k payload Hk Hrej Hacc Hne.
    destruct (uart_read_attempts_first _calc_crc8 mcu reg len k 5 attempt None [] payload
                Hk Hrej Hacc Hne) as [H1 H2].
    destruct (uart_read_attempts _calc_crc8 mcu reg len attempt 5 None []) as [[log response] next].
    cbn [fst snd] in *. subst response. cbn. auto.
  - intros Hnone.
    destruct (uart_read_attempts_none _calc_crc8 mcu reg len 5 attempt [] None Hnone) as [H1 H2].
    destruct (uart_read_attempts _calc_crc8 mcu reg len attempt 5 None []) as [[log response] next].
    cbn [fst snd] in *. subst response. cbn. repeat split; [assumption|].
    apply in_or_app. right. now left.
  - destruct (uart_read_attempts _calc_crc8 mcu reg len attempt 5 None []) as [[log response] next].
    cbn [fst snd] in *. now destruct response.
Qed.

Lemma uart_read_reg_response (crc : list Z -> Z) (mcu : nat -> nat -> list Z)
      (attempt : nat) (reg : Z) (len : nat) :
  (forall attempt n, length (mcu attempt n) = n) ->
  (forall data, snd (fst (uart_read_reg crc mcu attempt reg len)) = Some data ->
                length data = len)
  /\ (attempt < snd (uart_read_reg crc mcu attempt reg len) <= attempt + 5)%nat.
Proof.
  intros Hmcu. split.
  2: { unfold uart_read_reg.
       pose proof (uart_read_attempts_progress crc mcu reg len 4 attempt None []) as Hprog.
       destruct (uart_read_attempts crc mcu reg len attempt 5 None [])
         as [[log response] next].
       cbn [fst snd] in *. now destruct response. }
  intros data. unfold uart_read_reg.
  destruct (proj2 (uart_read_attempts_bounds crc mcu reg len 5 attempt None [])) as [H|[j H]];
    cbv zeta in H;
    destruct (uart_read_attempts crc mcu reg len attempt 5 None []) as [[log response] next];
    cbn [fst snd] in *; subst response.
  - discriminate.
  - destruct (snd (reg_read crc mcu j reg len)) as [payload|] eqn:E; [|discriminate].
    cbn. intros H. injection H as <-.
    now apply (reg_read_payload_length crc mcu Hmcu j reg len).
Qed.

Lemma uart_read_reg4_safe (crc : list Z -> Z) (mcu : nat -> nat -> list Z)
      (attempt : nat) (reg : Z) :
  (forall attempt n, length (mcu attempt n) = n) ->
  snd (fst (uart_read_reg4 crc mcu attempt reg)) <> StructError
  /\ (attempt < snd (uart_read_reg4 crc mcu attempt reg) <= attempt + 5)%nat.
Proof.
  intros Hmcu. destruct (uart_read_reg_response crc mcu attempt reg 4 Hmcu) as [Hlen Hnext].
  unfold uart_read_reg4.
  destruct (uart_read_reg crc mcu attempt reg 4) as [[log data] next]. cbn [fst snd] in *.
  split; [|assumption].
  destruct data as [data|]; [|discriminate].
  specialize (Hlen data eq_refl).
  destruct data as [|b0 [|b1 [|b2 [|b3 [|b4 data]]]]]; try discriminate.
Qed.

Lemma uart_read_reg1_safe (crc : list Z -> Z) (mcu : nat -> nat -> list Z)
      (attempt : nat) (reg : Z) :
  (forall attempt n, length (mcu attempt n) = n) ->
  snd (fst (uart_read_reg1 crc mcu attempt reg)) <> StructError
  /\ (attempt < snd (uart_read_reg1 crc mcu attempt reg) <= attempt + 5)%nat.
Proof.
  intros Hmcu. destruct (uart_read_reg_response crc mcu attempt reg 1 Hmcu) as [Hlen Hnext].
  unfold uart_read_reg1.
  destruct (uart_read_reg crc mcu attempt reg 1) as [[log data] next]. cbn [fst snd] in *.
  split; [|assumption].
  destruct data as [data|]; [|discriminate].
  specialize (Hlen data eq_refl).
  destruct data as [|b0 [|b1 data]]; try discriminate.
Qed.

(** X5. With an MCU that answers with as many bytes as it was asked for, the
    four register reads of [_update_state_from_sensor] never fail in
    [struct.unpack]: a payload that was accepted has the length the format
    needs.  They make between 4 and 20 requests. *)
Theorem uart_read_all_is_safe (_calc_crc8 : list Z -> Z) (mcu : nat -> nat -> list Z)
        (attempt : nat) :
  (forall attempt n, length (mcu attempt n) = n) ->
  let '(_, (magnet_state, filament_presence, full_turns, angle), next) :=
    uart_read_all _calc_crc8 mcu attempt in
  magnet_state <> StructError /\ filament_presence <> StructError
  /\ full_turns <> StructError /\ angle <> StructError
  /\ (attempt + 4 <= next <= attempt + 20)%nat.
Proof.
  intros Hmcu. unfold uart_read_all.
  pose proof (uart_read_reg1_safe _calc_crc8 mcu attempt SensorRegister.MAGNET_STATE Hmcu) as H1.
  destruct (uart_read_reg1 _calc_crc8 mcu attempt SensorRegister.MAGNET_STATE) as [[log1 m] n1].
  pose proof (uart_read_reg1_safe _calc_crc8 mcu n1 SensorRegister.FILAMENT_PRESENCE Hmcu) as H2.
  destruct (uart_read_reg1 _calc_crc8 mcu n1 SensorRegister.FILAMENT_PRESENCE) as [[log2 f] n2].
  pose proof (uart_read_reg4_safe _calc_crc8 mcu n2 SensorRegister.FULL_TURNS Hmcu) as H3.
  destruct (uart_read_reg4 _calc_crc8 mcu n2 SensorRegister.FULL_TURNS) as [[log3 t] n3].
  pose proof (uart_read_reg4_safe _calc_crc8 mcu n3 SensorRegister.ANGLE Hmcu) as H4.
  destruct (uart_read_reg4 _calc_crc8 mcu n3 SensorRegister.ANGLE) as [[log4 a] n4].
  cbn [fst snd] in *. intuition lia.
Qed.

Lemma uart_read_all_is_safe_witness :
  let '(_, (magnet_state, filament_presence, full_turns, angle), next) :=
    uart_read_all crc8_atm example_mcu 0 in
  magnet_state <> StructError /\ filament_presence <> StructError
  /\ full_turns <> StructError /\ angle <> StructError
  /\ (0 + 4 <= next <= 0 + 20)%nat.
Proof.
  apply (uart_read_all_is_safe crc8_atm example_mcu 0).
  intros attempt n. unfold example_mcu.
  rewrite length_firstn, length_app, repeat_length. lia.
Defined.

(** ** Moves that were built by the sensor *)

Lemma well_formed_init (eventtime pos last_epos epos : float) :
  well_formed (CM.init eventtime pos last_epos epos).
Proof. unfold well_formed. cbn. tauto. Qed.

Lemma well_formed_add_sensor_event (move : CM.t) (event : SensorEvent.t) (capture : bool) :
  well_formed move -> well_formed (CM.add_sensor_event move event capture).
Proof.
  unfold well_formed. intros (H1 & H2 & H3). cbn.
  destruct (Py.float_ne (SensorEvent.distance event) 0);
    destruct (CM.first_event move), (CM.first_motion_event move); cbn;
    repeat split; intros; try discriminate; try tauto.
Qed.

Lemma well_formed_combine_moves (newer older : CM.t) :
  well_formed newer -> well_formed older -> well_formed (HRFS._combine_moves newer older).
Proof.
  unfold well_formed. intros (A1 & A2 & A3) (B1 & B2 & B3). cbn.
  destruct (CM.first_event newer), (CM.last_event newer),
    (CM.first_motion_event newer), (CM.last_motion_event newer),
    (CM.first_event older), (CM.last_event older),
    (CM.first_motion_event older), (CM.last_motion_event older); cbn in *;
    repeat split; intros; try discriminate; try tauto;
    try (exfalso; intuition discriminate).
Qed.

Lemma well_formed_metrics (move : CM.t) :
  well_formed move ->
  (exists m, CM.measured_distance move = Py.Ok m)
  /\ (exists d, CM.duration move = Py.Ok d)
  /\ (exists v, CM.speed move = Py.Ok v)
  /\ (exists r, CM.extrusion_rate move = Py.Ok r)
  /\ (exists b, CM.detected move = Py.Ok b)
  /\ (exists d, CM.direction move = Py.Ok d)
  /\ (forall duration, exists b, CM.has_stopped_moving move duration = Py.Ok b)
  /\ (exists r, HRFS._measured_underextrusion_rate (Some move) = Py.Ok r).
Proof.
  intros (H1 & H2 & H3).
  assert (Hm : exists m, CM.measured_distance move = Py.Ok m).
  { unfold CM.measured_distance.
    destruct (CM.last_event move) as [le|]; [|now eexists].
    destruct (CM.first_event move) as [fe|]; [now eexists|].
    destruct H1 as [H1 _]. specialize (H1 eq_refl). discriminate. }
  assert (Hd : exists d, CM.duration move = Py.Ok d).
  { unfold CM.duration, CM.last_motion_eventtime, CM.first_motion_eventtime.
    destruct (CM.last_motion_event move) as [lm|]; [|now eexists]. cbn.
    destruct (Py.float_truthy _); [|now eexists].
    destruct (CM.first_motion_event move) as [fm|]; [now eexists|].
    destruct H2 as [H2 _]. specialize (H2 eq_refl). discriminate. }
  assert (Hr : exists r, CM.extrusion_rate move = Py.Ok r).
  { unfold CM.extrusion_rate.
    destruct (CM.expected_distance move) as [d|]; [|now eexists].
    destruct (Py.float_truthy d) eqn:Ht; [|now eexists].
    destruct Hm as [m ->]. cbn. rewrite (truediv_truthy m d Ht). now eexists. }
  destruct Hm as [m Hm]. destruct Hd as [d Hd]. destruct Hr as [r Hr].
  repeat split.
  - now exists m.
  - now exists d.
  - unfold CM.speed. rewrite Hd. cbn. destruct d as [d|]; [|now eexists].
    destruct (Py.float_truthy d) eqn:Ht; [|now eexists].
    rewrite Hm. cbn. rewrite (truediv_truthy m d Ht). now eexists.
  - now exists r.
  - unfold CM.detected. rewrite Hm. now eexists.
  - unfold CM.direction. rewrite Hm. now eexists.
  - intros duration. unfold CM.has_stopped_moving, CM.last_motion_eventtime.
    destruct (CM.last_motion_event move) as [lm|] eqn:Hl; [|now eexists]. cbn.
    destruct (Py.float_truthy _); [|now eexists].
    destruct (CM.last_event move) as [le|]; [|specialize (H3 eq_refl); discriminate].
    destruct (Py.float_ne _ _); now eexists.
  - unfold HRFS._measured_underextrusion_rate. rewrite Hr. now eexists.
Qed.

Lemma or_else_assoc (x y z : option SensorEvent.t) :
  CM.or_else (CM.or_else x y) z = CM.or_else x (CM.or_else y z).
Proof. now destruct x. Qed.

(** X9. [_combine_moves] is associative: the aggregate of a run of moves
    does not depend on how the loop groups them. *)
Theorem combine_moves_assoc (a b c : CM.t) :
  HRFS._combine_moves (HRFS._combine_moves a b) c =
  HRFS._combine_moves a (HRFS._combine_moves b c).
Proof.
  unfold HRFS._combine_moves. cbn.
  rewrite app_assoc, !or_else_assoc. reflexivity.
Qed.

Lemma combine_loop_fold (moves : list CM.t) :
  forall acc, HRFS.combine_loop None (Some acc) moves =
              Some (fold_left HRFS._combine_moves moves acc).
Proof. induction moves as [|m moves IH]; intros acc; cbn; [reflexivity | apply IH]. Qed.

Lemma combine_all_cons (newest : CM.t) (rest : list CM.t) :
  combine_all (newest :: rest) = Some (fold_left HRFS._combine_moves rest newest).
Proof. unfold combine_all. cbn. apply combine_loop_fold. Qed.

Lemma last_cons_default {A : Type} (a d : A) (l : list A) : last (a :: l) d = last l a.
Proof.
  revert a d. induction l as [|b l IH]; intros a d; [reflexivity|].
  change (last (a :: b :: l) d) with (last (b :: l) d). now rewrite !IH.
Qed.

Lemma fold_combine_fields (rest : list CM.t) :
  forall newest,
    let r := fold_left HRFS._combine_moves rest newest in
    CM.epos r = CM.epos newest
    /\ CM.ended r = CM.ended newest
    /\ CM.eventtime r = CM.eventtime (last rest newest)
    /\ CM.pos r = CM.pos (last rest newest)
    /\ CM.last_epos r = CM.last_epos (last rest newest)
    /\ CM.sensor_events r = flat_map CM.sensor_events (newest :: rest).
Proof.
  induction rest as [|m rest IH]; intros newest.
  - cbn. rewrite app_nil_r. tauto.
  - cbn [fold_left].
    destruct (IH (HRFS._combine_moves newest m)) as (E1 & E2 & E3 & E4 & E5 & E6).
    cbv zeta. rewrite E1, E2, E3, E4, E5, E6, last_cons_default.
    assert (L : last rest (HRFS._combine_moves newest m) = HRFS._combine_moves newest m
                /\ last rest m = m
                \/ last rest (HRFS._combine_moves newest m) = last rest m).
    { destruct rest as [|b rest]; [now left | right].
      now rewrite !last_cons_default. }
    cbn [flat_map]. rewrite app_assoc.
    destruct L as [[-> ->]| ->]; cbn; tauto.
Qed.

Lemma fold_combine_well_formed (rest : list CM.t) :
  forall newest, well_formed newest -> Forall well_formed rest ->
                 well_formed (fold_left HRFS._combine_moves rest newest).
Proof.
  induction rest as [|m rest IH]; intros newest Hn Hr; [assumption|].
  cbn. apply IH; [|now inversion Hr].
  apply well_formed_combine_moves; [assumption | now inversion Hr].
Qed.

(** With a stop function the loop gives the aggregate of a prefix of the
    moves: the shortest non-empty one whose aggregate satisfies it, or all of
    them. *)
Lemma combine_loop_prefix (f : CM.t -> bool) (moves : list CM.t) :
  forall acc,
  exists n,
    (n <= length moves)%nat
    /\ HRFS.combine_loop (Some f) acc moves = HRFS.combine_loop None acc (firstn n moves)
    /\ (n = length moves
        \/ exists r, HRFS.combine_loop None acc (firstn n moves) = Some r /\ f r = true)
    /\ (forall k r, (1 <= k < n)%nat ->
                    HRFS.combine_loop None acc (firstn k moves) = Some r -> f r = false).
Proof.
  induction moves as [|m moves IH]; intros acc.
  - exists 0%nat. cbn. repeat split; [lia | now left | intros; lia].
  - cbn [HRFS.combine_loop].
    set (move' := match acc with Some a => HRFS._combine_moves a m | None => m end).
    destruct (f move') eqn:Hf.
    + exists 1%nat. cbn. fold move'. repeat split; [lia| |intros; lia].
      right. now exists move'.
    + destruct (IH (Some move')) as (n & Hn & E & Hstop & Hmin).
      exists (S n). cbn [firstn HRFS.combine_loop length]. fold move'. cbn.
      repeat split; [lia | assumption | |].
      * destruct Hstop as [->|Hstop]; [now left | now right].
      * intros k r Hk Hr. destruct k as [|k]; [lia|].
        cbn [firstn HRFS.combine_loop] in Hr. fold move' in Hr. cbn in Hr.
        destruct k as [|k].
        -- cbn in Hr. injection Hr as <-. assumption.
        -- apply (Hmin (S k)); [lia | assumption].
Qed.

Lemma combine_loop_well_formed (fn : option (CM.t -> bool)) (moves : list CM.t) :
  forall acc,
    match acc with Some a => well_formed a | None => True end ->
    Forall well_formed moves ->
    match HRFS.combine_loop fn acc moves with
    | Some r => well_formed r
    | None => True
    end.
Proof.
  induction moves as [|m moves IH]; intros acc Ha Hm; [assumption|].
  cbn [HRFS.combine_loop].
  assert (Hw : well_formed match acc with Some a => HRFS._combine_moves a m | None => m end).
  { destruct acc as [a|]; [|now inversion Hm].
    apply well_formed_combine_moves; [assumption | now inversion Hm]. }
  destruct (match fn with Some f => f _ | None => false end); [assumption|].
  apply IH; [assumption | now inversion Hm].
Qed.

(** X10. [get_combined_moves] is [None] exactly on an empty ledger.
    Otherwise the aggregate ends where the newest move ends, starts where the
    oldest one started, holds the sensor events of all moves, newest first,
    and is well formed when the moves are. *)
Theorem get_combined_moves_spans_ledger (s : HRFS.t) :
  (HRFS.get_combined_moves s = None <-> HRFS._commanded_moves s = [])
  /\ (forall newest rest,
         HRFS._commanded_moves s = newest :: rest ->
         exists r,
           HRFS.get_combined_moves s = Some r
           /\ CM.epos r = CM.epos newest
           /\ CM.ended r = CM.ended newest
           /\ CM.eventtime r = CM.eventtime (last rest newest)
           /\ CM.pos r = CM.pos (last rest newest)
           /\ CM.last_epos r = CM.last_epos (last rest newest)
           /\ CM.sensor_events r = flat_map CM.sensor_events (newest :: rest)
           /\ (Forall well_formed (newest :: rest) -> well_formed r)).
Proof.
  unfold HRFS.get_combined_moves, HRFS._combine_all_commanded_moves. split.
  - destruct (HRFS._commanded_moves s) as [|m rest]; [now split|].
    fold (combine_all (m :: rest)). rewrite combine_all_cons. split; discriminate.
  - intros newest rest ->. fold (combine_all (newest :: rest)). rewrite combine_all_cons.
    eexists. split; [reflexivity|].
    destruct (fold_combine_fields rest newest) as (E1 & E2 & E3 & E4 & E5 & E6).
    do 6 (split; [assumption|]).
    intros Hw. inversion Hw. now apply fold_combine_well_formed.
Qed.

(** X11. [_combine_moves_for_distance] aggregates a prefix of the ledger:
    the shortest non-empty run of the newest moves whose expected distance
    reaches [distance], or the whole ledger when no run does. *)
Theorem combine_moves_for_distance_window (s : HRFS.t) (distance : float) :
  exists n,
    (n <= length (HRFS._commanded_moves s))%nat
    /\ HRFS._combine_moves_for_distance s distance
       = combine_all (firstn n (HRFS._commanded_moves s))
    /\ (n = length (HRFS._commanded_moves s)
        \/ exists r, HRFS._combine_moves_for_distance s distance = Some r
                     /\ reaches distance r = true)
    /\ (forall k r, (1 <= k < n)%nat ->
                    combine_all (firstn k (HRFS._commanded_moves s)) = Some r ->
                    reaches distance r = false).
Proof.
  unfold HRFS._combine_moves_for_distance, HRFS._combine_all_commanded_moves.
  destruct (combine_loop_prefix (reaches distance) (HRFS._commanded_moves s) None)
    as (n & Hn & E & Hstop & Hmin).
  exists n. unfold reaches in *. rewrite E. repeat split; try assumption.
Qed.

(** A trigger keeps what its callback keeps, if storing the new value, or
    the value the trigger had in a state with the property, keeps it. *)
Lemma preserves_trigger_set_from (P : HRFS.t -> Prop) (value_of : HRFS.t -> option bool)
      (store : HRFS.t -> option bool -> HRFS.t)
      (fn : option bool -> bool -> HRFS.M unit) (value : bool) :
  (forall old v, preserves P (fn old v)) ->
  (forall s v, P s -> (v = Some value \/ exists s0, P s0 /\ v = value_of s0) -> P (store s v)) ->
  preserves P (HRFS.trigger_set value_of store fn value).
Proof.
  intros Hfn Hstore s H. unfold HRFS.trigger_set, TriggerOnChange.set.
  cbn [TriggerOnChange._value TriggerOnChange._fn].
  destruct (TriggerOnChange.is_not value (value_of s)).
  - specialize (Hfn (value_of s) value s H).
    destruct (fn (value_of s) value s) as [[] s'|e s']; cbn; apply Hstore; auto.
    right. now exists s.
  - cbn. apply Hstore; auto.
Qed.

Ltac keep_step :=
  lazymatch goal with
  | |- preserves _ (HRFS.bind _ _) => apply preserves_bind; [|intros ?]
  | |- preserves _ (HRFS.ret _) => apply preserves_ret
  | |- preserves _ (HRFS.raise _) => apply preserves_raise
  | |- preserves _ HRFS.get => apply preserves_get
  | |- preserves _ (HRFS.lift _) => apply preserves_lift
  | |- preserves _ (HRFS.trigger_bool _) => apply preserves_trigger_bool
  | |- preserves _ (HRFS.trigger_set _ _ _ _) =>
      apply preserves_trigger_set_from; [intros ? ?|intros ? ? ? ?]
  | |- preserves _ (HRFS.uart_read _ _) => apply preserves_uart_read; intros ? ? ?
  | |- preserves _ (HRFS.emit _) => unfold HRFS.emit
  | |- preserves _ (HRFS.modify _) => apply preserves_modify; intros ? ?
  | |- preserves _ (match ?o with _ => _ end) => destruct o
  end.

Ltac keep := repeat keep_step.

(** A write that leaves the ledger, the evaluated move and the rotation
    helper's range alone, and sets no trigger to [None]. *)
Ltac invariant_untouched :=
  try (unfold sensor_invariant in *; cbn;
       repeat match goal with
              | H : _ /\ _ |- _ => destruct H
              | H : _ \/ _ |- _ => destruct H
              | H : exists _, _ |- _ => destruct H
              end;
       subst; repeat split; solve [assumption | discriminate | congruence]).

Lemma Forall_firstn {A : Type} (P : A -> Prop) (n : nat) (l : list A) :
  Forall P l -> Forall P (firstn n l).
Proof.
  intros H. rewrite <- (firstn_skipn n l) in H. now apply Forall_app in H.
Qed.

Lemma firstn_tail_ended (n : nat) (moves : list CM.t) :
  tail_ended moves -> tail_ended (firstn n moves).
Proof.
  destruct moves as [|m rest], n as [|n]; cbn; trivial.
  intros H. now apply Forall_firstn.
Qed.

Lemma inspect_commanded_move_inspected (h : host) (eventtime : float) (s : HRFS.t) :
  HRFS._inspect_commanded_move h eventtime s = Py.Returns tt (inspected h eventtime s).
Proof.
  unfold HRFS._inspect_commanded_move, inspected, started_move, with_new_move.
  destruct (extruder_is_active h);
    cbn -[HRFS.pop_while_over_100 firstn length Py.float_ne]; [|reflexivity].
  destruct (Py.float_ne _ _); cbn -[HRFS.pop_while_over_100 firstn length];
    unfold HRFS.modify; now rewrite ledger_trimmed.
Qed.

Lemma set_ended_well_formed (move : CM.t) (b : bool) :
  well_formed move -> well_formed (CM.set_ended move b).
Proof. trivial. Qed.

Lemma with_new_move_invariant (move : CM.t) (moves : list CM.t) :
  well_formed move -> Forall well_formed moves -> tail_ended moves ->
  Forall well_formed (with_new_move move moves) /\ tail_ended (with_new_move move moves).
Proof.
  intros Hm Hw Ht. unfold with_new_move. destruct moves as [|open rest]; cbn.
  - split; [now constructor | constructor].
  - inversion Hw; subst. split.
    + constructor; [assumption|]. constructor; [now apply set_ended_well_formed | assumption].
    + constructor; [reflexivity | assumption].
Qed.

Lemma inspect_keeps_invariant (h : host) (eventtime : float) :
  preserves sensor_invariant (HRFS._inspect_commanded_move h eventtime).
Proof.
  intros s H. rewrite inspect_commanded_move_inspected. unfold inspected.
  destruct H as (H1 & H2 & H3 & H4 & H5 & H6 & H7).
  destruct (negb (extruder_is_active h)); [now repeat split|].
  destruct (Py.float_ne _ _); unfold sensor_invariant; cbn -[firstn].
  - destruct (with_new_move_invariant (started_move h eventtime s) (HRFS._commanded_moves s))
      as [Hw Ht]; try assumption; [apply well_formed_init|].
    repeat split; try assumption; [now apply Forall_firstn | now apply firstn_tail_ended].
  - repeat split; try assumption; [now apply Forall_firstn | now apply firstn_tail_ended].
Qed.

Lemma record_event_invariant (s : HRFS.t) (event : SensorEvent.t) :
  sensor_invariant s ->
  sensor_invariant
    match HRFS._commanded_moves s with
    | [] => s
    | move :: rest =>
        if negb (CM.ended move)
        then HRFS.set_commanded_moves s
               (CM.add_sensor_event move event (HRFS._capture_history s) :: rest)
        else s
    end.
Proof.
  intros H. destruct (HRFS._commanded_moves s) as [|move rest] eqn:E; [assumption|].
  destruct (negb (CM.ended move)); [|assumption].
  destruct H as (H1 & H2 & H3 & H4 & H5 & H6 & H7). rewrite E in H2, H3.
  unfold sensor_invariant. cbn. inversion H2; subst.
  repeat split; try assumption.
  constructor; [now apply well_formed_add_sensor_event | assumption].
Qed.

Lemma update_keeps_invariant (h : host) :
  preserves sensor_invariant (HRFS._update_state_from_sensor h).
Proof.
  unfold HRFS._update_state_from_sensor, HRFS.apply_reading, HRFS.i2c_read_reg.
  keep_step; [apply inspect_keeps_invariant|].
  keep;
    unfold HRFS._sensor_connected_changed, HRFS._filament_present_changed;
    keep; invariant_untouched.
  all: now apply record_event_invariant.
Qed.

Lemma check_print_issues_keeps_invariant (h : host) (eventtime : float) :
  preserves sensor_invariant (HRFS._check_print_issues h eventtime).
Proof.
  unfold HRFS._check_print_issues, HRFS._is_sensor_healthy, HRFS._is_runout_condition,
    HRFS._runout_event_handler, HRFS._exec_gcode.
  keep;
    unfold HRFS._unhealthy_changed, HRFS._runout_changed, HRFS._underextruding_changed,
      HRFS._sensor_unhealthy_reason;
    keep; invariant_untouched.
Qed.

Lemma combine_moves_for_distance_well_formed (s : HRFS.t) (distance : float) :
  Forall well_formed (HRFS._commanded_moves s) ->
  optional_well_formed (HRFS._combine_moves_for_distance s distance).
Proof.
  intros H. unfold HRFS._combine_moves_for_distance, HRFS._combine_all_commanded_moves.
  now apply (combine_loop_well_formed _ (HRFS._commanded_moves s) None).
Qed.

Lemma sensor_update_event_keeps_invariant (h : host) (eventtime : float) :
  preserves sensor_invariant (HRFS._sensor_update_event h eventtime).
Proof.
  unfold HRFS._sensor_update_event.
  keep_step; [apply update_keeps_invariant|].
  keep_step; [keep|].
  - destruct H as (H1 & H2 & H3 & H4 & H5 & H6 & H7). unfold sensor_invariant. cbn.
    repeat split; try assumption. now apply combine_moves_for_distance_well_formed.
  - keep_step; [keep|]. keep_step; [|keep].
    keep_step; [apply check_print_issues_keeps_invariant | keep].
Qed.

Lemma handle_printing_keeps_invariant (h : host) :
  preserves sensor_invariant (HRFS._handle_printing h).
Proof.
  unfold HRFS._handle_printing, HRFS.clear_move_queue.
  keep; unfold HRFS._runout_changed, HRFS._underextruding_changed; keep; invariant_untouched.
  all: destruct H as (H1 & H2 & H3 & H4 & H5 & H6 & H7); unfold sensor_invariant; cbn;
    repeat split; try assumption; constructor.
Qed.

Lemma handle_not_printing_keeps_invariant :
  preserves sensor_invariant HRFS._handle_not_printing.
Proof.
  unfold HRFS._handle_not_printing, HRFS.all_moves_ended.
  keep; invariant_untouched.
  destruct H as (H1 & H2 & H3 & H4 & H5 & H6 & H7). unfold sensor_invariant. cbn.
  repeat split; try assumption.
  - apply Forall_forall. intros x Hx. apply in_map_iff in Hx. destruct Hx as [m [<- Hm]].
    rewrite Forall_forall in H2. now apply set_ended_well_formed, H2.
  - destruct (HRFS._commanded_moves s) as [|m rest]; cbn; [trivial|].
    apply Forall_forall. intros x Hx. apply in_map_iff in Hx. now destruct Hx as [m' [<- _]].
Qed.

Lemma toolhead_set_position_keeps_invariant (h : host) :
  preserves sensor_invariant (HRFS._toolhead_set_position h).
Proof. unfold HRFS._toolhead_set_position. keep; invariant_untouched. Qed.

Lemma init_invariant (c : config) : sensor_invariant (HRFS.init c).
Proof.
  unfold sensor_invariant. cbn. repeat split; try discriminate; constructor.
Qed.

Lemma optional_rate (move : option CM.t) :
  optional_well_formed move -> exists r, HRFS._measured_underextrusion_rate move = Py.Ok r.
Proof.
  destruct move as [m|]; intros H; [|now eexists].
  now apply (well_formed_metrics m H).
Qed.

(** Unfold a method down to matches on the sensor's fields. *)
Ltac unfold_methods :=
  unfold HRFS._sensor_update_event, HRFS._check_print_issues, HRFS._is_sensor_healthy,
    HRFS._is_runout_condition, HRFS._runout_event_handler, HRFS._exec_gcode,
    HRFS._unhealthy_changed, HRFS._runout_changed, HRFS._underextruding_changed,
    HRFS._sensor_unhealthy_reason, HRFS._sensor_connected_changed,
    HRFS._filament_present_changed, HRFS._handle_printing, HRFS._handle_not_printing,
    HRFS.apply_reading, HRFS.i2c_read_reg,
    HRFS.clear_move_queue, HRFS.all_moves_ended,
    HRFS.trigger_set, HRFS.trigger_bool, TriggerOnChange.set, TriggerOnChange.__bool__,
    TriggerOnChange.is_not, HRFS.emit, HRFS.bind, HRFS.get, HRFS.ret, HRFS.modify,
    HRFS.raise, HRFS.lift in *.

(** Case analysis on whatever the outcome still depends on. *)
Ltac split_outcome :=
  repeat (cbn -[HRFS._measured_underextrusion_rate HRFS._combine_moves_for_distance
                SRH.absolute_angular_position unpack_BBll];
          match goal with
          | |- context [match ?x with _ => _ end] =>
              lazymatch x with
              | context [match _ with _ => _ end] => fail
              | _ => destruct x eqn:?
              end
          end).

Lemma bind_returns {A B : Type} (m : HRFS.M A) (k : A -> HRFS.M B) (s s' : HRFS.t) (a : A) :
  m s = Py.Returns a s' -> HRFS.bind m k s = k a s'.
Proof. intros E. unfold HRFS.bind. now rewrite E. Qed.

Lemma bind_raises {A B : Type} (m : HRFS.M A) (k : A -> HRFS.M B) (s s' : HRFS.t) (e : Py.exn) :
  m s = Py.Raises e s' -> HRFS.bind m k s = Py.Raises e s'.
Proof. intros E. unfold HRFS.bind. now rewrite E. Qed.

Lemma trigger_bool_value (value_of : HRFS.t -> option bool) (s : HRFS.t) (b : bool) :
  value_of s = Some b -> HRFS.trigger_bool value_of s = Py.Returns b s.
Proof.
  intros E. unfold HRFS.trigger_bool, HRFS.lift, TriggerOnChange.__bool__. cbn. now rewrite E.
Qed.

Lemma set_sensor_connected_state (value : bool) (s : HRFS.t) :
  exists written,
    HRFS.trigger_set HRFS._sensor_connected HRFS.set_sensor_connected
                     HRFS._sensor_connected_changed value s
    = Py.Returns tt (HRFS.set_sensor_connected (wrote s written) (Some value))
    /\ scripts written = [].
Proof.
  destruct s as [cfg mes moves cap pos prn unh run ust und lep sem mag con fil rot jrn].
  unfold wrote. unfold_methods. destruct con as [[|]|], value; cbn;
    try (exists []; rewrite app_nil_r; split; reflexivity);
    eexists; rewrite <- ?app_assoc; split; reflexivity.
Qed.

Lemma set_filament_present_state (value : bool) (s : HRFS.t) :
  exists written,
    HRFS.trigger_set HRFS._filament_present HRFS.set_filament_present
                     HRFS._filament_present_changed value s
    = Py.Returns tt (HRFS.set_filament_present (wrote s written) (Some value))
    /\ scripts written = [].
Proof.
  destruct s as [cfg mes moves cap pos prn unh run ust und lep sem mag con fil rot jrn].
  unfold wrote. unfold_methods. destruct fil as [[|]|], value; cbn;
    try (exists []; rewrite app_nil_r; split; reflexivity);
    eexists; rewrite <- ?app_assoc; split; reflexivity.
Qed.

Lemma set_unhealthy_state (value : bool) (s : HRFS.t) :
  HRFS._sensor_connected s <> None ->
  exists written,
    HRFS.trigger_set HRFS._unhealthy HRFS.set_unhealthy HRFS._unhealthy_changed value s
    = Py.Returns tt (HRFS.set_unhealthy (wrote s written) (Some value))
    /\ scripts written = [].
Proof.
  destruct s as [cfg mes moves cap pos prn unh run ust und lep sem mag con fil rot jrn].
  unfold wrote. cbn. intros H. destruct con as [c|]; [clear H|contradiction].
  unfold_methods.
  destruct unh as [[|]|], value, c; cbn;
    try (exists []; rewrite app_nil_r; split; reflexivity);
    try (destruct (negb (mag =? MagnetState.DETECTED)); cbn);
    eexists; rewrite <- ?app_assoc; split; reflexivity.
Qed.

Lemma set_runout_state (value : bool) (s : HRFS.t) :
  exists written,
    HRFS.trigger_set HRFS._runout HRFS.set_runout HRFS._runout_changed value s
    = Py.Returns tt (HRFS.set_runout (wrote s written) (Some value))
    /\ scripts written = [].
Proof.
  destruct s as [cfg mes moves cap pos prn unh run ust und lep sem mag con fil rot jrn].
  unfold wrote. unfold_methods. destruct run as [[|]|], value; cbn;
    try (exists []; rewrite app_nil_r; split; reflexivity);
    eexists; rewrite <- ?app_assoc; split; reflexivity.
Qed.

Lemma set_underextruding_state (h : host) (value : bool) (s : HRFS.t) :
  (value = false -> HRFS._underextruding s <> Some false ->
   HRFS._underextrusion_start_time s <> None) ->
  exists written,
    HRFS.trigger_set HRFS._underextruding HRFS.set_underextruding
                     (HRFS._underextruding_changed h) value s
    = Py.Returns tt (HRFS.set_underextruding (wrote s written) (Some value))
    /\ scripts written = [].
Proof.
  destruct s as [cfg mes moves cap pos prn unh run ust und lep sem mag con fil rot jrn].
  unfold wrote. cbn. intros H. unfold_methods.
  destruct und as [[|]|], value; cbn;
    try (exists []; rewrite app_nil_r; split; reflexivity);
    try (destruct ust as [t0|]; [|exfalso; now apply H]; cbn);
    eexists; rewrite <- ?app_assoc; split; reflexivity.
Qed.

Lemma is_sensor_healthy_value (s : HRFS.t) (b : bool) :
  HRFS._sensor_connected s = Some b ->
  HRFS._is_sensor_healthy s
  = Py.Returns (b && (HRFS._magnet_state s =? MagnetState.DETECTED)) s.
Proof.
  intros E. unfold HRFS._is_sensor_healthy.
  rewrite (bind_returns _ _ _ _ _ (trigger_bool_value _ _ _ E)).
  now destruct b.
Qed.

Lemma runout_event_handler_state (h : host) (eventtime : float) (s : HRFS.t) :
  exists s', HRFS._runout_event_handler h eventtime s = Py.Returns tt s'.
Proof. now eexists. Qed.

Lemma scripts_app (a b : list output) : scripts (a ++ b) = scripts a ++ scripts b.
Proof. apply flat_map_app. Qed.

(** Settle a goal on the scripts and settings of a state that was written
    to and had fields set. *)
Ltac settle :=
  unfold quiet_step, alert_step, wrote in *; cbn -[scripts] in *;
  repeat match goal with
         | H : _ /\ _ |- _ => destruct H
         end;
  repeat (rewrite ?scripts_app;
          match goal with
          | H : scripts _ = _ |- _ => rewrite H
          | H : HRFS.cfg _ = _ |- _ => rewrite H
          | H : HRFS.min_event_systime _ = _ |- _ => rewrite H
          end);
  rewrite ?scripts_app, ?app_nil_r; now repeat split.

Lemma runout_event_handler_alerts (h : host) (eventtime : float) (s : HRFS.t) :
  exists s', HRFS._runout_event_handler h eventtime s = Py.Returns tt s'
             /\ alert_step h s s'.
Proof. eexists. split; [reflexivity|]. unfold alert_step. cbn -[scripts]. now rewrite scripts_app. Qed.

Lemma is_runout_condition_returns (h : host) (s : HRFS.t) :
  HRFS._filament_present s <> None ->
  optional_well_formed (HRFS._status_evaluation_move s) ->
  exists r s', HRFS._is_runout_condition h s = Py.Returns r s'
               /\ HRFS._runout s' = HRFS._runout s
               /\ quiet_step s s'.
Proof.
  intros Hf Hw. destruct (HRFS._filament_present s) as [p|] eqn:Ep; [clear Hf|contradiction].
  destruct (optional_rate _ Hw) as [rate Hrate].
  unfold HRFS._is_runout_condition.
  rewrite (bind_returns _ _ _ _ _ (trigger_bool_value _ _ _ Ep)).
  destruct p; cbn [negb]; [|eexists; eexists; now repeat split].
  unfold HRFS.bind at 1, HRFS.get. unfold HRFS.bind at 1, HRFS.lift. rewrite Hrate.
  destruct (PrimFloat.ltb _ rate).
  - destruct (HRFS._underextrusion_start_time s) as [t0|] eqn:Et;
      [|eexists; eexists; now repeat split].
    destruct (PrimFloat.ltb _ _); [|eexists; eexists; now repeat split].
    destruct (set_underextruding_state h true s) as (w & E & Qw); [discriminate|].
    rewrite (bind_returns _ _ _ _ _ E).
    eexists; eexists. split; [reflexivity|]. split; [reflexivity|]. settle.
  - destruct (HRFS._underextrusion_start_time s) as [t0|] eqn:Et;
      [|eexists; eexists; now repeat split].
    destruct (set_underextruding_state h false s) as (w & E & Qw); [now rewrite Et|].
    rewrite (bind_returns _ _ _ _ _ E).
    eexists; eexists. split; [reflexivity|]. split; [reflexivity|]. settle.
Qed.

Lemma check_print_issues_alerts (h : host) (eventtime : float) (s : HRFS.t) (b : bool) :
  sensor_invariant s ->
  HRFS._sensor_connected s = Some b ->
  (b = true -> HRFS._filament_present s <> None) ->
  exists s', HRFS._check_print_issues h eventtime s = Py.Returns tt s'
             /\ (quiet_step s s' \/ (alert_step h s s' /\ HRFS._is_printing s = true)).
Proof.
  intros (H1 & H2 & H3 & H4 & H5 & H6 & H7) Hc Hf.
  unfold HRFS._check_print_issues. unfold HRFS.bind at 1, HRFS.get.
  destruct (HRFS._is_printing s) eqn:Hp; cbn [negb];
    [|eexists; split; [reflexivity | left; now repeat split]].
  rewrite (bind_returns _ _ _ _ _ (is_sensor_healthy_value _ _ Hc)).
  destruct (b && _) eqn:Hh; cbn [negb].
  - apply andb_prop in Hh. destruct Hh as [-> _].
    destruct (set_unhealthy_state false s) as (w & E & Qw); [now rewrite Hc|].
    rewrite (bind_returns _ _ _ _ _ E).
    destruct (is_runout_condition_returns h (HRFS.set_unhealthy (wrote s w) (Some false)))
      as (r & s2 & E2 & R2 & Q2); [now apply Hf | exact H4 |].
    rewrite (bind_returns _ _ _ _ _ E2). cbn in R2.
    destruct r.
    + destruct (HRFS._runout s) as [r|] eqn:Er; [|contradiction].
      rewrite (bind_returns _ _ _ _ _ (trigger_bool_value _ _ _ R2)).
      destruct r; cbn [negb]; [eexists; split; [reflexivity | left; settle]|].
      destruct (set_runout_state true s2) as (w2 & E3 & Qw2).
      rewrite (bind_returns _ _ _ _ _ E3).
      destruct (runout_event_handler_alerts h eventtime
                  (HRFS.set_runout (wrote s2 w2) (Some true))) as (s3 & E4 & A4).
      exists s3. split; [exact E4|]. right. split; [|reflexivity]. settle.
    + destruct (set_runout_state false s2) as (w2 & E3 & Qw2). rewrite E3.
      eexists. split; [reflexivity|]. left. settle.
  - destruct (HRFS._unhealthy s) as [u|] eqn:Eu; [|contradiction].
    rewrite (bind_returns _ _ _ _ _ (trigger_bool_value _ _ _ Eu)).
    destruct u; cbn [negb]; [eexists; split; [reflexivity | left; now repeat split]|].
    destruct (set_unhealthy_state true s) as (w & E & Qw); [now rewrite Hc|].
    rewrite (bind_returns _ _ _ _ _ E).
    destruct (runout_event_handler_alerts h eventtime
                (HRFS.set_unhealthy (wrote s w) (Some true))) as (s3 & E4 & A4).
    exists s3. split; [exact E4|]. right. split; [|reflexivity]. settle.
Qed.

Lemma absolute_angular_position_returns (helper : SRH.t) :
  SRH.angle_max_value helper = 4095 ->
  exists p, SRH.absolute_angular_position helper = Py.Ok p.
Proof.
  intros H. unfold SRH.absolute_angular_position, Py.truediv. rewrite H.
  change (Py.float_of_int 4095 =? 0)%float with false. cbn. now eexists.
Qed.

Lemma bind_modify {B : Type} (f : HRFS.t -> HRFS.t) (k : unit -> HRFS.M B) (s : HRFS.t) :
  HRFS.bind (HRFS.modify f) k s = k tt (f s).
Proof. reflexivity. Qed.

Lemma bind_get {B : Type} (k : HRFS.t -> HRFS.M B) (s : HRFS.t) :
  HRFS.bind HRFS.get k s = k s s.
Proof. reflexivity. Qed.

Lemma bind_ret {A B : Type} (a : A) (k : A -> HRFS.M B) (s : HRFS.t) :
  HRFS.bind (HRFS.ret a) k s = k a s.
Proof. reflexivity. Qed.

Lemma bind_lift {A B : Type} (r : Py.result A) (a : A) (k : A -> HRFS.M B) (s : HRFS.t) :
  r = Py.Ok a -> HRFS.bind (HRFS.lift r) k s = k a s.
Proof. now intros ->. Qed.

Lemma bind_emit {B : Type} (o : output) (k : unit -> HRFS.M B) (s : HRFS.t) :
  HRFS.bind (HRFS.emit o) k s = k tt (wrote s [o]).
Proof. reflexivity. Qed.

Lemma bind_bind {A B C : Type} (m : HRFS.M A) (k1 : A -> HRFS.M B) (k2 : B -> HRFS.M C)
      (s : HRFS.t) :
  HRFS.bind (HRFS.bind m k1) k2 s = HRFS.bind m (fun a => HRFS.bind (k1 a) k2) s.
Proof. unfold HRFS.bind. now destruct (m s). Qed.

(** Run the steps of a method that cannot fail. *)
Ltac run :=
  repeat (first [rewrite bind_modify | rewrite bind_get | rewrite bind_ret
                | rewrite bind_emit]; cbv beta).

Lemma apply_reading_returns (h : host) (eventtime : float) (m f n a : Z) (s : HRFS.t) :
  SRH.angle_max_value (HRFS._rotation_helper s) = 4095 ->
  exists s',
    HRFS.apply_reading h eventtime m f n a s = Py.Returns tt s'
    /\ HRFS._filament_present s' = Some (f =? 1)
    /\ HRFS._sensor_connected s' = HRFS._sensor_connected s.
Proof.
  intros H. unfold HRFS.apply_reading. run.
  destruct (set_filament_present_state (f =? 1) (HRFS.set_magnet_state s m)) as (w & E & _).
  rewrite (bind_returns _ _ _ _ _ E). run.
  match goal with
  | |- context [SRH.absolute_angular_position ?r] =>
      destruct (absolute_angular_position_returns r) as [p Hp]; [exact H|]
  end.
  rewrite (bind_lift _ _ _ _ Hp). run.
  eexists. split; [reflexivity|].
  cbn -[Z.eqb]. destruct (HRFS._commanded_moves s) as [|move rest]; [now split|].
  destruct (negb (CM.ended move)); now split.
Qed.

Lemma inspected_cfg (h : host) (eventtime : float) (s : HRFS.t) :
  HRFS.cfg (inspected h eventtime s) = HRFS.cfg s.
Proof.
  unfold inspected. destruct (negb _); [reflexivity|]. now destruct (Py.float_ne _ _).
Qed.

Lemma connected_reading_returns (h : host) (eventtime : float) (m f n a : Z)
      (value : bool) (s : HRFS.t) :
  SRH.angle_max_value (HRFS._rotation_helper s) = 4095 ->
  exists s',
    HRFS.bind (HRFS.trigger_set HRFS._sensor_connected HRFS.set_sensor_connected
                                HRFS._sensor_connected_changed value)
              (fun _ => HRFS.bind (HRFS.trigger_bool HRFS._sensor_connected)
                 (fun c => if negb c then HRFS.ret tt
                           else HRFS.apply_reading h eventtime m f n a)) s
    = Py.Returns tt s'
    /\ HRFS._sensor_connected s' = Some value
    /\ (value = true -> HRFS._filament_present s' <> None).
Proof.
  intros H. destruct (set_sensor_connected_state value s) as (w & E & _).
  rewrite (bind_returns _ _ _ _ _ E).
  erewrite bind_returns by (now apply trigger_bool_value).
  destruct value; cbn [negb].
  - match goal with
    | |- context [HRFS.apply_reading _ _ _ _ _ _ ?s2] =>
        destruct (apply_reading_returns h eventtime m f n a s2 H) as (s3 & E3 & Hf & Hc)
    end.
    exists s3. repeat split; [exact E3 | now rewrite Hc | now rewrite Hf].
  - eexists. repeat split. discriminate.
Qed.

Lemma scripts_uart_warnings (log : list uart_read_log) :
  scripts (map HRFS.uart_warning log) = [].
Proof. induction log as [|w log IH]; [reflexivity|]. now destruct w. Qed.

Lemma uart_read_state (read : nat -> list uart_read_log * unpacked * nat) (attempt : nat)
      (s : HRFS.t) :
  exists written,
    scripts written = []
    /\ ((exists value,
            HRFS.uart_read read attempt s
            = Py.Returns (value, snd (read attempt)) (wrote s written))
        \/ (HRFS.uart_read read attempt s = Py.Raises Py.struct_error (wrote s written)
            /\ snd (fst (read attempt)) = StructError)).
Proof.
  unfold HRFS.uart_read. destruct (read attempt) as [[log value] next].
  exists (map HRFS.uart_warning log). split; [apply scripts_uart_warnings|].
  destruct value; [left; now eexists | left; now eexists | right; now split].
Qed.

(** One register read of the update: it returns, or the MCU has answered
    with another number of bytes than it was asked for. *)
Ltac uart_step :=
  match goal with
  | |- context [HRFS.bind (HRFS.uart_read ?read ?attempt) _ ?state] =>
      let w := fresh "w" in
      let o := fresh "o" in
      let E := fresh "E" in
      let V := fresh "V" in
      destruct (uart_read_state read attempt state) as (w & _ & [[o E]|[E V]]);
      [rewrite (bind_returns _ _ _ _ _ E); cbv beta; cbn [fst snd]
      |rewrite (bind_raises _ _ _ _ _ E); right;
       split; [reflexivity|]; split; [reflexivity|];
       let F := fresh "F" in
       intros F; cbv beta in V;
       first [exact (proj1 (uart_read_reg1_safe _ _ _ _ F) V)
             |exact (proj1 (uart_read_reg4_safe _ _ _ _ F) V)]]
  end.

Lemma update_returns_or_bus_error (h : host) (s : HRFS.t) :
  sensor_invariant s ->
  match HRFS._update_state_from_sensor h s with
  | Py.Returns _ s' =>
      (uart (HRFS.cfg s) = false -> i2c_read h <> I2cError)
      /\ exists b, HRFS._sensor_connected s' = Some b
                   /\ (b = true -> HRFS._filament_present s' <> None)
  | Py.Raises e s' =>
      (e = Py.TypeError /\ uart (HRFS.cfg s) = false /\ i2c_read h = I2cError)
      \/ (e = Py.struct_error /\ uart (HRFS.cfg s) = true /\ ~ mcu_answers_in_full h)
  end.
Proof.
  intros H.
  pose proof (inspect_keeps_invariant h (monotonic h) s H) as H1.
  rewrite inspect_commanded_move_inspected in H1. destruct H1 as [H1 _].
  unfold HRFS._update_state_from_sensor.
  rewrite (bind_returns _ _ _ _ _ (inspect_commanded_move_inspected _ _ _)).
  rewrite bind_get, inspected_cfg.
  set (s1 := inspected h (monotonic h) s) in *.
  destruct (uart (HRFS.cfg s)).
  - cbv zeta. do 4 uart_step.
    destruct o as [m|], o0 as [f|], o1 as [n|], o2 as [a|].
    1: { match goal with
         | |- context [HRFS.bind (HRFS.trigger_set _ _ _ ?v) _ ?state] =>
             destruct (connected_reading_returns h (monotonic h) m f n a v state H1)
               as (s' & E' & Hc & Hf)
         end.
         rewrite E'. split; [discriminate|]. eexists. split; eassumption. }
    all: match goal with
         | |- context [HRFS.bind (HRFS.trigger_set _ _ _ _) _ ?state] =>
             destruct (set_sensor_connected_state false state) as (w' & E' & _)
         end;
      cbn [HRFS.is_None orb negb]; rewrite ?orb_true_r; cbn [negb];
      rewrite (bind_returns _ _ _ _ _ E');
      (erewrite bind_returns by (now apply trigger_bool_value));
      cbn [negb]; (split; [discriminate|]); exists false;
      (split; [reflexivity | discriminate]).
  - unfold HRFS.i2c_read_reg. destruct (i2c_read h) as [|d] eqn:Hread.
    + rewrite bind_bind. run.
      match goal with
      | |- context [HRFS.trigger_set _ _ _ false] =>
          destruct (set_sensor_connected_state false (wrote s1 [LogWarning UnableToRead]))
            as (w & E & _)
      end.
      rewrite (bind_returns _ _ _ _ _ E). cbn. auto.
    + rewrite bind_ret.
      destruct ((length d =? 0)%nat || negb (length d =? 10)%nat).
      * destruct (set_sensor_connected_state false s1) as (w & E & _).
        rewrite (bind_returns _ _ _ _ _ E). cbn.
        split; [discriminate|]. exists false. split; [reflexivity | discriminate].
      * destruct (unpack_BBll d) as [[[m f] n] a].
        destruct (connected_reading_returns h (monotonic h) m f n a
                    (negb (m =? 0xff)) s1 H1) as (s' & E & Hc & Hf).
        rewrite E. split; [discriminate|]. eexists. split; eassumption.
Qed.

(** X14. On a sensor that satisfies the invariant, the periodic
    [_sensor_update_event] returns [eventtime + CHECK_RUNOUT_TIMEOUT] and
    keeps the invariant, with two exceptions.  When the sensor is read over
    I2C and the bus read fails it raises a [TypeError].  When it is read over
    the UART and the MCU answers a request with another number of bytes than
    it was asked for, it can raise a [struct.error].  In both cases the
    invariant is kept, and nothing else makes the callback raise: with an MCU
    that answers in full, a UART sensor always returns. *)
Theorem poll_raises_only_on_bus_error (h : host) (eventtime : float) (s : HRFS.t) :
  sensor_invariant s ->
  match HRFS._sensor_update_event h eventtime s with
  | Py.Returns next s' =>
      next = (eventtime + CHECK_RUNOUT_TIMEOUT)%float
      /\ sensor_invariant s'
      /\ (uart (HRFS.cfg s) = false -> i2c_read h <> I2cError)
  | Py.Raises e s' =>
      sensor_invariant s'
      /\ ((e = Py.TypeError /\ uart (HRFS.cfg s) = false /\ i2c_read h = I2cError)
          \/ (e = Py.struct_error /\ uart (HRFS.cfg s) = true /\ ~ mcu_answers_in_full h))
  end.
Proof.
  intros H.
  pose proof (sensor_update_event_keeps_invariant h eventtime s H) as Hinv.
  pose proof (update_returns_or_bus_error h s H) as U.
  pose proof (update_keeps_invariant h s H) as K.
  unfold HRFS._sensor_update_event in *.
  destruct (HRFS._update_state_from_sensor h s) as [[] s1|e s1] eqn:E.
  - destruct U as (Hbus & b & Hc & Hf).
    rewrite (bind_returns _ _ _ _ _ E) in *.
    rewrite bind_modify, bind_get in *. cbv beta in *.
    destruct (_ && _); cbv iota in *.
    + match goal with
      | |- context [HRFS.bind (HRFS._check_print_issues h eventtime) _ ?s2] =>
          destruct (check_print_issues_alerts h eventtime s2 b) as (s3 & E3 & _);
            [|exact Hc|exact Hf|]
      end.
      * destruct K as (K1 & K2 & K3 & K4 & K5 & K6 & K7).
        unfold sensor_invariant. cbn.
        repeat split; try assumption.
        now apply combine_moves_for_distance_well_formed.
      * rewrite (bind_returns _ _ _ _ _ E3) in Hinv |- *.
        split; [reflexivity | split; assumption].
    + rewrite bind_ret in Hinv |- *. split; [reflexivity | split; assumption].
  - rewrite (bind_raises _ _ _ _ _ E) in Hinv |- *. split; assumption.
Qed.

Lemma poll_raises_only_on_bus_error_witness :
  match HRFS._sensor_update_event (example_host 1 I2cError) 1 (HRFS.init example_config) with
  | Py.Returns next s' =>
      next = (1 + CHECK_RUNOUT_TIMEOUT)%float
      /\ sensor_invariant s'
      /\ (uart (HRFS.cfg (HRFS.init example_config)) = false ->
          i2c_read (example_host 1 I2cError) <> I2cError)
  | Py.Raises e s' =>
      sensor_invariant s'
      /\ ((e = Py.TypeError /\ uart (HRFS.cfg (HRFS.init example_config)) = false
           /\ i2c_read (example_host 1 I2cError) = I2cError)
          \/ (e = Py.struct_error /\ uart (HRFS.cfg (HRFS.init example_config)) = true
              /\ ~ mcu_answers_in_full (example_host 1 I2cError)))
  end.
Proof.
  apply (poll_raises_only_on_bus_error (example_host 1 I2cError) 1 (HRFS.init example_config)).
  unfold sensor_invariant. cbn. repeat split; try discriminate; constructor.
Defined.

(** The second exception is reached: the frame with two payload bytes is
    accepted by the decoder, [struct.unpack] with the format of one byte
    raises, and the periodic callback raises with it. *)
Lemma update_raises_on_a_long_reply :
  uart_read_reg1 crc8_atm long_reply_mcu 0 SensorRegister.MAGNET_STATE = ([], StructError, 1%nat)
  /\ HRFS._update_state_from_sensor long_reply_host (HRFS.init uart_config)
     = Py.Raises Py.struct_error (HRFS.init uart_config)
  /\ HRFS._sensor_update_event long_reply_host 1 (HRFS.init uart_config)
     = Py.Raises Py.struct_error (HRFS.init uart_config)
  /\ ~ mcu_answers_in_full long_reply_host.
Proof.
  split; [vm_compute; reflexivity|].
  split; [vm_compute; reflexivity|].
  split; [vm_compute; reflexivity|].
  intros F. specialize (F 0%nat 7%nat). vm_compute in F. discriminate.
Qed.

(** ** When the alerts are evaluated *)

Ltac alerts_kept :=
  unfold alerts_untouched in *; cbn -[scripts] in *;
  repeat match goal with
         | H : _ /\ _ |- _ => destruct H
         end;
  rewrite ?scripts_app, ?scripts_uart_warnings; cbn [scripts flat_map app];
  rewrite ?app_nil_r;
  repeat split; assumption.

Lemma alerts_untouched_refl (s : HRFS.t) : alerts_untouched s s.
Proof. now repeat split. Qed.

Lemma update_leaves_alerts (h : host) (s0 : HRFS.t) :
  preserves (alerts_untouched s0) (HRFS._update_state_from_sensor h).
Proof.
  unfold HRFS._update_state_from_sensor, HRFS.apply_reading, HRFS.i2c_read_reg.
  keep_step.
  { intros s H. rewrite inspect_commanded_move_inspected. unfold inspected.
    destruct (negb _); [assumption|]. destruct (Py.float_ne _ _); alerts_kept. }
  keep;
    unfold HRFS._sensor_connected_changed, HRFS._filament_present_changed;
    keep; try alerts_kept.
  all: destruct (HRFS._commanded_moves s) as [|move rest]; [assumption|];
    destruct (negb (CM.ended move)); [alerts_kept | assumption].
Qed.

Lemma sensor_update_event_gate (h : host) (eventtime : float) (s : HRFS.t) :
  match HRFS._update_state_from_sensor h s with
  | Py.Returns _ s1 =>
      let s2 := HRFS.set_status_evaluation_move s1
                  (HRFS._combine_moves_for_distance s1 (move_evaluation_distance (HRFS.cfg s1))) in
      alerts_untouched s s2
      /\ HRFS._sensor_update_event h eventtime s
         = HRFS.bind (if PrimFloat.leb (HRFS.min_event_systime s) eventtime
                         && sensor_enabled (HRFS.cfg s)
                      then HRFS._check_print_issues h eventtime else HRFS.ret tt)
                     (fun _ => HRFS.ret (eventtime + CHECK_RUNOUT_TIMEOUT)%float) s2
  | Py.Raises e s1 =>
      alerts_untouched s s1
      /\ HRFS._sensor_update_event h eventtime s = Py.Raises e s1
  end.
Proof.
  pose proof (update_leaves_alerts h s s (alerts_untouched_refl s)) as U.
  unfold HRFS._sensor_update_event.
  destruct (HRFS._update_state_from_sensor h s) as [[] s1|e s1] eqn:E.
  - rewrite (bind_returns _ _ _ _ _ E), bind_modify, bind_get. cbv beta zeta.
    split; [alerts_kept|].
    destruct U as (U1 & U2 & U3 & _). cbn. now rewrite U1, U3.
  - now rewrite (bind_raises _ _ _ _ _ E).
Qed.

(** X15. When [eventtime] is before [min_event_systime], or the sensor is
    disabled, [_sensor_update_event] reads the sensor but evaluates no alert:
    the triggers of the anomaly engine, the underextrusion timer and
    [min_event_systime] are as before and no runout script is run. *)
Theorem alerts_are_gated (h : host) (eventtime : float) (s : HRFS.t) :
  PrimFloat.leb (HRFS.min_event_systime s) eventtime && sensor_enabled (HRFS.cfg s) = false ->
  alerts_untouched s (state_after (HRFS._sensor_update_event h eventtime s)).
Proof.
  intros G. pose proof (sensor_update_event_gate h eventtime s) as U.
  destruct (HRFS._update_state_from_sensor h s) as [[] s1|e s1].
  - destruct U as [U ->]. rewrite G. exact U.
  - destruct U as [U ->]. exact U.
Qed.

(** A printing sensor that has lost its connection is polled before
    [min_event_systime]: the read returns (the reply is too short), and the
    unhealthy alert, which the same tick raises once the time is reached, is
    not evaluated. *)
Lemma alerts_are_gated_witness :
  alerts_untouched
    disconnected_sensor
    (state_after (HRFS._sensor_update_event (example_host 1 (I2cResponse [])) (-1)
                                            disconnected_sensor)).
Proof.
  apply (alerts_are_gated (example_host 1 (I2cResponse [])) (-1) disconnected_sensor).
  reflexivity.
Defined.

(** X16. One [_sensor_update_event] runs the runout script at most once.
    When it runs it, the sensor was printing and enabled and [eventtime] had
    reached [min_event_systime], and [min_event_systime] becomes the clock
    plus [event_delay]. *)
Theorem poll_alerts_at_most_once (h : host) (eventtime : float) (s : HRFS.t) :
  sensor_invariant s ->
  let s' := state_after (HRFS._sensor_update_event h eventtime s) in
  quiet_step s s'
  \/ (alert_step h s s'
      /\ HRFS._is_printing s = true
      /\ PrimFloat.leb (HRFS.min_event_systime s) eventtime = true
      /\ sensor_enabled (HRFS.cfg s) = true).
Proof.
  intros H.
  pose proof (sensor_update_event_gate h eventtime s) as U.
  pose proof (update_returns_or_bus_error h s H) as R.
  pose proof (update_keeps_invariant h s H) as K.
  destruct (HRFS._update_state_from_sensor h s) as [[] s1|e s1].
  - destruct U as [U ->]. destruct R as (_ & b & Hc & Hf). cbv zeta in U.
    destruct (PrimFloat.leb _ _ && _) eqn:G.
    + apply andb_prop in G. destruct G as [G1 G2].
      match goal with
      | |- context [HRFS.bind (HRFS._check_print_issues h eventtime) _ ?s2] =>
          destruct (check_print_issues_alerts h eventtime s2 b) as (s3 & E3 & Q);
            [|exact Hc|exact Hf|]
      end.
      * destruct K as (K1 & K2 & K3 & K4 & K5 & K6 & K7).
        unfold sensor_invariant. cbn.
        repeat split; try assumption.
        now apply combine_moves_for_distance_well_formed.
      * rewrite (bind_returns _ _ _ _ _ E3). cbn [state_after HRFS.ret].
        destruct U as (U1 & U2 & U3 & _ & _ & _ & _ & U8).
        destruct Q as [(Q1 & Q2 & Q3)|[(Q1 & Q2 & Q3) Q4]]; [left|right].
        -- unfold quiet_step. now rewrite Q1, Q2, Q3, U1, U3, U8.
        -- unfold alert_step. rewrite Q1, Q2, Q3, U1, U8, <- U2, Q4. now repeat split.
    + left. destruct U as (U1 & _ & U3 & _ & _ & _ & _ & U8). now repeat split.
  - destruct U as [U ->]. left.
    destruct U as (U1 & _ & U3 & _ & _ & _ & _ & U8). now repeat split.
Qed.

(** A printing sensor that has lost its connection is polled with a reply
    that is too short: the tick returns and raises the unhealthy alert, so the
    runout script is run, once. *)
Lemma poll_alerts_at_most_once_witness :
  let s := disconnected_sensor in
  let h := example_host 1 (I2cResponse []) in
  let s' := state_after (HRFS._sensor_update_event h 1 s) in
  scripts (HRFS.journal s') = scripts (HRFS.journal s) ++ [true]
  /\ (quiet_step s s'
      \/ (alert_step h s s'
          /\ HRFS._is_printing s = true
          /\ PrimFloat.leb (HRFS.min_event_systime s) 1 = true
          /\ sensor_enabled (HRFS.cfg s) = true)).
Proof.
  split; [reflexivity|].
  apply (poll_alerts_at_most_once (example_host 1 (I2cResponse [])) 1 disconnected_sensor).
  unfold sensor_invariant. cbn. repeat split; try discriminate; constructor.
Defined.

(** X17. While printing with a sensor that is not connected or whose magnet
    is not detected, [_check_print_issues] raises the unhealthy alert once: if
    the alert is not yet raised, it logs the change, tells the console the
    reason (no data from the sensor, or the magnet's state; never "unknown
    reason"), runs the runout script and puts off the next evaluation; if it
    is raised already, nothing changes.  Runout and underextrusion are not
    evaluated. *)
Theorem unhealthy_alert_is_latched (h : host) (eventtime : float) (s : HRFS.t) (b u : bool) :
  HRFS._is_printing s = true ->
  HRFS._sensor_connected s = Some b ->
  HRFS._unhealthy s = Some u ->
  b && (HRFS._magnet_state s =? MagnetState.DETECTED) = false ->
  exists s',
    HRFS._check_print_issues h eventtime s = Py.Returns tt s'
    /\ if u then s' = s
       else HRFS.journal s'
            = HRFS.journal s
              ++ [LogInfo (UnhealthyChanged (Some false) true);
                  RespondError (Unhealthy (if b then MagnetIs (HRFS._magnet_state s)
                                           else NoDataFromSensor));
                  RunoutScript (runout_pause (HRFS.cfg s))]
            /\ HRFS._unhealthy s' = Some true
            /\ HRFS.min_event_systime s'
               = (monotonic h + event_delay (HRFS.cfg s))%float
            /\ HRFS._runout s' = HRFS._runout s
            /\ HRFS._underextruding s' = HRFS._underextruding s.
Proof.
  intros Hp Hc Hu Hh.
  unfold HRFS._check_print_issues. rewrite bind_get. cbv beta. rewrite Hp. cbn [negb].
  rewrite (bind_returns _ _ _ _ _ (is_sensor_healthy_value _ _ Hc)), Hh. cbn [negb].
  rewrite (bind_returns _ _ _ _ _ (trigger_bool_value _ _ _ Hu)).
  destruct u; cbn [negb]; [now eexists|].
  destruct s as [cfg mes moves cap pos prn unh run ust und lep sem mag con fil rot jrn].
  cbn in Hp, Hc, Hu, Hh. subst. unfold_methods.
  destruct b; cbn in *; [rewrite Hh; cbn|];
    rewrite <- !app_assoc; eexists; repeat split.
Qed.

Lemma unhealthy_alert_is_latched_witness :
  exists s',
    HRFS._check_print_issues (example_host 1 I2cError) 1 disconnected_sensor
    = Py.Returns tt s'
    /\ HRFS.journal s'
       = HRFS.journal disconnected_sensor
         ++ [LogInfo (UnhealthyChanged (Some false) true);
             RespondError (Unhealthy NoDataFromSensor);
             RunoutScript (runout_pause (HRFS.cfg disconnected_sensor))]
    /\ HRFS._unhealthy s' = Some true
    /\ HRFS.min_event_systime s'
       = (monotonic (example_host 1 I2cError)
          + event_delay (HRFS.cfg disconnected_sensor))%float
    /\ HRFS._runout s' = HRFS._runout disconnected_sensor
    /\ HRFS._underextruding s' = HRFS._underextruding disconnected_sensor.
Proof.
  apply (unhealthy_alert_is_latched (example_host 1 I2cError) 1 disconnected_sensor
                                    false false); reflexivity.
Defined.

(** X18. While printing with a healthy sensor that reports no filament,
    [_check_print_issues] raises the runout alert at once, whatever the
    underextrusion period: if it is not yet raised, it runs the runout script
    and puts off the next evaluation; if it is raised already, nothing is
    written.  The underextrusion trigger and timer are left alone. *)
Theorem missing_filament_alerts_once (h : host) (eventtime : float) (s : HRFS.t) (r : bool) :
  HRFS._is_printing s = true ->
  HRFS._sensor_connected s = Some true ->
  HRFS._magnet_state s = MagnetState.DETECTED ->
  HRFS._unhealthy s = Some false ->
  HRFS._filament_present s = Some false ->
  HRFS._runout s = Some r ->
  exists s',
    HRFS._check_print_issues h eventtime s = Py.Returns tt s'
    /\ HRFS._runout s' = Some true
    /\ HRFS._underextruding s' = HRFS._underextruding s
    /\ HRFS._underextrusion_start_time s' = HRFS._underextrusion_start_time s
    /\ if r then HRFS.journal s' = HRFS.journal s
                 /\ HRFS.min_event_systime s' = HRFS.min_event_systime s
       else HRFS.journal s'
            = HRFS.journal s ++ [LogInfo (RunoutChanged (Some false) true);
                                 RunoutScript (runout_pause (HRFS.cfg s))]
            /\ HRFS.min_event_systime s'
               = (monotonic h + event_delay (HRFS.cfg s))%float.
Proof.
  intros Hp Hc Hm Hu Hf Hr.
  destruct s as [cfg mes moves cap pos prn unh run ust und lep sem mag con fil rot jrn].
  cbn in Hp, Hc, Hm, Hu, Hf, Hr. subst. unfold_methods.
  destruct r; cbn; rewrite <- ?app_assoc; eexists; repeat split.
Qed.

Lemma missing_filament_alerts_once_witness :
  exists s',
    HRFS._check_print_issues (example_host 1 I2cError) 1 empty_sensor = Py.Returns tt s'
    /\ HRFS._runout s' = Some true
    /\ HRFS._underextruding s' = HRFS._underextruding empty_sensor
    /\ HRFS._underextrusion_start_time s' = HRFS._underextrusion_start_time empty_sensor
    /\ HRFS.journal s'
       = HRFS.journal empty_sensor ++ [LogInfo (RunoutChanged (Some false) true);
                                       RunoutScript (runout_pause (HRFS.cfg empty_sensor))]
       /\ HRFS.min_event_systime s'
          = (monotonic (example_host 1 I2cError) + event_delay (HRFS.cfg empty_sensor))%float.
Proof.
  apply (missing_filament_alerts_once (example_host 1 I2cError) 1 empty_sensor false);
    reflexivity.
Defined.

(** ** Events of the host *)

(** X19. [_handle_printing] on a sensor whose underextrusion alert is raised
    stops with a [TypeError]: it clears the underextrusion timer and then
    resets the trigger, whose callback subtracts the timer from the clock.
    The sensor is left not printing, with its ledger as it was.  On a sensor
    whose alert is not raised the handler resets the runout trigger and the
    timer, empties the ledger and marks the sensor as printing. *)
Theorem print_start_after_underextrusion (h : host) (s : HRFS.t) (u : bool) :
  HRFS._underextruding s = Some u ->
  if u then
    exists s',
      HRFS._handle_printing h s = Py.Raises Py.TypeError s'
      /\ HRFS._is_printing s' = HRFS._is_printing s
      /\ HRFS._commanded_moves s' = HRFS._commanded_moves s
      /\ HRFS._status_evaluation_move s' = HRFS._status_evaluation_move s
      /\ HRFS._underextruding s' = Some true
      /\ HRFS._underextrusion_start_time s' = None
      /\ HRFS._runout s' = Some false
  else
    exists s',
      HRFS._handle_printing h s = Py.Returns tt s'
      /\ HRFS._is_printing s' = true
      /\ HRFS._commanded_moves s' = []
      /\ HRFS._status_evaluation_move s' = None
      /\ HRFS._underextruding s' = Some false
      /\ HRFS._underextrusion_start_time s' = None
      /\ HRFS._runout s' = Some false.
Proof.
  intros Hu.
  destruct s as [cfg mes moves cap pos prn unh run ust und lep sem mag con fil rot jrn].
  cbn in Hu. subst. unfold_methods.
  destruct u, run as [[|]|]; cbn; eexists; repeat split.
Qed.

Lemma print_start_after_underextrusion_witness :
  exists s',
    HRFS._handle_printing (example_host 1 I2cError) underextruding_sensor
    = Py.Raises Py.TypeError s'
    /\ HRFS._is_printing s' = HRFS._is_printing underextruding_sensor
    /\ HRFS._commanded_moves s' = HRFS._commanded_moves underextruding_sensor
    /\ HRFS._status_evaluation_move s' = HRFS._status_evaluation_move underextruding_sensor
    /\ HRFS._underextruding s' = Some true
    /\ HRFS._underextrusion_start_time s' = None
    /\ HRFS._runout s' = Some false.
Proof.
  apply (print_start_after_underextrusion (example_host 1 I2cError) underextruding_sensor true).
  reflexivity.
Defined.

Lemma inspected_unchanged_position (h : host) (eventtime : float) (s : HRFS.t) :
  Py.float_ne (toolhead_epos h - HRFS._last_epos s)%float 0%float = false ->
  inspected h eventtime s
  = if negb (extruder_is_active h) then s
    else HRFS.set_commanded_moves s (firstn 100 (HRFS._commanded_moves s)).
Proof. intros H. unfold inspected. now rewrite H. Qed.

(** X20. With a finite commanded position, inspecting the commanded move a
    second time while the toolhead has not moved changes nothing: one
    commanded position starts at most one move. *)
Theorem commanded_position_is_recorded_once (h : host) (t1 t2 : float) (s : HRFS.t) :
  Py.is_finite (toolhead_epos h) = true ->
  HRFS.bind (HRFS._inspect_commanded_move h t1)
            (fun _ => HRFS._inspect_commanded_move h t2) s
  = HRFS._inspect_commanded_move h t1 s.
Proof.
  intros F.
  rewrite (bind_returns _ _ _ _ _ (inspect_commanded_move_inspected h t1 s)).
  rewrite !inspect_commanded_move_inspected. f_equal.
  assert (Z0 : Py.float_ne (toolhead_epos h - toolhead_epos h)%float 0%float = false).
  { unfold Py.float_ne. now rewrite sub_same_is_zero. }
  unfold inspected at 2.
  destruct (negb (extruder_is_active h)) eqn:A.
  - unfold inspected. now rewrite A.
  - destruct (Py.float_ne (toolhead_epos h - HRFS._last_epos s)%float 0%float) eqn:D;
      rewrite inspected_unchanged_position, A; cbn -[firstn]; trivial;
      rewrite firstn_firstn; unfold inspected; rewrite A, D; reflexivity.
Qed.

(** The toolhead was commanded to 5: the first inspection starts the move
    from 0 to 5, the second one starts nothing. *)
Lemma commanded_position_is_recorded_once_witness :
  (exists s',
      HRFS._inspect_commanded_move moved_host 1 (HRFS.init example_config)
      = Py.Returns tt s'
      /\ HRFS._commanded_moves s' = [CM.init 1 0 0 5])
  /\ HRFS.bind (HRFS._inspect_commanded_move moved_host 1)
               (fun _ => HRFS._inspect_commanded_move moved_host 2)
               (HRFS.init example_config)
     = HRFS._inspect_commanded_move moved_host 1 (HRFS.init example_config).
Proof.
  split; [rewrite inspect_commanded_move_inspected; eexists; split; reflexivity|].
  apply (commanded_position_is_recorded_once moved_host 1 2 (HRFS.init example_config)).
  reflexivity.
Defined.

(** X21. After [_toolhead_set_position], with a finite position and a ledger
    of at most 100 moves, the next inspection starts no move: the ledger is as
    before, and with the sensor's extruder active the last known position is
    the toolhead's. *)
Theorem set_position_is_not_a_move (h : host) (eventtime : float) (s : HRFS.t) :
  Py.is_finite (toolhead_epos h) = true ->
  ledger_bounded s ->
  exists s',
    HRFS.bind (HRFS._toolhead_set_position h)
              (fun _ => HRFS._inspect_commanded_move h eventtime) s = Py.Returns tt s'
    /\ HRFS._commanded_moves s' = HRFS._commanded_moves s
    /\ (extruder_is_active h = true -> HRFS._last_epos s' = toolhead_epos h).
Proof.
  intros F B. unfold HRFS._toolhead_set_position.
  assert (Z0 : Py.float_ne (toolhead_epos h - toolhead_epos h)%float 0%float = false).
  { unfold Py.float_ne. now rewrite sub_same_is_zero. }
  destruct (extruder_is_active h) eqn:A.
  - rewrite bind_modify, inspect_commanded_move_inspected, inspected_unchanged_position
      by exact Z0.
    rewrite A. cbn -[firstn]. eexists. split; [reflexivity|]. cbn -[firstn].
    split; [now apply firstn_all2 | reflexivity].
  - rewrite bind_ret, inspect_commanded_move_inspected. unfold inspected. rewrite A. cbn.
    eexists. split; [reflexivity|]. split; [reflexivity | discriminate].
Qed.

(** The toolhead's position is set to 5 without a move: the inspection,
    which alone starts the move from 0 to 5, starts nothing after the
    handler. *)
Lemma set_position_is_not_a_move_witness :
  (exists s0,
      HRFS._inspect_commanded_move moved_host 1 (HRFS.init example_config)
      = Py.Returns tt s0
      /\ HRFS._commanded_moves s0 = [CM.init 1 0 0 5])
  /\ exists s',
      HRFS.bind (HRFS._toolhead_set_position moved_host)
                (fun _ => HRFS._inspect_commanded_move moved_host 1)
                (HRFS.init example_config) = Py.Returns tt s'
      /\ HRFS._commanded_moves s' = HRFS._commanded_moves (HRFS.init example_config)
      /\ (extruder_is_active moved_host = true ->
          HRFS._last_epos s' = toolhead_epos moved_host).
Proof.
  split; [rewrite inspect_commanded_move_inspected; eexists; split; reflexivity|].
  apply (set_position_is_not_a_move moved_host 1 (HRFS.init example_config)).
  - reflexivity.
  - unfold ledger_bounded. cbn. lia.
Defined.

(** ** The cumulative angle *)

(** X22. The position that is scaled to degrees is the cumulative raw
    position [turns * 4095 + angle] rounded down to a multiple of
    [2^ignore_bits]: it never exceeds the raw position and lags it by less
    than [2^ignore_bits] counts. *)
Theorem masked_position_is_the_step_below (k turns angle : Z) :
  0 <= k ->
  let raw := turns * 4095 + angle in
  let masked := SRH.masked_position (SRH.update_raw (SRH.init 12 k) turns angle) in
  masked = 2 ^ k * (raw / 2 ^ k) /\ masked <= raw < masked + 2 ^ k.
Proof.
  intros Hk raw masked.
  assert (E : masked = 2 ^ k * (raw / 2 ^ k)).
  { unfold masked, SRH.masked_position.
    change (SRH.mask (SRH.update_raw (SRH.init 12 k) turns angle))
      with (SRH.mask (SRH.init 12 k)).
    rewrite mask_is_ones, clear_low_bits by assumption.
    rewrite Z.shiftl_mul_pow2, Z.shiftr_div_pow2 by assumption.
    change (SRH._absolute_angular_position (SRH.update_raw (SRH.init 12 k) turns angle))
      with raw.
    apply Z.mul_comm. }
  split; [exact E|]. rewrite E.
  assert (P : 0 < 2 ^ k) by now apply Z.pow_pos_nonneg.
  pose proof (Z.div_mod raw (2 ^ k) ltac:(lia)) as D.
  pose proof (Z.mod_pos_bound raw (2 ^ k) P) as M.
  lia.
Qed.

Lemma masked_position_is_the_step_below_witness :
  let raw := 1 * 4095 + 1 in
  let masked := SRH.masked_position (SRH.update_raw (SRH.init 12 3) 1 1) in
  masked = 2 ^ 3 * (raw / 2 ^ 3) /\ masked <= raw < masked + 2 ^ 3.
Proof. apply (masked_position_is_the_step_below 3 1 1). lia. Defined.

(** X23. A full turn counts 4095 steps while the angle register has 4096
    values: two readings with angles in 0..4095 leave the helper in the same
    state exactly when they are equal or are the angle 4095 of one turn and the
    angle 0 of the next. *)
Theorem turn_boundary_is_counted_twice (k t1 a1 t2 a2 : Z) :
  0 <= a1 <= 4095 ->
  0 <= a2 <= 4095 ->
  SRH.update_raw (SRH.init 12 k) t1 a1 = SRH.update_raw (SRH.init 12 k) t2 a2
  <-> (t1 = t2 /\ a1 = a2)
      \/ (t2 = t1 + 1 /\ a1 = 4095 /\ a2 = 0)
      \/ (t1 = t2 + 1 /\ a2 = 4095 /\ a1 = 0).
Proof.
  intros H1 H2. unfold SRH.update_raw, SRH.init. cbn [SRH.resolution SRH.ignore_bits
    SRH.angle_max_value SRH.angle_min_value SRH.mask].
  change (Z.shiftl 1 12 - 1) with 4095.
  split.
  - intros E. injection E as E. lia.
  - intros [[-> ->]|[(-> & -> & ->)|(-> & -> & ->)]]; f_equal; lia.
Qed.

Lemma turn_boundary_is_counted_twice_witness :
  SRH.update_raw (SRH.init 12 3) 0 4095 = SRH.update_raw (SRH.init 12 3) 1 0
  <-> (0 = 1 /\ 4095 = 0)
      \/ (1 = 0 + 1 /\ 4095 = 4095 /\ 0 = 0)
      \/ (0 = 1 + 1 /\ 0 = 4095 /\ 4095 = 0).
Proof. apply (turn_boundary_is_counted_twice 3 0 4095 1 0); lia. Defined.

(** ** The move transform *)

(** X24. The transform hands a move on unchanged, position and speed, when
    the compensation does not apply (no coefficients, not ready, disabled,
    absolute coordinates with absolute extrusion, another extruder) or when
    the move does not extrude forward. *)
Theorem transform_passes_through {C N : Type} (polyval : float -> option C -> Py.result float)
      (self : NLE.t C N) (newpos : NLE.coordinates) (speed : float)
      (next : N) :
  NLE._next_transform self = Some next ->
  (NLE._can_apply_compensation self = false
   \/ forall th, NLE.toolhead self = Some th ->
                 PrimFloat.ltb 0 (NLE.axis3 newpos - NLE.axis3 (NLE.commanded_pos th)) = false) ->
  NLE.move polyval self newpos speed = Py.Ok (next, newpos, speed).
Proof.
  intros Hn H. unfold NLE.move. rewrite Hn.
  destruct (NLE._can_apply_compensation self) eqn:A; [|reflexivity].
  destruct H as [H|H]; [discriminate|].
  destruct (NLE.toolhead self) as [th|] eqn:T.
  - cbn. now rewrite (H th eq_refl).
  - unfold NLE._can_apply_compensation in A. rewrite T in A.
    now destruct (NLE.coefficients self), (NLE.gcode_move self).
Qed.

Lemma transform_passes_through_witness :
  NLE.move example_polyval (NLE.set_enabled example_transform false) example_target 4
  = Py.Ok (tt, example_target, 4%float).
Proof.
  apply (transform_passes_through example_polyval (NLE.set_enabled example_transform false)
                                  example_target 4 tt).
  - reflexivity.
  - left. reflexivity.
Defined.

Lemma move_changes_extrusion_only {C N : Type} (polyval : float -> option C -> Py.result float)
      (self : NLE.t C N) (newpos p : NLE.coordinates)
      (speed v : float) (next : N) :
  NLE.move polyval self newpos speed = Py.Ok (next, p, v) ->
  NLE._next_transform self = Some next
  /\ NLE.axis0 p = NLE.axis0 newpos
  /\ NLE.axis1 p = NLE.axis1 newpos
  /\ NLE.axis2 p = NLE.axis2 newpos
  /\ ((p = newpos /\ v = speed)
      \/ (NLE.enabled self = true
          /\ NLE.coefficients self <> None
          /\ exists gm th,
               NLE.gcode_move self = Some gm /\ NLE.toolhead self = Some th
               /\ NLE.absolute_coord gm && NLE.absolute_extrude gm = false
               /\ NLE.extruder_is_sensors th = true
               /\ PrimFloat.ltb 0 (NLE.axis3 newpos - NLE.axis3 (NLE.commanded_pos th)) = true)).
Proof.
  unfold NLE.move. intros H.
  destruct (NLE._can_apply_compensation self) eqn:A.
  - unfold NLE._can_apply_compensation in A.
    destruct (NLE.coefficients self) as [c|] eqn:Ec; [|discriminate].
    destruct (NLE.gcode_move self) as [gm|] eqn:Eg; [|discriminate].
    destruct (NLE.toolhead self) as [th|] eqn:Et; [|discriminate].
    destruct (NLE.enabled self) eqn:En; [|discriminate]. cbn [negb] in A.
    destruct (NLE.absolute_coord gm && NLE.absolute_extrude gm) eqn:Ea; [discriminate|].
    destruct (NLE.extruder_is_sensors th) eqn:Ex; [|discriminate].
    destruct (PrimFloat.ltb 0 _) eqn:D.
    + destruct (NLE._compensated_length _ _ _ _) as [[new_length new_speed]|e];
        [|discriminate].
      cbn in H. destruct (NLE._next_transform self) as [n|]; [|discriminate].
      injection H as -> <- <-. cbn. repeat split; trivial.
      right. repeat split; try discriminate. exists gm, th. now repeat split.
    + cbn in H. destruct (NLE._next_transform self) as [n|]; [|discriminate].
      injection H as -> <- <-. repeat split; auto.
  - cbn in H. destruct (NLE._next_transform self) as [n|]; [|discriminate].
    injection H as -> <- <-. repeat split; auto.
Qed.

Lemma move_speed_of_travel {C N : Type} (polyval : float -> option C -> Py.result float)
      (self : NLE.t C N) (newpos p : NLE.coordinates)
      (speed v : float) (next : N) (th : NLE.ToolHead) :
  NLE.move polyval self newpos speed = Py.Ok (next, p, v) ->
  NLE.toolhead self = Some th ->
  let d0 := (NLE.axis0 newpos - NLE.axis0 (NLE.commanded_pos th))%float in
  let d1 := (NLE.axis1 newpos - NLE.axis1 (NLE.commanded_pos th))%float in
  let d2 := (NLE.axis2 newpos - NLE.axis2 (NLE.commanded_pos th))%float in
  PrimFloat.ltb (PrimFloat.sqrt (0 + d0 * d0 + d1 * d1 + d2 * d2)) 0x1.12e0be826d695p-30
  = false ->
  v = speed.
Proof.
  intros H T d0 d1 d2 D. unfold NLE.move in H. rewrite T in H.
  destruct (NLE._can_apply_compensation self).
  - cbv zeta in H. fold d0 d1 d2 in H. rewrite D in H.
    destruct (PrimFloat.ltb 0 _).
    + destruct (NLE._compensated_length _ _ _ _) as [[new_length new_speed]|e];
        [|discriminate].
      cbn in H. destruct (NLE._next_transform self) as [n|]; [|discriminate].
      now injection H as _ _ <-.
    + cbn in H. destruct (NLE._next_transform self) as [n|]; [|discriminate].
      now injection H as _ _ <-.
  - cbn in H. destruct (NLE._next_transform self) as [n|]; [|discriminate].
    now injection H as _ _ <-.
Qed.

(** X26. [cmd_ENABLE_NONLINEAR_EXTRUSION] keeps the transform usable, whether
    it answers or raises: the transform is enabled only with coefficients,
    coefficients are never removed and the rest of the transform is left
    alone.  A command that is refused (coefficients that are no list, or
    enabling without coefficients) changes nothing, and one that is accepted
    sets [enabled] as asked.  The command raises in two cases only: what
    [ast.literal_eval] raises on the [COEFFICIENTS] text, a [ValueError]
    apart, with nothing changed; and the command error of [get_int] on an
    [ENABLE] that is no integer, with [enabled] as it was but the
    coefficients of the same command already stored. *)
Theorem enable_command_keeps_transform_usable {C N : Type} (self : NLE.t C N)
        (value : NLE.coefficients_parameter C)
      (ENABLE : NLE.enable_parameter) :
  usable self ->
  let result := NLE.cmd_ENABLE_NONLINEAR_EXTRUSION self value ENABLE in
  let self' := transform_after result in
  usable self'
  /\ NLE.gcode_move self' = NLE.gcode_move self
  /\ NLE.toolhead self' = NLE.toolhead self
  /\ NLE._next_transform self' = NLE._next_transform self
  /\ (NLE.coefficients self <> None -> NLE.coefficients self' <> None)
  /\ match result with
     | Py.Returns NLE.CoefficientsMustBeList _ =>
         (value = NLE.NotALiteral \/ value = NLE.NotAList) /\ self' = self
     | Py.Returns NLE.CannotEnableWithoutCoefficients _ =>
         value = NLE.NotGiven /\ NLE.coefficients self = None
         /\ (ENABLE = NLE.EnableDefault \/ ENABLE = NLE.EnableInt 1) /\ self' = self
     | Py.Returns (NLE.Enabled coefs) _ =>
         NLE.enabled self' = true /\ coefs = NLE.coefficients self' /\ coefs <> None
         /\ (ENABLE = NLE.EnableDefault \/ ENABLE = NLE.EnableInt 1)
     | Py.Returns NLE.Disabled _ =>
         NLE.enabled self' = false /\ exists v, ENABLE = NLE.EnableInt v /\ v <> 1
     | Py.Raises e _ =>
         NLE.enabled self' = NLE.enabled self
         /\ ((value = NLE.LiteralRaises e /\ self' = self)
             \/ (e = Py.CommandError /\ ENABLE = NLE.EnableInvalid
                 /\ ((value = NLE.NotGiven /\ self' = self)
                     \/ exists coefs, value = NLE.Coefficients coefs
                                      /\ self' = NLE.set_coefficients self coefs)))
     end.
Proof.
  intros U. unfold usable in *. unfold NLE.cmd_ENABLE_NONLINEAR_EXTRUSION.
  destruct self as [gm th c en nx]. cbn in U.
  destruct value as [| |e| |coefs]; cbn.
  - destruct ENABLE as [|v|]; cbn.
    + destruct c; cbn; repeat split; trivial; try discriminate; auto.
    + destruct (Z.eqb_spec v 1) as [->|V]; cbn.
      * destruct c; cbn; repeat split; trivial; try discriminate; auto.
      * repeat split; trivial; try discriminate. now exists v.
    + repeat split; trivial. right. repeat split. now left.
  - repeat split; trivial. now left.
  - repeat split; trivial. now left.
  - repeat split; trivial. now right.
  - destruct ENABLE as [|v|]; cbn.
    + repeat split; trivial; try discriminate; auto.
    + destruct (Z.eqb_spec v 1) as [->|V]; cbn.
      * repeat split; trivial; try discriminate; auto.
      * repeat split; trivial; try discriminate. now exists v.
    + repeat split; trivial; try discriminate.
      right. repeat split. right. now exists coefs.
Qed.

(** A command that gives coefficients and an [ENABLE] that is no integer:
    it raises the command error after it has stored the coefficients. *)
Lemma enable_command_keeps_transform_usable_witness :
  let self : NLE.t (list float) unit := NLE.init in
  let coefs := [0%float; 2%float] in
  let result :=
    NLE.cmd_ENABLE_NONLINEAR_EXTRUSION self (NLE.Coefficients coefs) NLE.EnableInvalid in
  result = Py.Raises Py.CommandError (NLE.set_coefficients self coefs)
  /\ usable (transform_after result)
  /\ NLE.enabled (transform_after result) = NLE.enabled self
  /\ NLE.coefficients (transform_after result) = Some coefs.
Proof.
  cbv zeta.
  pose proof (enable_command_keeps_transform_usable
                (NLE.init : NLE.t (list float) unit)
                (NLE.Coefficients [0%float; 2%float]) NLE.EnableInvalid) as K.
  cbv zeta in K.
  split; [reflexivity|].
  split; [apply K; unfold usable; discriminate|].
  split; reflexivity.
Defined.

(** ** Status queries *)

Lemma truth_value (value : option bool) :
  HRFS.truth value = match value with
                     | Some b => Py.Ok b
                     | None => Py.Raise Py.TypeError
                     end.
Proof. reflexivity. Qed.

Lemma angular_resolution_returns (helper : SRH.t) :
  SRH.angle_max_value helper = 4095 ->
  exists a, SRH.angular_resolution helper = Py.Ok a.
Proof.
  intros H. unfold SRH.angular_resolution, Py.truediv. rewrite H.
  change (Py.float_of_int 4095 =? 0)%float with false. cbn. now eexists.
Qed.

Lemma get_status_returns (filament_area eventtime : float) (s : HRFS.t) (c f : bool) :
  sensor_invariant s ->
  HRFS._sensor_connected s = Some c ->
  HRFS._filament_present s = Some f ->
  exists st,
    HRFS.get_status filament_area s eventtime = Py.Ok st
    /\ SensorStatus.enabled st = sensor_enabled (HRFS.cfg s)
    /\ SensorStatus.sensor_connected st = c
    /\ SensorStatus.filament_detected st = f
    /\ HRFS._runout s = Some (SensorStatus.runout st)
    /\ HRFS._underextruding s = Some (SensorStatus.underextrusion_detected st)
    /\ SensorStatus.position st = HRFS.position s.
Proof.
  intros (H1 & H2 & H3 & H4 & H5 & H6 & H7) Hc Hf.
  unfold HRFS.get_status. rewrite !truth_value, Hc, Hf.
  destruct (HRFS._runout s) as [r|]; [|contradiction].
  destruct (HRFS._underextruding s) as [u|]; [|contradiction].
  destruct (HRFS._status_evaluation_move s) as [m|].
  - destruct (well_formed_metrics m H4)
      as ((md & Emd) & _ & (v & Ev) & _ & (b & Eb) & (d & Ed) & _ & (rate & Er)).
    rewrite Ev, Emd, Eb, Ed, Er.
    destruct (negb (CM.ended m)), (HRFS._is_printing s); cbn; eexists; repeat split.
  - cbn. eexists. repeat split.
Qed.

Lemma query_returns (s : HRFS.t) (c f : bool) :
  sensor_invariant s ->
  HRFS._sensor_connected s = Some c ->
  HRFS._filament_present s = Some f ->
  exists q,
    HRFS.cmd_QUERY_FILAMENT_SENSOR s = Py.Ok q
    /\ SensorStatus.sensor q = c
    /\ SensorStatus.filament q = f.
Proof.
  intros (H1 & H2 & H3 & H4 & H5 & H6 & H7) Hc Hf.
  unfold HRFS.cmd_QUERY_FILAMENT_SENSOR, HRFS.detectable_angle_change,
    HRFS.detectable_distance_change.
  rewrite !truth_value, Hc, Hf.
  destruct (HRFS._runout s) as [r|]; [|contradiction].
  destruct (HRFS._underextruding s) as [u|]; [|contradiction].
  destruct (angular_resolution_returns _ H1) as [a Ea]. rewrite Ea.
  cbn. eexists. repeat split.
Qed.

Lemma status_without_reading (filament_area eventtime : float) (s : HRFS.t) :
  sensor_invariant s ->
  ~ has_reading s ->
  HRFS.get_status filament_area s eventtime = Py.Raise Py.TypeError
  /\ HRFS.cmd_QUERY_FILAMENT_SENSOR s = Py.Raise Py.TypeError.
Proof.
  intros (H1 & H2 & H3 & H4 & H5 & H6 & H7) Hn.
  assert (E : HRFS._sensor_connected s = None
              \/ exists c, HRFS._sensor_connected s = Some c
                           /\ HRFS._filament_present s = None).
  { unfold has_reading in Hn.
    destruct (HRFS._sensor_connected s) as [c|]; [|now left].
    destruct (HRFS._filament_present s) as [f|]; [|right; now exists c].
    exfalso. apply Hn. split; discriminate. }
  unfold HRFS.get_status, HRFS.cmd_QUERY_FILAMENT_SENSOR. rewrite !truth_value.
  assert (V : exists v,
             match HRFS._status_evaluation_move s with
             | Some m => if negb (CM.ended m) then CM.speed m else Py.Ok None
             | None => Py.Ok None
             end = Py.Ok v).
  { destruct (HRFS._status_evaluation_move s) as [m|]; [|now eexists].
    destruct (negb (CM.ended m)); [|now eexists].
    now destruct (well_formed_metrics m H4) as (_ & _ & V & _). }
  destruct V as [v ->].
  destruct E as [->|(c & -> & ->)]; now split.
Qed.

(** ** Frames on the wire *)

Lemma serial_frame_bits_app (frame : list Z) (b : Z) :
  serial_frame_bits (frame ++ [b]) =
    (Z.lor (fst (serial_frame_bits frame))
           (Z.shiftl (Z.lor (Z.shiftl b 1) 0x200) (snd (serial_frame_bits frame))),
     snd (serial_frame_bits frame) + 10).
Proof. unfold serial_frame_bits. now rewrite fold_left_app. Qed.

Lemma serial_frame_bits_pos (frame : list Z) :
  snd (serial_frame_bits frame) = 10 * Z.of_nat (length frame).
Proof.
  induction frame as [|b frame IH] using rev_ind; [reflexivity|].
  rewrite serial_frame_bits_app, length_app. cbn [snd length]. lia.
Qed.

(** Bit [q] of a framed byte: the start bit, the data bits, the stop bit. *)
Lemma framed_byte_testbit (b q : Z) :
  Py.is_byte b -> 0 <= q ->
  Z.testbit (Z.lor (Z.shiftl b 1) 0x200) q =
    if q =? 0 then false else if q =? 9 then true else Z.testbit b (q - 1).
Proof.
  intros Hb Hq. rewrite Z.lor_spec.
  destruct (Z.eqb_spec q 0) as [->|N0].
  - now rewrite Z.shiftl_spec_low by lia.
  - rewrite Z.shiftl_spec by lia.
    destruct (Z.eqb_spec q 9) as [->|N9].
    + apply orb_true_r.
    + replace (Z.testbit 512 q) with false; [apply orb_false_r|].
      destruct (Z.lt_ge_cases q 9) as [L|G].
      * assert (q = 1 \/ q = 2 \/ q = 3 \/ q = 4 \/ q = 5 \/ q = 6 \/ q = 7 \/ q = 8)
          as H by lia.
        now destruct H as [->|[->|[->|[->|[->|[->|[->| ->]]]]]]].
      * symmetry. apply Z.bits_above_log2; [lia|]. change (Z.log2 512) with 9. lia.
Qed.

(** Bit [p] of the stream is bit [p mod 10] of the framed byte [p / 10]. *)
Lemma serial_frame_bits_testbit (frame : list Z) :
  Forall Py.is_byte frame ->
  forall p, 0 <= p ->
    Z.testbit (fst (serial_frame_bits frame)) p =
      if (Z.to_nat (p / 10) <? length frame)%nat
      then Z.testbit (Z.lor (Z.shiftl (nth (Z.to_nat (p / 10)) frame 0) 1) 0x200) (p mod 10)
      else false.
Proof.
  induction frame as [|b frame IH] using rev_ind; intros Hb p Hp.
  - cbn. apply Z.bits_0.
  - apply Forall_app in Hb. destruct Hb as [Hframe Hb0]. apply Forall_inv in Hb0.
    rewrite serial_frame_bits_app. cbn [fst].
    rewrite Z.lor_spec, (IH Hframe p Hp), serial_frame_bits_pos, length_app. cbn [length].
    assert (Hdiv : 0 <= p / 10) by (apply Z.div_pos; lia).
    assert (Hmod : 0 <= p mod 10 < 10) by (apply Z.mod_pos_bound; lia).
    assert (Hp10 : p = 10 * (p / 10) + p mod 10) by (apply Z.div_mod; lia).
    destruct (Z.lt_ge_cases p (10 * Z.of_nat (length frame))) as [Hlt|Hge].
    + rewrite Z.shiftl_spec_low by assumption. rewrite orb_false_r.
      replace (Z.to_nat (p / 10) <? length frame)%nat with true
        by (symmetry; apply Nat.ltb_lt; lia).
      replace (Z.to_nat (p / 10) <? length frame + 1)%nat with true
        by (symmetry; apply Nat.ltb_lt; lia).
      rewrite app_nth1 by lia. reflexivity.
    + rewrite Z.shiftl_spec by assumption.
      replace (Z.to_nat (p / 10) <? length frame)%nat with false
        by (symmetry; apply Nat.ltb_ge; lia).
      rewrite orb_false_l.
      destruct (Z.eq_dec (p / 10) (Z.of_nat (length frame))) as [E|N].
      * replace (Z.to_nat (p / 10) <? length frame + 1)%nat with true
          by (symmetry; apply Nat.ltb_lt; lia).
        rewrite app_nth2 by lia.
        replace (Z.to_nat (p / 10) - length frame)%nat with 0%nat by lia.
        cbn [nth]. f_equal. lia.
      * replace (Z.to_nat (p / 10) <? length frame + 1)%nat with false
          by (symmetry; apply Nat.ltb_ge; lia).
        rewrite framed_byte_testbit by (trivial; lia).
        assert (G : 10 <= p - 10 * Z.of_nat (length frame)) by lia.
        destruct (Z.eqb_spec (p - 10 * Z.of_nat (length frame)) 0); [lia|].
        destruct (Z.eqb_spec (p - 10 * Z.of_nat (length frame)) 9); [lia|].
        apply byte_high_bits; [assumption | lia].
Qed.

Lemma serial_frame_nth (nbytes : nat) (frame : list Z) (k : nat) :
  (k < nbytes)%nat ->
  nth k (serial_frame nbytes frame) 0 =
    Z.land (Z.shiftr (fst (serial_frame_bits frame)) (Z.of_nat k * 8)) 0xff.
Proof.
  intros Hk. unfold serial_frame.
  set (f := fun i : nat => Z.land (Z.shiftr (fst (serial_frame_bits frame)) (Z.of_nat i * 8)) 255).
  rewrite (nth_indep _ 0 (f 0%nat)) by (now rewrite length_map, length_seq).
  rewrite map_nth, seq_nth by assumption. reflexivity.
Qed.

Lemma land_255_is_byte (x : Z) : Py.is_byte (Z.land x 0xff).
Proof.
  unfold Py.is_byte. change 255 with (Z.ones 8). rewrite Z.land_ones by lia.
  apply Z.mod_pos_bound. lia.
Qed.

Lemma serial_frame_bytes (nbytes : nat) (frame : list Z) :
  Forall Py.is_byte (serial_frame nbytes frame).
Proof.
  unfold serial_frame. apply Forall_forall. intros x Hx.
  apply in_map_iff in Hx. destruct Hx as [i [<- _]]. apply land_255_is_byte.
Qed.

Lemma testbit_255 (j : Z) : 0 <= j < 8 -> Z.testbit 255 j = true.
Proof.
  intros Hj.
  assert (j = 0 \/ j = 1 \/ j = 2 \/ j = 3 \/ j = 4 \/ j = 5 \/ j = 6 \/ j = 7) as H by lia.
  now destruct H as [->|[->|[->|[->|[->|[->|[->| ->]]]]]]].
Qed.

Lemma serial_frame_length (nbytes : nat) (frame : list Z) :
  length (serial_frame nbytes frame) = nbytes.
Proof. unfold serial_frame. now rewrite length_map, length_seq. Qed.

Lemma remove_serial_bits_of_frame (nbytes : nat) (frame : list Z) :
  Forall Py.is_byte frame ->
  Nat.div (nbytes * 8) 10 = length frame ->
  _remove_serial_bits (serial_frame nbytes frame) = frame.
Proof.
  intros Hb Hn.
  assert (Hlen : length (_remove_serial_bits (serial_frame nbytes frame)) = length frame).
  { now rewrite remove_serial_bits_length, serial_frame_length. }
  apply (nth_ext _ _ 0 0 Hlen). intros i Hi. rewrite Hlen in Hi.
  assert (Hbyte : Py.is_byte (nth i frame 0)).
  { rewrite Forall_forall in Hb. apply Hb, nth_In, Hi. }
  assert (Hfit : 10 * Z.of_nat i + 10 <= 8 * Z.of_nat nbytes).
  { pose proof (Nat.Div0.mul_div_le (nbytes * 8) 10). nia. }
  rewrite remove_serial_bits_nth by (rewrite serial_frame_length; lia).
  apply Z.bits_inj'. intros j Hj.
  rewrite Z.land_spec.
  destruct (Z.lt_ge_cases j 8) as [L|G].
  - rewrite testbit_255, andb_true_r by lia.
    rewrite Z.shiftr_spec by lia.
    set (p := j + (Z.of_nat i * 10 + 1)).
    assert (Hp : 0 <= p) by (unfold p; lia).
    assert (Hdiv : 0 <= p / 8) by (apply Z.div_pos; lia).
    assert (Hmod : 0 <= p mod 8 < 8) by (apply Z.mod_pos_bound; lia).
    assert (Hp8 : p = 8 * (p / 8) + p mod 8) by (apply Z.div_mod; lia).
    rewrite (pack_bits_testbit _ (serial_frame_bytes nbytes frame) p Hp).
    rewrite serial_frame_nth by (unfold p in *; lia).
    rewrite Z.land_spec, testbit_255, andb_true_r by assumption.
    rewrite Z.shiftr_spec by lia.
    replace (p mod 8 + Z.of_nat (Z.to_nat (p / 8)) * 8) with p by lia.
    rewrite (serial_frame_bits_testbit frame Hb p Hp).
    assert (Hq : p / 10 = Z.of_nat i /\ p mod 10 = j + 1).
    { assert (E : p = Z.of_nat i * 10 + (j + 1)) by (unfold p; lia).
      rewrite E. split.
      - rewrite Z.div_add_l by lia. rewrite Z.div_small by lia. lia.
      - rewrite Z.add_comm, Z.mod_add by lia. apply Z.mod_small. lia. }
    destruct Hq as [-> ->]. rewrite Nat2Z.id.
    replace (i <? length frame)%nat with true by (symmetry; now apply Nat.ltb_lt).
    rewrite framed_byte_testbit by (trivial; lia).
    destruct (Z.eqb_spec (j + 1) 0); [lia|]. destruct (Z.eqb_spec (j + 1) 9); [lia|].
    f_equal. lia.
  - replace (Z.testbit 255 j) with false.
    + rewrite andb_false_r. symmetry. now apply byte_high_bits.
    + symmetry. apply Z.bits_above_log2; [lia|]. change (Z.log2 255) with 7. lia.
Qed.

Lemma frame_is_decoded (_calc_crc8 : list Z -> Z) (reg : Z) (payload : list Z) :
  let header := [0x05; 0xff; reg] ++ payload in
  payload <> [] ->
  Forall Py.is_byte payload ->
  Py.is_byte reg ->
  Py.is_byte (_calc_crc8 header) ->
  _decode_read _calc_crc8 reg
    (serial_frame (read_length (length payload)) (header ++ [_calc_crc8 header]))
  = ([], Some payload).
Proof.
  intros header Hne Hp Hr Hc. unfold _decode_read.
  rewrite remove_serial_bits_of_frame.
  - cbv zeta. unfold Py.last_item, Py.but_last, Py.slice_to_last.
    rewrite last_last, removelast_last.
    assert (L : (5 <= length (header ++ [_calc_crc8 header]))%nat)
      by (unfold header; rewrite !length_app; destruct payload; [contradiction | cbn; lia]).
    apply Nat.ltb_ge in L. rewrite L, Z.eqb_refl. cbn [negb].
    unfold header. cbn [app nth skipn]. now rewrite !Z.eqb_refl.
  - apply Forall_app. split; [|now constructor].
    unfold header. apply Forall_app. split; [|assumption].
    repeat (constructor; [unfold Py.is_byte in *; lia|]). constructor.
  - rewrite read_length_frames. unfold header. rewrite !length_app. cbn. lia.
Qed.

Lemma le_int32_of_bytes (x : Z) :
  - 0x80000000 <= x < 0x80000000 ->
  match int32_bytes x with
  | [b0; b1; b2; b3] => le_int32 b0 b1 b2 b3 = x
  | _ => False
  end.
Proof.
  intros Hx. unfold int32_bytes, le_int32. cbv zeta.
  rewrite !Z.shiftl_mul_pow2 by lia.
  set (u := x mod 4294967296).
  assert (Hu : 0 <= u < 4294967296) by (apply Z.mod_pos_bound; lia).
  assert (E : u mod 256 + (u / 256) mod 256 * 2 ^ 8 + (u / 65536) mod 256 * 2 ^ 16
              + (u / 16777216) mod 256 * 2 ^ 24 = u).
  { change (2 ^ 8) with 256. change (2 ^ 16) with 65536. change (2 ^ 24) with 16777216.
    clearbody u. Z.to_euclidean_division_equations. lia. }
  rewrite E.
  assert (Ex : u = x \/ u = x + 4294967296).
  { unfold u. Z.to_euclidean_division_equations. lia. }
  destruct (Z.leb_spec 2147483648 u); lia.
Qed.

Lemma int32_bytes_are_bytes (x : Z) : Forall Py.is_byte (int32_bytes x).
Proof.
  unfold int32_bytes. cbv zeta.
  repeat (constructor; [apply Z.mod_pos_bound; lia|]). constructor.
Qed.

Section UartRoundTrip.

Variable _calc_crc8 : list Z -> Z.
Variable mcu : nat -> nat -> list Z.

Lemma uart_read_reg_of_response (attempt : nat) (reg : Z) (payload : list Z) :
  payload <> [] ->
  Forall Py.is_byte payload ->
  Py.is_byte reg ->
  Py.is_byte (_calc_crc8 ([0x05; 0xff; reg] ++ payload)) ->
  mcu attempt (read_length (length payload)) = response_stream _calc_crc8 reg payload ->
  uart_read_reg _calc_crc8 mcu attempt reg (length payload) = ([], Some payload, S attempt).
Proof.
  intros Hne Hp Hr Hc Hm.
  unfold uart_read_reg. cbn [uart_read_attempts]. unfold reg_read.
  rewrite Hm. unfold response_stream. cbv zeta.
  rewrite (frame_is_decoded _calc_crc8 reg payload Hne Hp Hr Hc).
  cbn. destruct payload; [contradiction | reflexivity].
Qed.

End UartRoundTrip.

(** ** Events recorded on a move *)

Lemma or_else_none_r (x : option SensorEvent.t) : CM.or_else x None = x.
Proof. now destruct x. Qed.

Lemma hd_error_app_one {A : Type} (l : list A) (a : A) :
  hd_error (l ++ [a]) = match hd_error l with
                        | Some x => Some x
                        | None => Some a
                        end.
Proof. now destruct l. Qed.

Lemma find_app_one {A : Type} (f : A -> bool) (l : list A) (a : A) :
  find f (l ++ [a]) = match find f l with
                      | Some x => Some x
                      | None => if f a then Some a else None
                      end.
Proof.
  induction l as [|x l IH]; cbn; [reflexivity|]. now destruct (f x).
Qed.

Lemma record_events_fields (capture : bool) (events : list SensorEvent.t) :
  forall move,
    let m := record_events capture events move in
    CM.first_event m = CM.or_else (CM.first_event move) (hd_error events)
    /\ CM.last_event m = CM.or_else (hd_error (rev events)) (CM.last_event move)
    /\ CM.first_motion_event m
       = CM.or_else (CM.first_motion_event move) (find moving events)
    /\ CM.last_motion_event m
       = CM.or_else (find moving (rev events)) (CM.last_motion_event move)
    /\ CM.sensor_events m
       = (if capture then rev events else []) ++ CM.sensor_events move
    /\ CM.last_epos m = CM.last_epos move
    /\ CM.distance m = CM.distance move
    /\ CM.ended m = CM.ended move.
Proof.
  induction events as [|e events IH]; intros move; cbn.
  - rewrite !or_else_none_r. destruct capture; now repeat split.
  - destruct (IH (CM.add_sensor_event move e capture))
      as (H1 & H2 & H3 & H4 & H5 & H6 & H7 & H8).
    unfold record_events in *. cbn in *. fold (moving e) in *.
    rewrite H1, H2, H3, H4, H5, H6, H7, H8.
    rewrite hd_error_app_one, find_app_one.
    repeat split.
    + now destruct (CM.first_event move).
    + now destruct (hd_error (rev events)).
    + destruct (moving e); [|reflexivity]. now destruct (CM.first_motion_event move).
    + destruct (find moving (rev events)); [reflexivity|]. now destruct (moving e).
    + destruct capture; [|reflexivity]. now rewrite <- app_assoc.
Qed.

(** ** Summary of the register transport *)

(** X3. [reg_read] asks the MCU for enough bytes to hold the framed response:
    [read_length n] bytes carry [4 + n] frames of 10 bits, so a payload that
    the decoder accepts has exactly the [reg_length] bytes of the register. *)
Theorem read_length_fits_the_register (_calc_crc8 : list Z -> Z) (mcu : nat -> nat -> list Z)
        (attempt : nat) (reg : Z) (reg_length : nat) (payload : list Z) :
  (forall attempt n, length (mcu attempt n) = n) ->
  snd (reg_read _calc_crc8 mcu attempt reg reg_length) = Some payload ->
  length payload = reg_length
  /\ Nat.div (read_length reg_length * 8) 10 = (4 + reg_length)%nat.
Proof.
  intros Hmcu H. split; [|apply read_length_frames].
  exact (reg_read_payload_length _calc_crc8 mcu Hmcu attempt reg reg_length payload H).
Qed.

Lemma read_length_fits_the_register_witness :
  length [0x04] = 1%nat /\ Nat.div (read_length 1 * 8) 10 = (4 + 1)%nat.
Proof.
  apply (read_length_fits_the_register crc8_atm example_mcu 0 0x21 1 [0x04]).
  - intros attempt n. unfold example_mcu.
    rewrite length_firstn, length_app, repeat_length. lia.
  - vm_compute. reflexivity.
Defined.

(** X6. The decoder undoes the framing of the wire: the bit stream of a
    response with header 05 ff, the register, a payload that is not empty and
    the CRC of these bytes is unstuffed to these bytes, and [_decode_read]
    returns the payload without a warning. *)
Theorem response_is_decoded (_calc_crc8 : list Z -> Z) (reg : Z) (payload : list Z) :
  payload <> [] ->
  Forall Py.is_byte payload ->
  Py.is_byte reg ->
  Py.is_byte (_calc_crc8 ([0x05; 0xff; reg] ++ payload)) ->
  _remove_serial_bits (response_stream _calc_crc8 reg payload)
  = ([0x05; 0xff; reg] ++ payload) ++ [_calc_crc8 ([0x05; 0xff; reg] ++ payload)]
  /\ _decode_read _calc_crc8 reg (response_stream _calc_crc8 reg payload) = ([], Some payload).
Proof.
  intros Hne Hp Hr Hc. split.
  - unfold response_stream. cbv zeta. apply remove_serial_bits_of_frame.
    + apply Forall_app. split; [|now constructor].
      apply Forall_app. split; [|assumption].
      repeat (constructor; [unfold Py.is_byte in *; lia|]). constructor.
    + rewrite read_length_frames, !length_app. cbn. lia.
  - exact (frame_is_decoded _calc_crc8 reg payload Hne Hp Hr Hc).
Qed.

Lemma response_is_decoded_witness :
  _remove_serial_bits (response_stream crc8_atm 0x21 [0x04])
  = ([0x05; 0xff; 0x21] ++ [0x04]) ++ [crc8_atm ([0x05; 0xff; 0x21] ++ [0x04])]
  /\ _decode_read crc8_atm 0x21 (response_stream crc8_atm 0x21 [0x04]) = ([], Some [0x04]).
Proof.
  apply (response_is_decoded crc8_atm 0x21 [0x04]).
  - discriminate.
  - repeat (apply Forall_cons; [unfold Py.is_byte; lia|]). apply Forall_nil.
  - unfold Py.is_byte. lia.
  - split; [apply Z.leb_le | apply Z.ltb_lt]; vm_compute; reflexivity.
Defined.

(** X7. Reading a register over the UART round-trips: when the MCU answers
    the first request with the framed response, [uart_read_reg1] returns the
    byte that was sent and [uart_read_reg4] the signed 32-bit integer whose
    little-endian two's complement bytes were sent, after one request and
    without a warning. *)
Theorem uart_read_round_trip (_calc_crc8 : list Z -> Z) (mcu : nat -> nat -> list Z)
        (attempt : nat) (reg : Z) :
  Py.is_byte reg ->
  (forall b,
      Py.is_byte b ->
      Py.is_byte (_calc_crc8 ([0x05; 0xff; reg] ++ [b])) ->
      mcu attempt (read_length 1) = response_stream _calc_crc8 reg [b] ->
      uart_read_reg1 _calc_crc8 mcu attempt reg = ([], Unpacked b, S attempt))
  /\ (forall x,
         - 0x80000000 <= x < 0x80000000 ->
         Py.is_byte (_calc_crc8 ([0x05; 0xff; reg] ++ int32_bytes x)) ->
         mcu attempt (read_length 4) = response_stream _calc_crc8 reg (int32_bytes x) ->
         uart_read_reg4 _calc_crc8 mcu attempt reg = ([], Unpacked x, S attempt)).
Proof.
  intros Hr. split.
  - intros b Hb Hc Hm. unfold uart_read_reg1.
    pose proof (uart_read_reg_of_response _calc_crc8 mcu attempt reg [b]
                  ltac:(discriminate) (Forall_cons b Hb (Forall_nil _)) Hr Hc Hm) as R.
    cbn [length] in R. now rewrite R.
  - intros x Hx Hc Hm. unfold uart_read_reg4.
    pose proof (le_int32_of_bytes x Hx) as E.
    pose proof (int32_bytes_are_bytes x) as B.
    pose proof (uart_read_reg_of_response _calc_crc8 mcu attempt reg (int32_bytes x)) as R.
    destruct (int32_bytes x) as [|b0 [|b1 [|b2 [|b3 [|b4 rest]]]]]; try contradiction.
    specialize (R ltac:(discriminate) B Hr Hc Hm). cbn [length] in R.
    rewrite R. now rewrite E.
Qed.

Lemma uart_read_round_trip_witness :
  (forall b,
      Py.is_byte b ->
      Py.is_byte (crc8_atm ([0x05; 0xff; 0x21] ++ [b])) ->
      example_mcu 0 (read_length 1) = response_stream crc8_atm 0x21 [b] ->
      uart_read_reg1 crc8_atm example_mcu 0 0x21 = ([], Unpacked b, 1%nat))
  /\ (forall x,
         - 0x80000000 <= x < 0x80000000 ->
         Py.is_byte (crc8_atm ([0x05; 0xff; 0x21] ++ int32_bytes x)) ->
         example_mcu 0 (read_length 4) = response_stream crc8_atm 0x21 (int32_bytes x) ->
         uart_read_reg4 crc8_atm example_mcu 0 0x21 = ([], Unpacked x, 1%nat)).
Proof.
  apply (uart_read_round_trip crc8_atm example_mcu 0 0x21).
  unfold Py.is_byte. lia.
Defined.

(** ** Summary of the moves *)

(** X8. The moves the sensor builds are well formed: the constructor,
    [add_sensor_event], ending a move and [_combine_moves] give moves that have
    a first event exactly when they have a last one, also for motion events.
    On such a move no derived metric raises: [measured_distance], [duration],
    [speed], [extrusion_rate], [detected], [direction], [has_stopped_moving]
    and the sensor's [_measured_underextrusion_rate] all return. *)
Theorem sensor_moves_have_metrics :
  (forall eventtime pos last_epos epos, well_formed (CM.init eventtime pos last_epos epos))
  /\ (forall move event capture,
         well_formed move -> well_formed (CM.add_sensor_event move event capture))
  /\ (forall move b, well_formed move -> well_formed (CM.set_ended move b))
  /\ (forall newer older,
         well_formed newer -> well_formed older ->
         well_formed (HRFS._combine_moves newer older))
  /\ (forall move,
         well_formed move ->
         (exists m, CM.measured_distance move = Py.Ok m)
         /\ (exists d, CM.duration move = Py.Ok d)
         /\ (exists v, CM.speed move = Py.Ok v)
         /\ (exists r, CM.extrusion_rate move = Py.Ok r)
         /\ (exists b, CM.detected move = Py.Ok b)
         /\ (exists d, CM.direction move = Py.Ok d)
         /\ (forall duration, exists b, CM.has_stopped_moving move duration = Py.Ok b)
         /\ (exists r, HRFS._measured_underextrusion_rate (Some move) = Py.Ok r)).
Proof.
  split; [exact well_formed_init|].
  split; [exact well_formed_add_sensor_event|].
  split; [exact set_ended_well_formed|].
  split; [exact well_formed_combine_moves | exact well_formed_metrics].
Qed.

Lemma hd_error_rev_last {A : Type} (l : list A) (d : A) :
  hd_error (rev l) = match l with
                     | [] => None
                     | _ :: _ => Some (last l d)
                     end.
Proof.
  induction l as [|a l IH]; [reflexivity|].
  cbn [rev]. rewrite hd_error_app_one, IH. now destruct l.
Qed.

(** X12. The events recorded on a fresh move, oldest first: the measured
    distance is the sensor position of the last event minus that of the first,
    the expected distance the extruder position of the last event minus the
    move's starting position; the motion events are the first and the last
    event with a distance that is not zero; the history holds the events,
    newest first, when it is captured, and nothing otherwise. *)
Theorem measured_distance_spans_the_events (capture : bool)
        (eventtime pos last_epos epos : float) (first : SensorEvent.t)
        (rest : list SensorEvent.t) :
  let events := first :: rest in
  let move := record_events capture events (CM.init eventtime pos last_epos epos) in
  CM.measured_distance move
  = Py.Ok (SensorEvent.position (last rest first) - SensorEvent.position first)%float
  /\ CM.expected_distance move = Some (SensorEvent.epos (last rest first) - last_epos)%float
  /\ CM.first_motion_event move = find moving events
  /\ CM.last_motion_event move = find moving (rev events)
  /\ CM.sensor_events move = (if capture then rev events else [])
  /\ CM.distance move = (epos - last_epos)%float
  /\ well_formed move.
Proof.
  intros events move.
  destruct (record_events_fields capture events (CM.init eventtime pos last_epos epos))
    as (H1 & H2 & H3 & H4 & H5 & H6 & H7 & H8).
  fold move in H1, H2, H3, H4, H5, H6, H7, H8.
  unfold events in H2. rewrite (hd_error_rev_last (first :: rest) first) in H2.
  cbn [CM.init CM.first_event CM.last_event CM.first_motion_event CM.last_motion_event
       CM.sensor_events CM.last_epos CM.distance CM.or_else hd_error] in *.
  assert (L : last (first :: rest) first = last rest first) by now destruct rest.
  rewrite L in H2.
  unfold CM.measured_distance, CM.expected_distance. rewrite H1, H2, H6.
  rewrite or_else_none_r in H4. rewrite app_nil_r in H5.
  do 2 (split; [reflexivity|]). do 4 (split; [assumption|]).
  unfold well_formed. rewrite H1, H2, H3, H4.
  repeat split; try discriminate.
  - intros E. rewrite <- (rev_involutive events) in E.
      destruct (find moving (rev events)) as [e|] eqn:F; [|reflexivity].
      apply find_some in F. destruct F as [F1 F2]. apply in_rev in F1.
      pose proof (find_none moving events) as Nn.
      rewrite rev_involutive in E. specialize (Nn E e F1). congruence.
  - intros E.
    destruct (find moving events) as [e|] eqn:F; [|reflexivity].
    apply find_some in F. destruct F as [F1 F2]. apply in_rev in F1.
    pose proof (find_none moving (rev events) E e F1). congruence.
Qed.

(** ** Summary of the sensor *)

(** X13. The invariant of the sensor (the rotation helper has 12 bits, every
    move of the ledger is well formed, at most the newest move is open, the
    evaluated move is well formed, and the three alert triggers are set)
    holds when the sensor is built and is kept by the periodic update and by
    the handlers of the host's events, whether they return or raise. *)
Theorem sensor_invariant_is_kept :
  (forall c, sensor_invariant (HRFS.init c))
  /\ (forall h eventtime, preserves sensor_invariant (HRFS._sensor_update_event h eventtime))
  /\ (forall h, preserves sensor_invariant (HRFS._handle_printing h))
  /\ preserves sensor_invariant HRFS._handle_not_printing
  /\ (forall h, preserves sensor_invariant (HRFS._toolhead_set_position h)).
Proof.
  split; [exact init_invariant|].
  split; [exact sensor_update_event_keeps_invariant|].
  split; [exact handle_printing_keeps_invariant|].
  split; [exact handle_not_printing_keeps_invariant
         | exact toolhead_set_position_keeps_invariant].
Qed.

(** X27. The status queries need a reading: [get_status] and
    [cmd_QUERY_FILAMENT_SENSOR] raise a [TypeError] as long as the connection
    or the filament trigger has never been set, and return once both are,
    with the values of the triggers. *)
Theorem status_needs_a_reading (filament_area eventtime : float) (s : HRFS.t) :
  sensor_invariant s ->
  (~ has_reading s ->
   HRFS.get_status filament_area s eventtime = Py.Raise Py.TypeError
   /\ HRFS.cmd_QUERY_FILAMENT_SENSOR s = Py.Raise Py.TypeError)
  /\ (forall c f,
         HRFS._sensor_connected s = Some c ->
         HRFS._filament_present s = Some f ->
         (exists st,
             HRFS.get_status filament_area s eventtime = Py.Ok st
             /\ SensorStatus.enabled st = sensor_enabled (HRFS.cfg s)
             /\ SensorStatus.sensor_connected st = c
             /\ SensorStatus.filament_detected st = f
             /\ HRFS._runout s = Some (SensorStatus.runout st)
             /\ HRFS._underextruding s = Some (SensorStatus.underextrusion_detected st)
             /\ SensorStatus.position st = HRFS.position s)
         /\ (exists q,
                HRFS.cmd_QUERY_FILAMENT_SENSOR s = Py.Ok q
                /\ SensorStatus.sensor q = c
                /\ SensorStatus.filament q = f)).
Proof.
  intros H. split.
  - now apply status_without_reading.
  - intros c f Hc Hf. split.
    + now apply get_status_returns.
    + now apply query_returns.
Qed.

Lemma status_needs_a_reading_witness :
  (~ has_reading (HRFS.init example_config) ->
   HRFS.get_status 1 (HRFS.init example_config) 0 = Py.Raise Py.TypeError
   /\ HRFS.cmd_QUERY_FILAMENT_SENSOR (HRFS.init example_config) = Py.Raise Py.TypeError)
  /\ (forall c f,
         HRFS._sensor_connected (HRFS.init example_config) = Some c ->
         HRFS._filament_present (HRFS.init example_config) = Some f ->
         (exists st,
             HRFS.get_status 1 (HRFS.init example_config) 0 = Py.Ok st
             /\ SensorStatus.enabled st = sensor_enabled (HRFS.cfg (HRFS.init example_config))
             /\ SensorStatus.sensor_connected st = c
             /\ SensorStatus.filament_detected st = f
             /\ HRFS._runout (HRFS.init example_config) = Some (SensorStatus.runout st)
             /\ HRFS._underextruding (HRFS.init example_config)
                = Some (SensorStatus.underextrusion_detected st)
             /\ SensorStatus.position st = HRFS.position (HRFS.init example_config))
         /\ (exists q,
                HRFS.cmd_QUERY_FILAMENT_SENSOR (HRFS.init example_config) = Py.Ok q
                /\ SensorStatus.sensor q = c
                /\ SensorStatus.filament q = f)).
Proof.
  apply (status_needs_a_reading 1 0 (HRFS.init example_config)).
  unfold sensor_invariant. cbn. repeat split; try discriminate; constructor.
Defined.

(** ** Summary of the move transform *)

(** X25. A move that the transform hands on keeps its X, Y and Z.  Its
    extrusion and speed are changed only when the transform is enabled with
    coefficients, the extrusion is relative, the sensor's extruder is active
    and the move extrudes forward; the speed is changed only when, besides,
    the move travels less than 1e-9. *)
Theorem transform_changes_extrusion_only {C N : Type}
        (polyval : float -> option C -> Py.result float) (self : NLE.t C N)
        (newpos p : NLE.coordinates) (speed v : float) (next : N) :
  NLE.move polyval self newpos speed = Py.Ok (next, p, v) ->
  NLE._next_transform self = Some next
  /\ NLE.axis0 p = NLE.axis0 newpos
  /\ NLE.axis1 p = NLE.axis1 newpos
  /\ NLE.axis2 p = NLE.axis2 newpos
  /\ ((p = newpos /\ v = speed)
      \/ (NLE.enabled self = true
          /\ NLE.coefficients self <> None
          /\ exists gm th,
               NLE.gcode_move self = Some gm /\ NLE.toolhead self = Some th
               /\ NLE.absolute_coord gm && NLE.absolute_extrude gm = false
               /\ NLE.extruder_is_sensors th = true
               /\ PrimFloat.ltb 0 (NLE.axis3 newpos - NLE.axis3 (NLE.commanded_pos th)) = true))
  /\ (forall th,
         NLE.toolhead self = Some th ->
         let d0 := (NLE.axis0 newpos - NLE.axis0 (NLE.commanded_pos th))%float in
         let d1 := (NLE.axis1 newpos - NLE.axis1 (NLE.commanded_pos th))%float in
         let d2 := (NLE.axis2 newpos - NLE.axis2 (NLE.commanded_pos th))%float in
         PrimFloat.ltb (PrimFloat.sqrt (0 + d0 * d0 + d1 * d1 + d2 * d2))
                       0x1.12e0be826d695p-30 = false ->
         v = speed).
Proof.
  intros H.
  destruct (move_changes_extrusion_only polyval self newpos p speed v next H)
    as (H1 & H2 & H3 & H4 & H5).
  do 5 (split; [assumption|]).
  intros th T. exact (move_speed_of_travel polyval self newpos p speed v next th H T).
Qed.

Lemma transform_changes_extrusion_only_witness :
  let self := example_transform in
  let newpos := example_target in
  let p := {| NLE.axis0 := 0; NLE.axis1 := 0; NLE.axis2 := 0; NLE.axis3 := 2 |} in
  NLE._next_transform self = Some tt
  /\ NLE.axis0 p = NLE.axis0 newpos
  /\ NLE.axis1 p = NLE.axis1 newpos
  /\ NLE.axis2 p = NLE.axis2 newpos
  /\ ((p = newpos /\ 8%float = 4%float)
      \/ (NLE.enabled self = true
          /\ NLE.coefficients self <> None
          /\ exists gm th,
               NLE.gcode_move self = Some gm /\ NLE.toolhead self = Some th
               /\ NLE.absolute_coord gm && NLE.absolute_extrude gm = false
               /\ NLE.extruder_is_sensors th = true
               /\ PrimFloat.ltb 0 (NLE.axis3 newpos - NLE.axis3 (NLE.commanded_pos th)) = true))
  /\ (forall th,
         NLE.toolhead self = Some th ->
         let d0 := (NLE.axis0 newpos - NLE.axis0 (NLE.commanded_pos th))%float in
         let d1 := (NLE.axis1 newpos - NLE.axis1 (NLE.commanded_pos th))%float in
         let d2 := (NLE.axis2 newpos - NLE.axis2 (NLE.commanded_pos th))%float in
         PrimFloat.ltb (PrimFloat.sqrt (0 + d0 * d0 + d1 * d1 + d2 * d2))
                       0x1.12e0be826d695p-30 = false ->
         8%float = 4%float).
Proof.
  apply (transform_changes_extrusion_only
           example_polyval example_transform example_target
           {| NLE.axis0 := 0; NLE.axis1 := 0; NLE.axis2 := 0; NLE.axis3 := 2 |} 4 8 tt).
  reflexivity.
Defined.

(** ** What a reading leaves alone *)

(** X28. Reading the sensor touches only the newest move: after
    [_update_state_from_sensor] the moves behind the newest one, the length of
    the ledger and the last known commanded position are as the inspection of
    the commanded move left them, whatever was read and whether the update
    returned or raised. *)
Theorem reading_touches_only_the_newest_move (h : host) (s : HRFS.t) :
  let s1 := state_after (HRFS._inspect_commanded_move h (monotonic h) s) in
  let s' := state_after (HRFS._update_state_from_sensor h s) in
  tl (HRFS._commanded_moves s') = tl (HRFS._commanded_moves s1)
  /\ length (HRFS._commanded_moves s') = length (HRFS._commanded_moves s1)
  /\ HRFS._last_epos s' = HRFS._last_epos s1.
Proof.
  intros s1 s'. unfold s1, s'. clear s1 s'.
  rewrite inspect_commanded_move_inspected. cbn [state_after].
  unfold HRFS._update_state_from_sensor.
  rewrite (bind_returns _ _ _ _ _ (inspect_commanded_move_inspected _ _ _)).
  set (s1 := inspected h (monotonic h) s).
  set (P := fun x : HRFS.t =>
              tl (HRFS._commanded_moves x) = tl (HRFS._commanded_moves s1)
              /\ length (HRFS._commanded_moves x) = length (HRFS._commanded_moves s1)
              /\ HRFS._last_epos x = HRFS._last_epos s1).
  match goal with
  | |- context [state_after (?m s1)] => assert (K : preserves P m)
  end.
  { unfold HRFS.apply_reading, HRFS.i2c_read_reg.
    keep;
      unfold HRFS._sensor_connected_changed, HRFS._filament_present_changed;
      keep; try (unfold P in *; cbn; assumption).
    all: unfold P in *; revert H;
      destruct (HRFS._commanded_moves s0) as [|move rest] eqn:E; [now rewrite E|];
      destruct (negb (CM.ended move)); [cbn; trivial | now rewrite E]. }
  specialize (K s1 ltac:(unfold P; now repeat split)).
  match goal with
  | |- context [state_after ?o] => destruct o as [a x|e x]; exact K
  end.
Qed.

(** ** What the transform raises *)

Lemma compensated_length_raises {C N : Type} (polyval : float -> option C -> Py.result float)
      (self : NLE.t C N) (e_distance speed axes_distance : float) (e : Py.exn) :
  NLE._compensated_length polyval self e_distance speed axes_distance = Py.Raise e ->
  (e = Py.ZeroDivisionError
   /\ (PrimFloat.eqb speed 0 = true
       \/ (Py.float_truthy axes_distance = true
           /\ PrimFloat.eqb (axes_distance / speed) 0 = true)))
  \/ (PrimFloat.eqb speed 0 = false
      /\ polyval (if Py.float_truthy axes_distance
                  then e_distance / (axes_distance / speed)
                  else speed)%float
                 (NLE.coefficients self) = Py.Raise e).
Proof.
  unfold NLE._compensated_length, NLE._compensated_speed, Py.truediv.
  destruct (Py.float_truthy axes_distance).
  - destruct (PrimFloat.eqb speed 0) eqn:S0; cbn.
    + intros H. injection H as <-. left. auto.
    + destruct (PrimFloat.eqb (axes_distance / speed) 0) eqn:D0; cbn.
      * intros H. injection H as <-. left. auto.
      * destruct (polyval _ _) eqn:Pv; cbn; [discriminate|].
        intros H. injection H as <-. right. auto.
  - destruct (PrimFloat.eqb speed 0) eqn:S0; cbn.
    + intros H. injection H as <-. left. auto.
    + destruct (polyval _ _) eqn:Pv; cbn; [discriminate|].
      intros H. injection H as <-. right. auto.
Qed.

Lemma compensated_length_zero_speed {C N : Type}
      (polyval : float -> option C -> Py.result float)
      (self : NLE.t C N) (e_distance speed axes_distance : float) :
  PrimFloat.eqb speed 0 = true ->
  NLE._compensated_length polyval self e_distance speed axes_distance
  = Py.Raise Py.ZeroDivisionError.
Proof.
  intros S0. unfold NLE._compensated_length, Py.truediv.
  destruct (Py.float_truthy axes_distance); rewrite S0; reflexivity.
Qed.

(** X29. [NonLinearExtrusion.move] raises in three cases only.  Without a
    next transform it raises an [AttributeError].  When the compensation
    applies to a move that extrudes forward, it raises a [ZeroDivisionError]
    if the speed is zero, or if the move travels and the duration of its own
    travel, [axes_distance / speed], is zero; otherwise it raises what the
    polynomial evaluation raises at the extrusion speed of the move.  A move
    to which the compensation does not apply is never the cause.  Conversely,
    a zero speed makes every forward extrusion under compensation raise the
    [ZeroDivisionError]. *)
Theorem transform_raises_only {C N : Type} (polyval : float -> option C -> Py.result float)
        (self : NLE.t C N) (newpos : NLE.coordinates) (speed : float) :
  (forall e,
      NLE.move polyval self newpos speed = Py.Raise e ->
      (NLE._next_transform self = None /\ e = Py.AttributeError)
      \/ (NLE._can_apply_compensation self = true
          /\ exists th,
               NLE.toolhead self = Some th
               /\ let oldpos := NLE.commanded_pos th in
                  let d0 := (NLE.axis0 newpos - NLE.axis0 oldpos)%float in
                  let d1 := (NLE.axis1 newpos - NLE.axis1 oldpos)%float in
                  let d2 := (NLE.axis2 newpos - NLE.axis2 oldpos)%float in
                  let extrude_d := (NLE.axis3 newpos - NLE.axis3 oldpos)%float in
                  let move_d := PrimFloat.sqrt (0 + d0 * d0 + d1 * d1 + d2 * d2) in
                  let axes_distance :=
                    if PrimFloat.ltb move_d 0x1.12e0be826d695p-30 then 0%float else move_d in
                  PrimFloat.ltb 0 extrude_d = true
                  /\ ((e = Py.ZeroDivisionError
                       /\ (PrimFloat.eqb speed 0 = true
                           \/ (Py.float_truthy axes_distance = true
                               /\ PrimFloat.eqb (axes_distance / speed) 0 = true)))
                      \/ (PrimFloat.eqb speed 0 = false
                          /\ polyval (if Py.float_truthy axes_distance
                                      then extrude_d / (axes_distance / speed)
                                      else speed)%float
                                     (NLE.coefficients self) = Py.Raise e))))
  /\ (forall th,
         NLE._can_apply_compensation self = true ->
         NLE.toolhead self = Some th ->
         PrimFloat.ltb 0 (NLE.axis3 newpos - NLE.axis3 (NLE.commanded_pos th)) = true ->
         PrimFloat.eqb speed 0 = true ->
         NLE.move polyval self newpos speed = Py.Raise Py.ZeroDivisionError).
Proof.
  split.
  - intros e H. unfold NLE.move in H.
    assert (Next : forall (newpos : NLE.coordinates) (speed : float),
               match NLE._next_transform self with
               | Some next => Py.Ok (next, newpos, speed)
               | None => Py.Raise Py.AttributeError
               end = Py.Raise e ->
               NLE._next_transform self = None /\ e = Py.AttributeError).
    { intros p v. destruct (NLE._next_transform self); [discriminate|].
      intros E. now injection E as <-. }
    destruct (NLE._can_apply_compensation self) eqn:A.
    + destruct (NLE.toolhead self) as [th|] eqn:T.
      * cbv zeta in H. destruct (PrimFloat.ltb 0 _) eqn:D.
        -- destruct (NLE._compensated_length _ _ _ _ _) as [[new_length new_speed]|e'] eqn:L.
           ++ cbn in H. left. exact (Next _ _ H).
           ++ cbn in H. injection H as ->. right. split; [reflexivity|].
              exists th. split; [reflexivity|]. cbv zeta. split; [exact D|].
              exact (compensated_length_raises polyval self _ _ _ _ L).
        -- cbn in H. left. exact (Next _ _ H).
      * unfold NLE._can_apply_compensation in A. rewrite T in A.
        now destruct (NLE.coefficients self), (NLE.gcode_move self).
    + cbn in H. left. exact (Next _ _ H).
  - intros th A T D S0. unfold NLE.move. rewrite A, T. cbv zeta. rewrite D.
    now rewrite (compensated_length_zero_speed polyval self _ _ _ S0).
Qed.

(** Extruding one millimetre at speed zero, without travel: the move
    raises, and it is the zero speed that makes it raise. *)
Lemma transform_raises_only_witness :
  NLE.move example_polyval example_transform example_target 0 = Py.Raise Py.ZeroDivisionError
  /\ NLE._next_transform example_transform <> None
  /\ NLE._can_apply_compensation example_transform = true
  /\ exists th,
       NLE.toolhead example_transform = Some th
       /\ PrimFloat.ltb 0 (NLE.axis3 example_target - NLE.axis3 (NLE.commanded_pos th)) = true
       /\ PrimFloat.eqb 0 0 = true.
Proof.
  pose proof (transform_raises_only example_polyval example_transform example_target 0) as K.
  destruct K as [Only Zero].
  assert (R : NLE.move example_polyval example_transform example_target 0
              = Py.Raise Py.ZeroDivisionError).
  { apply (Zero {| NLE.extruder_is_sensors := true;
                   NLE.commanded_pos := {| NLE.axis0 := 0; NLE.axis1 := 0;
                                           NLE.axis2 := 0; NLE.axis3 := 0 |} |});
      reflexivity. }
  split; [exact R|]. split; [discriminate|].
  destruct (Only _ R) as [[_ E]|[A [th [T [D _]]]]]; [discriminate|].
  split; [exact A|]. exists th. split; [exact T|]. split; [exact D | reflexivity].
Defined.

(** ** The direction of a move *)

Lemma positive_is_not_zero (d : float) :
  PrimFloat.ltb 0 d = true -> PrimFloat.eqb d 0 = false.
Proof.
  rewrite FloatAxioms.ltb_spec, FloatAxioms.eqb_spec.
  change (Prim2SF 0) with (S754_zero false).
  destruct (Prim2SF d) as [sg|sg| |sg m ex]; try destruct sg; cbn; congruence.
Qed.

(** X30. The direction that is reported for a measured distance [d]: "idle"
    exactly when [d == 0], "extruding" exactly when [d > 0], and "reversing"
    in every other case, which includes a distance that is not a number; and
    motion is detected exactly when the direction is not "idle". *)
Theorem direction_of_distance (d : float) :
  (CM.direction_str d = CM.idle <-> PrimFloat.eqb d 0 = true)
  /\ (CM.direction_str d = CM.extruding <-> PrimFloat.ltb 0 d = true)
  /\ (CM.direction_str d = CM.reversing
      <-> PrimFloat.eqb d 0 = false /\ PrimFloat.ltb 0 d = false)
  /\ (Py.float_ne d 0 = true <-> CM.direction_str d <> CM.idle)
  /\ CM.direction_str nan = CM.reversing.
Proof.
  unfold CM.direction_str, Py.float_truthy, Py.float_ne.
  pose proof (positive_is_not_zero d) as P.
  destruct (PrimFloat.eqb d 0) eqn:Z0, (PrimFloat.ltb 0 d) eqn:L; cbn;
    try (specialize (P eq_refl); discriminate);
    repeat split; intros; try discriminate; try reflexivity; try tauto;
    try (intros E; discriminate E);
    repeat match goal with
           | H : _ /\ _ |- _ => destruct H
           end; try discriminate; try congruence.
Qed.
